(** * Red Sky API client (pkg/api/redsky/v1alpha1/api.go)

    A shallow embedding of the HTTP client of the Red Sky experiment API:
    the resource model, the metadata extractor [metaUnmarshal], the error
    classifier [unexpected] and the protocol operations of [httpAPI].

    Go values are modelled as follows.
    - [string] is Go's byte string; [int] is the 64-bit [int] of Go on
      amd64/arm64, carried by [Z].
    - [time.Duration] is an [int64] count of nanoseconds; its multiplication
      wraps around.
    - [http.Header] and [url.Values] are [gmap string (list string)].
    - a slice is the list of its elements, the nil slice being the empty
      list; the module [Memory] has slice headers and backing arrays, for
      the one operation that assigns to a slice.
    - a method with a pointer receiver is a function from the old value of
      the receiver to the new one.
    - [h.client.Do] is the only effect of an operation; operations are
      programs over it ([Prog]). *)

From Stdlib Require Import ZArith String Ascii List DecimalString DecimalPos DecimalZ Lia.
From stdpp Require Import gmap strings list sorting.

Local Open Scope string_scope.

(** ** Go's [strings] package, on the byte strings the client handles *)

Module strings.

Definition byte_in (c : ascii) (cutset : string) : bool :=
  existsb (Ascii.eqb c) (list_ascii_of_string cutset).

(** [strings.TrimLeft] for an ASCII cutset. *)
Fixpoint TrimLeft (s cutset : string) : string :=
  match s with
  | String c s' => if byte_in c cutset then TrimLeft s' cutset else s
  | EmptyString => EmptyString
  end.

(** [strings.TrimRight] for an ASCII cutset. *)
Fixpoint TrimRight (s cutset : string) : string :=
  match s with
  | EmptyString => EmptyString
  | String c s' =>
      match TrimRight s' cutset with
      | EmptyString => if byte_in c cutset then EmptyString else String c EmptyString
      | r => String c r
      end
  end.

(** [strings.Trim(s, cutset)]: every leading and trailing byte of [cutset]
    is removed.  The cutsets of the client (a space, the angle brackets,
    the double quote) are ASCII. *)
Definition Trim (s cutset : string) : string :=
  TrimRight (TrimLeft s cutset) cutset.

(** [strings.Split(s, sep)] for a separator of one byte, which is what
    every call of the client passes.  The result is never empty:
    the empty string splits into one empty piece. *)
Fixpoint Split (s : string) (sep : ascii) : list string :=
  match s with
  | EmptyString => [EmptyString]
  | String c s' =>
      if Ascii.eqb c sep then EmptyString :: Split s' sep
      else match Split s' sep with
           | h :: t => String c h :: t
           | [] => [String c EmptyString]
           end
  end.

(** [strings.Cut]: the text before and after the first [sep]. *)
Fixpoint Cut (s : string) (sep : ascii) : option (string * string) :=
  match s with
  | EmptyString => None
  | String c s' =>
      if Ascii.eqb c sep then Some (EmptyString, s')
      else match Cut s' sep with
           | Some (a, b) => Some (String c a, b)
           | None => None
           end
  end.

(** [strings.SplitN(s, sep, n)] for [n >= 0] and a separator of one byte:
    at most [n] pieces, the last one being the unsplit remainder. *)
Fixpoint SplitN (s : string) (sep : ascii) (n : nat) : list string :=
  match n with
  | O => []
  | S O => [s]
  | S n' =>
      match Cut s sep with
      | Some (a, b) => a :: SplitN b sep n'
      | None => [s]
      end
  end.

Definition lower_byte (c : ascii) : ascii :=
  let n := N_of_ascii c in
  if ((65 <=? n) && (n <=? 90))%N then ascii_of_N (n + 32) else c.

(** [strings.ToLower] on ASCII text.  The client only compares the result
    with ["rel"]; no rune outside ASCII lowers to one of these three
    letters, so the comparison has the same outcome as in Go for every
    input. *)
Fixpoint ToLower (s : string) : string :=
  match s with
  | EmptyString => EmptyString
  | String c s' => String (lower_byte c) (ToLower s')
  end.

(** [s[0]] and [s[len(s)-1]] of a string. *)
Definition first_byte (s : string) : option ascii :=
  match s with String c _ => Some c | EmptyString => None end.

Fixpoint last_byte (s : string) : option ascii :=
  match s with
  | EmptyString => None
  | String c EmptyString => Some c
  | String _ s' => last_byte s'
  end.

Definition HasPrefix (s prefix : string) : bool := String.prefix prefix s.

(** The string made of one double quote. *)
Definition dquote : string := String (ascii_of_N 34) EmptyString.

End strings.

(** ** Go's [strconv] package and machine integers *)

Module strconv.

Definition int_min : Z := - 2 ^ 63.
Definition int_max : Z := 2 ^ 63 - 1.

Definition in_int (z : Z) : bool := ((int_min <=? z) && (z <=? int_max))%Z.

Definition digit_of (c : ascii) : option Z :=
  let n := Z.of_N (N_of_ascii c) in
  if ((48 <=? n) && (n <=? 57))%Z then Some (n - 48)%Z else None.

Fixpoint parse_digits (s : string) (acc : Z) : option Z :=
  match s with
  | EmptyString => Some acc
  | String c s' =>
      match digit_of c with
      | Some d => parse_digits s' (acc * 10 + d)%Z
      | None => None
      end
  end.

(** [strconv.Atoi]: an optional sign, then one or more decimal digits and
    nothing else; a value outside [int] is a range error.  [None] stands
    for a non-nil [err]. *)
Definition Atoi (s : string) : option Z :=
  let '(neg, ds) :=
    match s with
    | String "-"%char r => (true, r)
    | String "+"%char r => (false, r)
    | _ => (false, s)
    end in
  match ds with
  | EmptyString => None
  | _ =>
      match parse_digits ds 0 with
      | Some n =>
          let v := if neg then (- n)%Z else n in
          if in_int v then Some v else None
      | None => None
      end
  end.

(** [strconv.Itoa]: the decimal digits, with a leading minus sign for a
    negative number. *)
Definition Itoa (z : Z) : string := NilZero.string_of_int (Z.to_int z).

End strconv.

(** ** [time.Duration] *)

Module time.

(** An [int64] count of nanoseconds. *)
Definition Duration := Z.

Definition wrap64 (z : Z) : Z := ((z + 2 ^ 63) mod 2 ^ 64 - 2 ^ 63)%Z.

Definition Second : Duration := 1000000000%Z.

(** [d1 * d2] on [int64]: the product wraps around. *)
Definition mul (d1 d2 : Duration) : Duration := wrap64 (d1 * d2).

(** [time.Time], to the second. *)
Definition Time := Z.

End time.

(** ** [net/url]: query escaping and [url.Values] *)

Module url.

Definition is_alnum (n : N) : bool :=
  (((48 <=? n) && (n <=? 57)) || ((65 <=? n) && (n <=? 90))
   || ((97 <=? n) && (n <=? 122)))%N.

Inductive encoding := encodePathSegment | encodeQueryComponent.

(** [shouldEscape(c, mode)] for the two modes the client reaches: the
    unreserved bytes stay as they are, and so do, in a path segment, the
    reserved bytes other than the slash, the semicolon, the comma and the
    question mark. *)
Definition shouldEscape (c : ascii) (mode : encoding) : bool :=
  let n := N_of_ascii c in
  if is_alnum n then false
  else if ((n =? 45) || (n =? 95) || (n =? 46) || (n =? 126))%N then false
  else if strings.byte_in c "$&+,/:;=?@" then
    match mode with
    | encodePathSegment => strings.byte_in c "/;,?"
    | encodeQueryComponent => true
    end
  else true.

Definition is_query (mode : encoding) : bool :=
  match mode with encodeQueryComponent => true | encodePathSegment => false end.

Definition upperhex (n : N) : ascii :=
  if (n <? 10)%N then ascii_of_N (48 + n) else ascii_of_N (55 + n).

Fixpoint escape (s : string) (mode : encoding) : string :=
  match s with
  | EmptyString => EmptyString
  | String c s' =>
      if shouldEscape c mode then
        if Ascii.eqb c " "%char && is_query mode
        then String "+"%char (escape s' mode)
        else
          String "%"%char
            (String (upperhex (N_of_ascii c / 16))
               (String (upperhex (N_of_ascii c mod 16)) (escape s' mode)))
      else String c (escape s' mode)
  end.

(** [url.QueryEscape] and [url.PathEscape]. *)
Definition QueryEscape (s : string) : string := escape s encodeQueryComponent.
Definition PathEscape (s : string) : string := escape s encodePathSegment.

(** [url.Values.Set]: the key gets the one value. *)
Definition Set_ (v : gmap string (list string)) (key value : string)
  : gmap string (list string) :=
  <[key := [value]]> v.

(** The keys of the map in Go's string order (bytewise). *)
Definition sorted_keys (v : gmap string (list string)) : list string :=
  merge_sort (fun a b => bool_decide (String.leb a b = true)) (elements (dom v)).

Definition write_pair (keyEscaped : string) (buf value : string) : string :=
  let buf := if (0 <? String.length buf)%nat then buf ++ "&" else buf in
  buf ++ keyEscaped ++ "=" ++ QueryEscape value.

(** [url.Values.Encode]: ["k1=v1&k2=v2"], keys sorted. *)
Definition Encode (v : gmap string (list string)) : string :=
  fold_left
    (fun buf k => fold_left (write_pair (QueryEscape k)) (default [] (v !! k)) buf)
    (sorted_keys v) EmptyString.


End url.

(** ** The list query *)

Record ExperimentListQuery := { Offset : Z; Limit : Z }.

(** The [Encode] method of [ExperimentListQuery]; the pointer receiver may
    be nil ([None]). *)
Definition ExperimentListQuery_Encode (p : option ExperimentListQuery) : string :=
  let q : gmap string (list string) := ∅ in
  let q :=
    match p with
    | Some p' => if negb (Offset p' =? 0)%Z
                 then url.Set_ q "offset" (strconv.Itoa (Offset p')) else q
    | None => q
    end in
  let q :=
    match p with
    | Some p' => if negb (Limit p' =? 0)%Z
                 then url.Set_ q "limit" (strconv.Itoa (Limit p')) else q
    | None => q
    end in
  url.Encode q.

(** ** [net/http]: status codes, headers, requests and responses *)

Definition bytes := list Byte.byte.

#[global] Instance byte_eq_dec : EqDecision Byte.byte := Byte.byte_eq_dec.

Module http.

Definition StatusOK : Z := 200.
Definition StatusCreated : Z := 201.
Definition StatusNoContent : Z := 204.
Definition StatusBadRequest : Z := 400.
Definition StatusUnauthorized : Z := 401.
Definition StatusNotFound : Z := 404.
Definition StatusConflict : Z := 409.
Definition StatusGone : Z := 410.
Definition StatusUnprocessableEntity : Z := 422.
Definition StatusServiceUnavailable : Z := 503.

Definition MethodGet := "GET".
Definition MethodPost := "POST".
Definition MethodPut := "PUT".
Definition MethodDelete := "DELETE".

Definition upper_byte (c : ascii) : ascii :=
  let n := N_of_ascii c in
  if ((97 <=? n) && (n <=? 122))%N then ascii_of_N (n - 32) else c.

Fixpoint canon (upper : bool) (s : string) : string :=
  match s with
  | EmptyString => EmptyString
  | String c s' =>
      let c' := if upper then upper_byte c else strings.lower_byte c in
      String c' (canon (Ascii.eqb c' "-"%char) s')
  end.

(** [http.CanonicalHeaderKey] on a header name made of letters, digits
    and dashes: the first letter and every letter after a dash in upper
    case, the others in lower case. *)
Definition CanonicalHeaderKey (s : string) : string := canon true s.

(** [http.Header.Get]: the first value of the key, or the empty string. *)
Definition Get (h : gmap string (list string)) (key : string) : string :=
  match h !! CanonicalHeaderKey key with
  | Some (v :: _) => v
  | _ => EmptyString
  end.

(** [http.Header.Set]. *)
Definition Set_ (h : gmap string (list string)) (key value : string)
  : gmap string (list string) :=
  <[CanonicalHeaderKey key := [value]]> h.

(** [header[key]]: the values of a key, none when the key is absent. *)
Definition values (h : gmap string (list string)) (key : string) : list string :=
  default [] (h !! key).

Record Request := {
  Method : string;
  URL : string;
  ReqHeader : gmap string (list string);
  Body : option bytes
}.

Record Response := {
  StatusCode : Z;
  Header : gmap string (list string)
}.

End http.

(** ** Errors *)

Definition ErrorType := string.

Definition ErrExperimentNameInvalid : ErrorType := "experiment-name-invalid".
Definition ErrExperimentNameConflict : ErrorType := "experiment-name-conflict".
Definition ErrExperimentInvalid : ErrorType := "experiment-invalid".
Definition ErrExperimentNotFound : ErrorType := "experiment-not-found".
Definition ErrExperimentStopped : ErrorType := "experiment-stopped".
Definition ErrTrialInvalid : ErrorType := "trial-invalid".
Definition ErrTrialUnavailable : ErrorType := "trial-unavailable".
Definition ErrTrialNotFound : ErrorType := "trial-not-found".

(** The struct [Error]; a field left out of a literal is zero. *)
Record Error := { Type_ : ErrorType; RetryAfter : time.Duration }.

(** The values of Go's [error] interface that reach a caller of the
    client: a pointer to an [Error], an error built by [fmt.Errorf], or an
    error of the transport, of [net/http] or of [encoding/json]. *)
Inductive error :=
| ApiError (e : Error)
| Errorf (msg : string)
| LibError (msg : string).

#[global] Instance Error_eq_dec : EqDecision Error.
Proof. unfold EqDecision, Decision, ErrorType, time.Duration. repeat decide equality. Defined.

#[global] Instance error_eq_dec : EqDecision error.
Proof. solve_decision. Defined.

(** ** The resource model *)

(** A [float64], by its IEEE 754 bit pattern. *)
Definition float64 := Z.

Record Optimization := {
  ExperimentBudget : Z;
  ParallelTrials : Z;
  BurnIn : Z
}.

Record Metric := { MetricName_ : string; Minimize : bool }.

Definition ParameterType := string.
Definition ParameterTypeInteger : ParameterType := "int".
Definition ParameterTypeDouble : ParameterType := "double".

Record Bounds := { Min : string; Max : string }.

Record Parameter_ := {
  ParameterName_ : string;
  ParamType : ParameterType;
  ParamBounds : Bounds
}.

Record ExperimentMeta := {
  Self : string;
  Trials_ : string;
  NextTrial_ : string
}.

Record Experiment := {
  Experiment_Meta : ExperimentMeta;
  DisplayName : string;
  Optimization_ : Optimization;
  Metrics : list Metric;
  Parameters_ : list Parameter_
}.

Record ExperimentItem := { Item : Experiment; ItemRef : string }.

Record ExperimentListMeta := { Next : string; Prev : string }.

Record ExperimentList := {
  ExperimentList_Meta : ExperimentListMeta;
  Experiments : list ExperimentItem
}.

Record TrialMeta := { ReportTrial_ : string }.

Record Assignment := { ParameterName : string; AssignmentValue : string }.

Record TrialAssignments := {
  Trial_Meta : TrialMeta;
  Assignments : list Assignment
}.

Record Value := { MetricName : string; Value_ : float64; Error_ : float64 }.

Record TrialValues := { Values : list Value; Failed : bool }.

Definition TrialStatus := string.
Definition TrialStaged : TrialStatus := "staged".
Definition TrialActive : TrialStatus := "active".
Definition TrialCompleted : TrialStatus := "completed".
Definition TrialFailed : TrialStatus := "failed".

Record TrialItem := {
  Item_Assignments : TrialAssignments;
  Item_Values : TrialValues;
  Status : TrialStatus;
  Labels : gmap string string
}.

Record TrialList := { Trials : list TrialItem }.

(** The zero values [T{}]. *)
Definition ExperimentMeta_zero : ExperimentMeta :=
  {| Self := ""; Trials_ := ""; NextTrial_ := "" |}.
Definition Experiment_zero : Experiment :=
  {| Experiment_Meta := ExperimentMeta_zero; DisplayName := "";
     Optimization_ := {| ExperimentBudget := 0; ParallelTrials := 0; BurnIn := 0 |};
     Metrics := []; Parameters_ := [] |}.
Definition ExperimentList_zero : ExperimentList :=
  {| ExperimentList_Meta := {| Next := ""; Prev := "" |}; Experiments := [] |}.
Definition TrialAssignments_zero : TrialAssignments :=
  {| Trial_Meta := {| ReportTrial_ := "" |}; Assignments := [] |}.
Definition TrialList_zero : TrialList := {| Trials := [] |}.

(** ** The metadata sinks *)

Definition endpointExperiment := "/experiments".

Definition relationSelf := "self".
Definition relationNext := "next".
Definition relationPrev := "prev".
Definition relationPrevious := "previous".
Definition relationTrials := "https://carbonrelay.com/rel/trials".
Definition relationNextTrial := "https://carbonrelay.com/rel/nextTrial".

(** The interface [Meta]. *)
Class Meta (M : Type) := {
  SetLocation : string -> M -> M;
  SetLastModified : time.Time -> M -> M;
  SetLink : string -> string -> M -> M
}.

Definition ExperimentMeta_SetLink (rel link : string) (m : ExperimentMeta) : ExperimentMeta :=
  if String.eqb rel relationSelf then
    {| Self := link; Trials_ := Trials_ m; NextTrial_ := NextTrial_ m |}
  else if String.eqb rel relationTrials then
    {| Self := Self m; Trials_ := link; NextTrial_ := NextTrial_ m |}
  else if String.eqb rel relationNextTrial then
    {| Self := Self m; Trials_ := Trials_ m; NextTrial_ := link |}
  else m.

#[global] Instance ExperimentMeta_Meta : Meta ExperimentMeta := {
  SetLocation _ m := m;
  SetLastModified _ m := m;
  SetLink := ExperimentMeta_SetLink
}.

Definition ExperimentListMeta_SetLink (rel link : string) (m : ExperimentListMeta)
  : ExperimentListMeta :=
  if String.eqb rel relationNext then
    {| Next := link; Prev := Prev m |}
  else if String.eqb rel relationPrev || String.eqb rel relationPrevious then
    {| Next := Next m; Prev := link |}
  else m.

#[global] Instance ExperimentListMeta_Meta : Meta ExperimentListMeta := {
  SetLocation _ m := m;
  SetLastModified _ m := m;
  SetLink := ExperimentListMeta_SetLink
}.

#[global] Instance TrialMeta_Meta : Meta TrialMeta := {
  SetLocation location _ := {| ReportTrial_ := location |};
  SetLastModified _ m := m;
  SetLink _ _ m := m
}.

(** A sink that records every call, in order; it stands for an arbitrary
    implementation of [Meta] when the calls themselves are of interest. *)
Inductive MetaCall :=
| CallSetLocation (location : string)
| CallSetLastModified (t : time.Time)
| CallSetLink (rel link : string).

#[global] Instance Recorder_Meta : Meta (list MetaCall) := {
  SetLocation location m := (m ++ [CallSetLocation location])%list;
  SetLastModified t m := (m ++ [CallSetLastModified t])%list;
  SetLink rel link m := (m ++ [CallSetLink rel link])%list
}.

(** ** The collaborators of the client *)

(** A Go result [(v, err)] of which only one side is used. *)
Inductive result (A : Type) :=
| Ok (a : A)
| Err (e : error).
Arguments Ok {A} a.
Arguments Err {A} e.

(** What the client takes from [net/http], [net/url], [encoding/json] and
    the package [api]: date and URL parsing and the JSON codec of each
    resource.  [json_Unmarshal_T body v] is [json.Unmarshal(body, &v)]: the
    value left in [v] and the error. *)
Class Env := {
  http_ParseTime : string -> option time.Time;
  url_Parse : string -> option error;
  client_URL : string -> string;
  json_Marshal_Experiment : Experiment -> result bytes;
  json_Marshal_TrialAssignments : TrialAssignments -> result bytes;
  json_Marshal_TrialValues : TrialValues -> result bytes;
  json_Unmarshal_Experiment : bytes -> Experiment -> Experiment * option error;
  json_Unmarshal_ExperimentList : bytes -> ExperimentList -> ExperimentList * option error;
  json_Unmarshal_TrialAssignments :
    bytes -> TrialAssignments -> TrialAssignments * option error;
  json_Unmarshal_TrialList : bytes -> TrialList -> TrialList * option error
}.

(** [encoding/json] leaves alone the fields tagged [json:"-"], which are
    the metadata of a resource. *)
Class JsonTags (E : Env) : Prop := {
  json_Unmarshal_Experiment_meta : forall body e,
    Experiment_Meta (json_Unmarshal_Experiment body e).1 = Experiment_Meta e;
  json_Unmarshal_ExperimentList_meta : forall body l,
    ExperimentList_Meta (json_Unmarshal_ExperimentList body l).1 = ExperimentList_Meta l;
  json_Unmarshal_TrialAssignments_meta : forall body a,
    Trial_Meta (json_Unmarshal_TrialAssignments body a).1 = Trial_Meta a
}.

(** The programs of the client: a result, or a call of [h.client.Do] with
    the request and what is done with its three results. *)
Inductive Prog (A : Type) :=
| Ret (a : A)
| Do (req : http.Request) (k : result (http.Response * bytes) -> Prog A).
Arguments Ret {A} a.
Arguments Do {A} req k.

(** A transport answers a request. *)
Definition Client := http.Request -> result (http.Response * bytes).

Fixpoint run {A : Type} (c : Client) (p : Prog A) : A :=
  match p with
  | Ret a => a
  | Do req k => run c (k (c req))
  end.

(** The requests a program hands to the transport, in order. *)
Fixpoint sent {A : Type} (c : Client) (p : Prog A) : list http.Request :=
  match p with
  | Ret _ => []
  | Do req k => req :: sent c (k (c req))
  end.

(** The two errors of [unexpected]: [fmt.Errorf("unauthorized")] and
    [fmt.Errorf("unexpected server response: %d", status)]. *)
Definition unauthorized : error := Errorf "unauthorized".

Definition unexpected_response (status : Z) : error :=
  Errorf ("unexpected server response: " ++ strconv.Itoa status).

(** [unexpected]. *)
Definition unexpected (resp : http.Response) : error :=
  if (http.StatusCode resp =? http.StatusUnauthorized)%Z then unauthorized
  else unexpected_response (http.StatusCode resp).

Section Operations.

Context `{E : Env}.

(** [http.NewRequest] with one of the four method constants: it fails
    when the URL does not parse. *)
Definition NewRequest (method u : string) (body : option bytes) : result http.Request :=
  match url_Parse u with
  | Some err => Err err
  | None => Ok {| http.Method := method; http.URL := u;
                  http.ReqHeader := ∅; http.Body := body |}
  end.

(** [req.Header.Set(key, value)]. *)
Definition Request_Header_Set (req : http.Request) (key value : string) : http.Request :=
  {| http.Method := http.Method req; http.URL := http.URL req;
     http.ReqHeader := http.Set_ (http.ReqHeader req) key value;
     http.Body := http.Body req |}.

(** One turn of the inner loop of [metaUnmarshal]: the segment [l] of a
    link entry updates the pair of [link] and [rel]. *)
Definition link_segment (lr : string * string) (l : string) : string * string :=
  let l := strings.Trim l " " in
  if String.eqb l "" then lr
  else if bool_decide (strings.first_byte l = Some "<"%char)
          && bool_decide (strings.last_byte l = Some ">"%char)
  then (strings.Trim l "<>", lr.2)
  else
    match strings.SplitN l "="%char 2 with
    | [p0; p1] =>
        if String.eqb (strings.ToLower p0) "rel"
        then (lr.1, strings.Trim p1 strings.dquote) else lr
    | _ => lr
    end.

(** The body of the loop over the entries of one [Link] header. *)
Definition link_entry {M : Type} `{Meta M} (meta : M) (h : string) : M :=
  let '(link, rel) := fold_left link_segment (strings.Split h ";"%char) ("", "") in
  SetLink rel link meta.

Definition link_header {M : Type} `{Meta M} (meta : M) (rh : string) : M :=
  fold_left link_entry (strings.Split rh ","%char) meta.

(** [metaUnmarshal]. *)
Definition metaUnmarshal {M : Type} `{Meta M} (header : gmap string (list string)) (meta : M) : M :=
  let meta :=
    let location := http.Get header "Location" in
    if negb (String.eqb location "") then SetLocation location meta else meta in
  let meta :=
    let text := http.Get header "Last-Modified" in
    if negb (String.eqb text "") then
      match http_ParseTime text with
      | Some lastModified => SetLastModified lastModified meta
      | None => meta
      end
    else meta in
  fold_left link_header (http.values header (http.CanonicalHeaderKey "Link")) meta.

End Operations.

(** ** The operations of [httpAPI] *)

Section API.

Context `{E : Env}.

Definition api_error (t : ErrorType) : option error :=
  Some (ApiError {| Type_ := t; RetryAfter := 0%Z |}).

Definition with_ExperimentListMeta (m : ExperimentListMeta) (l : ExperimentList) :=
  {| ExperimentList_Meta := m; Experiments := Experiments l |}.

Definition with_ExperimentMeta (m : ExperimentMeta) (e : Experiment) :=
  {| Experiment_Meta := m; DisplayName := DisplayName e;
     Optimization_ := Optimization_ e; Metrics := Metrics e;
     Parameters_ := Parameters_ e |}.

Definition with_TrialMeta (m : TrialMeta) (a : TrialAssignments) :=
  {| Trial_Meta := m; Assignments := Assignments a |}.

Definition GetAllExperimentsByPage (u : string) : Prog (ExperimentList * option error) :=
  let lst := ExperimentList_zero in
  match NewRequest http.MethodGet u None with
  | Err err => Ret (lst, Some err)
  | Ok req =>
      Do req (fun r =>
        match r with
        | Err err => Ret (lst, Some err)
        | Ok (resp, body) =>
            if (http.StatusCode resp =? http.StatusOK)%Z then
              let lst := with_ExperimentListMeta
                           (metaUnmarshal (http.Header resp) (ExperimentList_Meta lst)) lst in
              let '(lst, err) := json_Unmarshal_ExperimentList body lst in
              Ret (lst, None)
            else Ret (lst, Some (unexpected resp))
        end)
  end.

Definition GetExperiment (u : string) : Prog (Experiment * option error) :=
  let e := Experiment_zero in
  match NewRequest http.MethodGet u None with
  | Err err => Ret (e, Some err)
  | Ok req =>
      Do req (fun r =>
        match r with
        | Err err => Ret (e, Some err)
        | Ok (resp, body) =>
            if (http.StatusCode resp =? http.StatusOK)%Z then
              let e := with_ExperimentMeta
                         (metaUnmarshal (http.Header resp) (Experiment_Meta e)) e in
              let '(e, err) := json_Unmarshal_Experiment body e in
              Ret (e, err)
            else if (http.StatusCode resp =? http.StatusNotFound)%Z then
              Ret (e, api_error ErrExperimentNotFound)
            else Ret (e, Some (unexpected resp))
        end)
  end.

(** [GetExperimentByName]. *)
Definition GetExperimentByName (n : string) : Prog (Experiment * option error) :=
  GetExperiment (client_URL (endpointExperiment ++ "/" ++ url.PathEscape n)).

(** [CreateExperiment]; [body] is the marshalled argument and stays so:
    the body of the response is the blank result of [h.client.Do]. *)
Definition CreateExperiment (n : string) (exp : Experiment)
  : Prog (Experiment * option error) :=
  let e := Experiment_zero in
  let u := client_URL (endpointExperiment ++ "/" ++ url.PathEscape n) in
  match json_Marshal_Experiment exp with
  | Err err => Ret (e, Some err)
  | Ok body =>
      match NewRequest http.MethodPut u (Some body) with
      | Err err => Ret (e, Some err)
      | Ok req =>
          let req := Request_Header_Set req "Content-Type" "application/json" in
          Do req (fun r =>
            match r with
            | Err err => Ret (e, Some err)
            | Ok (resp, _) =>
                if (http.StatusCode resp =? http.StatusOK)%Z then
                  let e := with_ExperimentMeta
                             (metaUnmarshal (http.Header resp) (Experiment_Meta e)) e in
                  let '(e, err) := json_Unmarshal_Experiment body e in
                  Ret (e, None)
                else if (http.StatusCode resp =? http.StatusCreated)%Z then
                  let e := with_ExperimentMeta
                             (metaUnmarshal (http.Header resp) (Experiment_Meta e)) e in
                  let '(e, err) := json_Unmarshal_Experiment body e in
                  Ret (e, None)
                else if (http.StatusCode resp =? http.StatusBadRequest)%Z then
                  Ret (e, api_error ErrExperimentNameInvalid)
                else if (http.StatusCode resp =? http.StatusConflict)%Z then
                  Ret (e, api_error ErrExperimentNameConflict)
                else if (http.StatusCode resp =? http.StatusUnprocessableEntity)%Z then
                  Ret (e, api_error ErrExperimentInvalid)
                else Ret (e, Some (unexpected resp))
            end)
      end
  end.

Definition DeleteExperiment (u : string) : Prog (option error) :=
  match NewRequest http.MethodDelete u None with
  | Err err => Ret (Some err)
  | Ok req =>
      Do req (fun r =>
        match r with
        | Err err => Ret (Some err)
        | Ok (resp, _) =>
            if (http.StatusCode resp =? http.StatusNoContent)%Z then Ret None
            else if (http.StatusCode resp =? http.StatusNotFound)%Z then
              Ret (api_error ErrExperimentNotFound)
            else Ret (Some (unexpected resp))
        end)
  end.

Definition GetAllTrials (u : string) : Prog (TrialList * option error) :=
  let lst := TrialList_zero in
  match NewRequest http.MethodGet u None with
  | Err err => Ret (lst, Some err)
  | Ok req =>
      Do req (fun r =>
        match r with
        | Err err => Ret (lst, Some err)
        | Ok (resp, body) =>
            if (http.StatusCode resp =? http.StatusOK)%Z then
              let '(lst, err) := json_Unmarshal_TrialList body lst in
              Ret (lst, None)
            else Ret (lst, Some (unexpected resp))
        end)
  end.

Definition CreateTrial (u : string) (asm : TrialAssignments) : Prog (string * option error) :=
  let l := "" in
  match json_Marshal_TrialAssignments asm with
  | Err err => Ret (l, Some err)
  | Ok body =>
      match NewRequest http.MethodPost u (Some body) with
      | Err err => Ret (l, Some err)
      | Ok req =>
          let req := Request_Header_Set req "Content-Type" "application/json" in
          Do req (fun r =>
            match r with
            | Err err => Ret (l, Some err)
            | Ok (resp, _) =>
                if (http.StatusCode resp =? http.StatusCreated)%Z then
                  let l := http.Get (http.Header resp) "Location" in
                  Ret (l, None)
                else if (http.StatusCode resp =? http.StatusUnprocessableEntity)%Z then
                  Ret ("", api_error ErrTrialInvalid)
                else Ret (l, Some (unexpected resp))
            end)
      end
  end.

Definition NextTrial (u : string) : Prog (TrialAssignments * option error) :=
  let asm := TrialAssignments_zero in
  match NewRequest http.MethodPost u None with
  | Err err => Ret (asm, Some err)
  | Ok req =>
      Do req (fun r =>
        match r with
        | Err err => Ret (asm, Some err)
        | Ok (resp, body) =>
            if (http.StatusCode resp =? http.StatusOK)%Z then
              let asm := with_TrialMeta
                           (metaUnmarshal (http.Header resp) (Trial_Meta asm)) asm in
              let '(asm, err) := json_Unmarshal_TrialAssignments body asm in
              Ret (asm, err)
            else if (http.StatusCode resp =? http.StatusGone)%Z then
              Ret (asm, api_error ErrExperimentStopped)
            else if (http.StatusCode resp =? http.StatusServiceUnavailable)%Z then
              let ra :=
                match strconv.Atoi (http.Get (http.Header resp) "Retry-After") with
                | Some ra => ra
                | None => 5%Z
                end in
              Ret (asm, Some (ApiError {| Type_ := ErrTrialUnavailable;
                                          RetryAfter := time.mul ra time.Second |}))
            else Ret (asm, Some (unexpected resp))
        end)
  end.

(** [ReportTrial] from the call of [json.Marshal] on: [vls] is the
    parameter as the first statement has left it. *)
Definition report (u : string) (vls : TrialValues) : Prog (option error) :=
  match json_Marshal_TrialValues vls with
  | Err err => Ret (Some err)
  | Ok body =>
      match NewRequest http.MethodPost u (Some body) with
      | Err err => Ret (Some err)
      | Ok req =>
          let req := Request_Header_Set req "Content-Type" "application/json" in
          Do req (fun r =>
            match r with
            | Err err => Ret (Some err)
            | Ok (resp, _) =>
                if (http.StatusCode resp =? http.StatusCreated)%Z then Ret None
                else if (http.StatusCode resp =? http.StatusNotFound)%Z then
                  Ret (api_error ErrTrialNotFound)
                else if (http.StatusCode resp =? http.StatusUnprocessableEntity)%Z then
                  Ret (api_error ErrTrialInvalid)
                else Ret (Some (unexpected resp))
            end)
      end
  end.

(** [ReportTrial]: [vls] is the callee's copy of the argument. *)
Definition ReportTrial (u : string) (vls : TrialValues) : Prog (option error) :=
  let vls := if Failed vls then {| Values := []; Failed := Failed vls |} else vls in
  report u vls.

End API.

(** ** An environment for the examples

    It knows the JSON text of the few values the examples use, which is the
    text [encoding/json] reads and writes for them, and one HTTP date; it
    reports an error on any other value, body or date.  URLs with a control
    byte do not parse (the first check of [url.Parse]); the examples use no
    other malformed URL. *)

Module Sample.

Definition text (s : string) : bytes := list_byte_of_string s.

Definition q : string := strings.dquote.

Definition has_control_byte (s : string) : bool :=
  existsb (fun c => let n := N_of_ascii c in ((n <? 32) || (n =? 127))%N)
          (list_ascii_of_string s).

Definition failed_body : bytes := text ("{" ++ q ++ "failed" ++ q ++ ":true}").
Definition empty_object : bytes := text "{}".
Definition no_assignments : bytes :=
  text ("{" ++ q ++ "assignments" ++ q ++ ":[]}").
Definition no_trials : bytes := text ("{" ++ q ++ "trials" ++ q ++ ":[]}").
Definition zero_experiment : bytes :=
  text ("{" ++ q ++ "optimization" ++ q ++ ":{}," ++ q ++ "metrics" ++ q ++ ":null,"
        ++ q ++ "parameters" ++ q ++ ":null}").

Definition renamed_experiment : bytes :=
  text ("{" ++ q ++ "displayName" ++ q ++ ":" ++ q ++ "b" ++ q ++ "}").
Definition null_assignments : bytes :=
  text ("{" ++ q ++ "assignments" ++ q ++ ":null}").
Definition not_json : bytes := text "<html>".
Definition epoch : string := "Thu, 01 Jan 1970 00:00:00 GMT".

Definition syntax_error : error := LibError "json: syntax error".
Definition unsupported : error := LibError "json: unsupported value".

Definition bytes_eqb (a b : list Byte.byte) : bool := bool_decide (a = b).

Definition is_blank (e : Experiment) : bool :=
  String.eqb (DisplayName e) ""
  && match Metrics e, Parameters_ e with [], [] => true | _, _ => false end
  && (ExperimentBudget (Optimization_ e) =? 0)%Z
  && (ParallelTrials (Optimization_ e) =? 0)%Z
  && (BurnIn (Optimization_ e) =? 0)%Z.

Definition Unmarshal_Experiment (body : bytes) (e : Experiment) : Experiment * option error :=
  if bytes_eqb body zero_experiment then
    ({| Experiment_Meta := Experiment_Meta e; DisplayName := DisplayName e;
        Optimization_ := Optimization_ e; Metrics := []; Parameters_ := [] |}, None)
  else if bytes_eqb body renamed_experiment then
    ({| Experiment_Meta := Experiment_Meta e; DisplayName := "b";
        Optimization_ := Optimization_ e; Metrics := Metrics e;
        Parameters_ := Parameters_ e |}, None)
  else if bytes_eqb body empty_object then (e, None)
  else (e, Some syntax_error).

Definition Unmarshal_ExperimentList (body : bytes) (l : ExperimentList)
  : ExperimentList * option error :=
  if bytes_eqb body empty_object then (l, None) else (l, Some syntax_error).

Definition Unmarshal_TrialAssignments (body : bytes) (a : TrialAssignments)
  : TrialAssignments * option error :=
  if bytes_eqb body no_assignments || bytes_eqb body null_assignments
  then ({| Trial_Meta := Trial_Meta a; Assignments := [] |}, None)
  else if bytes_eqb body empty_object then (a, None)
  else (a, Some syntax_error).

Definition Unmarshal_TrialList (body : bytes) (l : TrialList) : TrialList * option error :=
  if bytes_eqb body no_trials then ({| Trials := [] |}, None)
  else if bytes_eqb body empty_object then (l, None)
  else (l, Some syntax_error).

#[global] Instance env : Env := {|
  http_ParseTime text := if String.eqb text epoch then Some 0%Z else None;
  url_Parse u :=
    if has_control_byte u
    then Some (LibError "net/url: invalid control character in URL") else None;
  client_URL path := "http://redsky.test" ++ path;
  json_Marshal_Experiment e :=
    if is_blank e then Ok zero_experiment else Err unsupported;
  json_Marshal_TrialAssignments a :=
    match Assignments a with
    | [] => Ok null_assignments
    | _ => Err unsupported
    end;
  json_Marshal_TrialValues v :=
    match Values v with
    | [] => Ok (if Failed v then failed_body else empty_object)
    | _ => Err unsupported
    end;
  json_Unmarshal_Experiment := Unmarshal_Experiment;
  json_Unmarshal_ExperimentList := Unmarshal_ExperimentList;
  json_Unmarshal_TrialAssignments := Unmarshal_TrialAssignments;
  json_Unmarshal_TrialList := Unmarshal_TrialList
|}.

(** A transport that gives every request the same answer. *)
Definition always (status : Z) (header : gmap string (list string)) (body : bytes)
  : Client :=
  fun _ => Ok ({| http.StatusCode := status; http.Header := header |}, body).

End Sample.

(** ** Requests, status sets and the reading of an error *)

(** The request of a body-less operation and of an operation with a JSON
    body, as [http.NewRequest] and [req.Header.Set] build them. *)
Definition plain_request (method u : string) : http.Request :=
  {| http.Method := method; http.URL := u; http.ReqHeader := ∅; http.Body := None |}.

Definition json_request (method u : string) (body : bytes) : http.Request :=
  {| http.Method := method; http.URL := u;
     http.ReqHeader := {[ "Content-Type" := ["application/json"] ]};
     http.Body := Some body |}.

(** A program classifies the statuses outside [handled] with [unexpected]:
    whenever it calls the transport and is answered with such a status, it
    returns the error of [unexpected]. *)
Definition classifies {A : Type} (err_of : A -> option error) (handled : list Z)
  (p : Prog A) : Prop :=
  forall req k, p = Do req k ->
  forall resp body, ~ In (http.StatusCode resp) handled ->
  exists a, k (Ok (resp, body)) = Ret a /\ err_of a = Some (unexpected resp).

(** A program surfaces the statuses outside [handled]: whenever the
    transport answers its request [req] with such a status, [req] is the
    one request the program has sent and the program returns the error of
    [unexpected]. *)
Definition surfaces {A : Type} (err_of : A -> option error) (handled : list Z)
  (p : Prog A) (req : http.Request) : Prop :=
  forall (c : Client) resp body,
    c req = Ok (resp, body) -> ~ In (http.StatusCode resp) handled ->
    sent c p = [req] /\ err_of (run c p) = Some (unexpected resp).

(** The text after a prefix. *)
Fixpoint CutPrefix (s prefix : string) {struct prefix} : option string :=
  match prefix, s with
  | EmptyString, _ => Some s
  | String p prefix', String c s' =>
      if Ascii.eqb p c then CutPrefix s' prefix' else None
  | String _ _, EmptyString => None
  end.

(** The status code an error of [unexpected] carries in its message. *)
Definition status_of (e : error) : option Z :=
  match e with
  | Errorf msg =>
      match CutPrefix msg "unexpected server response: " with
      | Some digits => option_map Z.of_int (NilZero.int_of_string digits)
      | None => None
      end
  | _ => None
  end.

(** The bytes [Itoa] writes: decimal digits and the minus sign. *)
Definition numeric (s : string) : bool :=
  forallb (fun c => strings.byte_in c "-0123456789") (list_ascii_of_string s).

(** The longest [time.Duration] in whole seconds, [math.MaxInt64 / 1e9]. *)
Definition max_seconds : Z := 9223372036.

(** ** [ReportTrial] over a store

    The argument of [ReportTrial] is a struct passed by value: the callee
    works on its own copy of the slice header and of the flag, and shares
    with the caller only the backing array of the slice. *)

Module Memory.

(** A slice header: nil, or the backing array with the offset of the first
    element, the length and the capacity. *)
Inductive slice :=
| nil_slice
| mk_slice (array : positive) (off len cap : nat).

(** [TrialValues] as it lies in memory. *)
Record TrialValues_mem := { mValues : slice; mFailed : bool }.

(** The elements a slice header gives access to. *)
Definition load_slice (heap : gmap positive (list Value)) (s : slice) : list Value :=
  match s with
  | nil_slice => []
  | mk_slice array off len _ => take len (drop off (default [] (heap !! array)))
  end.

Definition load (heap : gmap positive (list Value)) (v : TrialValues_mem) : TrialValues :=
  {| Values := load_slice heap (mValues v); Failed := mFailed v |}.

(** The store during a call: the heap of backing arrays, the variable of
    the caller that holds the argument, and the parameter [vls] in the
    frame of the callee. *)
Record Store := {
  heap : gmap positive (list Value);
  caller_vls : TrialValues_mem;
  vls : TrialValues_mem
}.

(** The call copies the argument into the parameter. *)
Definition enter (h : gmap positive (list Value)) (arg : TrialValues_mem) : Store :=
  {| heap := h; caller_vls := arg; vls := arg |}.

(** [if vls.Failed { vls.Values = nil }]: an assignment to a field of the
    parameter. *)
Definition clear_failed (st : Store) : Store :=
  if mFailed (vls st) then
    {| heap := heap st; caller_vls := caller_vls st;
       vls := {| mValues := nil_slice; mFailed := mFailed (vls st) |} |}
  else st.

Fixpoint Prog_map {A B : Type} (f : A -> B) (p : Prog A) : Prog B :=
  match p with
  | Ret a => Ret (f a)
  | Do req k => Do req (fun r => Prog_map f (k r))
  end.

(** [ReportTrial] from the call to the return: the result is the error,
    with the heap and the caller's variable as the call leaves them.
    [json.Marshal] reads the elements through the parameter. *)
Definition ReportTrial `{E : Env} (u : string)
  (h : gmap positive (list Value)) (arg : TrialValues_mem)
  : Prog (gmap positive (list Value) * TrialValues_mem * option error) :=
  let st := enter h arg in
  let st := clear_failed st in
  Prog_map (fun err => (heap st, caller_vls st, err))
           (report u (load (heap st) (vls st))).

End Memory.

(** ** Well-formed link values *)

(** The bytes that delimit the parts of a [Link] header. *)
Definition reserved : string := " ,;<>" ++ strings.dquote.

Definition free_of (cutset s : string) : bool :=
  forallb (fun c => negb (strings.byte_in c cutset)) (list_ascii_of_string s).

(** A URI or a relation without delimiters. *)
Definition plain (s : string) : bool := free_of reserved s.

(** Leading spaces, as the text after a comma has them. *)
Fixpoint spaces (n : nat) : string :=
  match n with O => "" | S n' => String " " (spaces n') end.

(** The entry [<uri>; rel="relation"]. *)
Definition link_value (rel uri : string) : string :=
  "<" ++ uri ++ ">; rel=" ++ strings.dquote ++ rel ++ strings.dquote.

(** Entries joined by a comma and a space. *)
Fixpoint link_values (ls : list (string * string)) : string :=
  match ls with
  | [] => ""
  | (rel, uri) :: rest =>
      match rest with
      | [] => link_value rel uri
      | _ :: _ => link_value rel uri ++ ", " ++ link_values rest
      end
  end.

(** The method [Error] of [Error], [fmt.Sprintf("%s", e.Type)], and the
    message [err.Error()] of an error in general. *)
Definition Error_Error (e : Error) : string := Type_ e.

Definition error_message (err : error) : string :=
  match err with
  | ApiError e => Error_Error e
  | Errorf msg => msg
  | LibError msg => msg
  end.

(** The kinds of [Error] the client returns. *)
Definition ErrorTypes : list ErrorType :=
  [ErrExperimentNameInvalid; ErrExperimentNameConflict; ErrExperimentInvalid;
   ErrExperimentNotFound; ErrExperimentStopped; ErrTrialInvalid; ErrTrialUnavailable;
   ErrTrialNotFound].

(** ** What every operation keeps to *)

(** A program that calls the transport at most once, whatever it answers. *)
Definition single_request {A : Type} (p : Prog A) : Prop :=
  forall c : Client, length (sent c p) <= 1.

(** A program that, its request failing in the transport, returns
    [failed e] for the error [e] of the transport. *)
Definition fails_with {A : Type} (failed : error -> A) (p : Prog A) : Prop :=
  forall (c : Client) req e, In req (sent c p) -> c req = Err e -> run c p = failed e.

(** A program whose requests are all [expected]. *)
Definition requests {A : Type} (p : Prog A) (expected : http.Request) : Prop :=
  forall (c : Client) req, In req (sent c p) -> req = expected.

(** The relation or relations of [rels] last named in a list of entries
    select the URI, [old] when there is none. *)
Definition last_link (rels : list string) (ls : list (string * string)) (old : string)
  : string :=
  fold_left (fun acc p => if existsb (String.eqb p.1) rels then p.2 else acc) ls old.

(** The value of a key in a query string: the text after [key=] in the
    first piece between ampersands that starts so. *)
Definition query_value (key query : string) : option string :=
  match List.filter (fun piece => strings.HasPrefix piece (key ++ "="))
               (strings.Split query "&"%char) with
  | piece :: _ => CutPrefix piece (key ++ "=")
  | [] => None
  end.

(** ** The calls of [metaUnmarshal] *)

(** A recorded call, made on a sink. *)
Definition replay_call {M : Type} `{Meta M} (m : M) (call : MetaCall) : M :=
  match call with
  | CallSetLocation location => SetLocation location m
  | CallSetLastModified t => SetLastModified t m
  | CallSetLink rel link => SetLink rel link m
  end.

Definition replay {M : Type} `{Meta M} (calls : list MetaCall) (m : M) : M :=
  fold_left replay_call calls m.

(** The call of one entry of a [Link] header: the relation and the URI
    found in it, each empty when not found. *)
Definition entry_call (h : string) : MetaCall :=
  let '(link, rel) := fold_left link_segment (strings.Split h ";"%char) ("", "") in
  CallSetLink rel link.

(** The calls a header map leads to, in order. *)
Definition header_calls `{E : Env} (header : gmap string (list string)) : list MetaCall :=
  (if String.eqb (http.Get header "Location") "" then []
   else [CallSetLocation (http.Get header "Location")])
  ++ (if String.eqb (http.Get header "Last-Modified") "" then []
      else match http_ParseTime (http.Get header "Last-Modified") with
           | Some t => [CallSetLastModified t]
           | None => []
           end)
  ++ flat_map (fun rh => map entry_call (strings.Split rh ","%char))
       (http.values header "Link").

(** The integer value of a key in a query string, as [strconv.Atoi] reads
    it. *)
Definition query_int (key query : string) : option Z :=
  match query_value key query with
  | Some v => strconv.Atoi v
  | None => None
  end.

(** * The trial table of [redskyctl get trials] (pkg/redskyctl/cmd/get/trial_list.go)

    ** [strings.TrimPrefix], [strings.ToUpper] and [path.Base] *)

(** [strings.TrimPrefix]: [s] without the prefix when it has it. *)
Definition TrimPrefix (s prefix : string) : string :=
  match CutPrefix s prefix with
  | Some rest => rest
  | None => s
  end.

(** [strings.ToUpper] on ASCII text. *)
Fixpoint ToUpper (s : string) : string :=
  match s with
  | EmptyString => EmptyString
  | String c s' => String (http.upper_byte c) (ToUpper s')
  end.

Module path.

(** [path[i+1:]] for the last slash [i] of [path], the whole of [path]
    when it has no slash. *)
Fixpoint after_last_slash (s : string) : string :=
  match s with
  | EmptyString => EmptyString
  | String c s' =>
      if strings.byte_in "/" s' then after_last_slash s'
      else if Ascii.eqb c "/" then s' else s
  end.

(** [path.Base]: the last element of a path, after its trailing slashes
    are taken off; a dot for the empty path, a slash for a path of slashes. *)
Definition Base (p : string) : string :=
  if String.eqb p "" then "."
  else
    let p := strings.TrimRight p "/" in
    let p := after_last_slash p in
    if String.eqb p "" then "/" else p.

End path.

(** ** The table *)

Module get.

(** [strconv.FormatFloat(v, 'f', -1, 64)], which the embedding does not
    compute. *)
Class FloatText := { FormatFloat : float64 -> string }.

Record trialTableMeta := {
  parameters : list string;
  metrics : list string
}.

(** The dynamic types the methods tell apart: a pointer to a list of
    trials, a pointer to a trial, and anything else. *)
Inductive object :=
| TrialListPtr (l : TrialList)
| TrialItemPtr (t : TrialItem)
| Other (description : string).

Definition IsListType (obj : object) : bool :=
  match obj with
  | TrialListPtr _ => true
  | _ => false
  end.

Definition ExtractList (obj : object) : list object * option error :=
  match obj with
  | TrialListPtr o => (map TrialItemPtr (Trials o), None)
  | _ => ([obj], None)
  end.

(** The loop over the assignments: the value of the first one of the
    name. *)
Fixpoint assignment_of (column : string) (l : list Assignment) : option string :=
  match l with
  | [] => None
  | a :: l' =>
      if String.eqb (ParameterName a) column then Some (AssignmentValue a)
      else assignment_of column l'
  end.

(** The loop over the values: the text of the first one of the name. *)
Fixpoint value_of `{FloatText} (column : string) (l : list Value) : option string :=
  match l with
  | [] => None
  | v :: l' =>
      if String.eqb (MetricName v) column then Some (FormatFloat (Value_ v))
      else value_of column l'
  end.

Definition ExtractValue `{FloatText} (obj : object) (column : string)
  : string * option error :=
  match obj with
  | TrialItemPtr o =>
      if strings.HasPrefix column "parameter_" then
        let column := TrimPrefix column "parameter_" in
        match assignment_of column (Assignments (Item_Assignments o)) with
        | Some v => (v, None)
        | None => ("", None)
        end
      else if strings.HasPrefix column "metric_" then
        let column := TrimPrefix column "metric_" in
        match value_of column (Values (Item_Values o)) with
        | Some v => (v, None)
        | None => ("", None)
        end
      else if String.eqb column "name" then
        (path.Base (ReportTrial_ (Trial_Meta (Item_Assignments o))), None)
      else ("", None)
  | _ => ("", None)
  end.

Definition Allow (outputFormat : string) : bool := true.

Definition Columns (t : trialTableMeta) (outputFormat : string) : list string :=
  if String.eqb (strings.ToLower outputFormat) "csv" then
    List.app (map (fun p => "parameter_" ++ p) (parameters t))
             (map (fun m => "metric_" ++ m) (metrics t))
  else ["name"].

Definition Header (outputFormat column : string) : string :=
  if String.eqb (strings.ToLower outputFormat) "csv" then column
  else ToUpper column.

(** A program, then another on its result. *)
Fixpoint Prog_bind {A B : Type} (p : Prog A) (f : A -> Prog B) : Prog B :=
  match p with
  | Ret a => f a
  | Do req k => Do req (fun r => Prog_bind (k r) f)
  end.

(** [getRedSkyAPITrialList], the API being the HTTP client: the result is
    the table metadata as the call leaves it, the list ([None] for nil)
    and the error. *)
Definition getRedSkyAPITrialList `{E : Env} (experimentName : string)
    (meta : trialTableMeta) : Prog (trialTableMeta * option TrialList * option error) :=
  Prog_bind (GetExperimentByName experimentName) (fun '(exp, err) =>
    match err with
    | Some err => Ret (meta, None, Some err)
    | None =>
        let meta :=
          {| parameters := (parameters meta ++ map ParameterName_ (Parameters_ exp))%list;
             metrics := metrics meta |} in
        let meta :=
          {| parameters := parameters meta;
             metrics := (metrics meta ++ map MetricName_ (Metrics exp))%list |} in
        if String.eqb (Trials_ (Experiment_Meta exp)) "" then
          Ret (meta, Some TrialList_zero, None)
        else
          Prog_bind (GetAllTrials (Trials_ (Experiment_Meta exp))) (fun '(tl, err) =>
            match err with
            | Some err => Ret (meta, None, Some err)
            | None => Ret (meta, Some tl, None)
            end)
    end).

End get.

(** * The template data (pkg/controller/template/template.go)

    The trial, the patch template, the Helm value and the metric are
    types of the packages [apis/redsky/v1alpha1] and [apimachinery]; they
    are given here by the fields this file reads. [text/template] with the
    function map of the engine, [yaml.ToJSON] and the formatting of a
    duration in seconds are not computed. *)

Module template.

(** What a call does: it returns, or it panics. *)
Inductive outcome (A : Type) :=
| Returned (a : A)
| Panicked (msg : string).
Arguments Returned {A} a.
Arguments Panicked {A} msg.

(** [metav1.ObjectMeta], by four of its fields: the file copies it whole
    and writes the namespace only. *)
Record ObjectMeta := {
  Name : string;
  Namespace : string;
  Labels : gmap string string;
  Annotations : gmap string string
}.

Record Assignment := { AssignmentName : string; AssignmentValue : Z }.

Record TrialSpec := {
  Assignments : list Assignment;
  TargetNamespace : string
}.

(** The two times are pointers: [None] is nil. *)
Record TrialStatus := {
  StartTime : option time.Time;
  CompletionTime : option time.Time
}.

Record Trial := {
  Meta : ObjectMeta;
  Spec : TrialSpec;
  Status : TrialStatus
}.

(** [PatchData]; the map [Values] is nil ([None]) or holds entries. *)
Record PatchData := {
  PatchTrial : ObjectMeta;
  Values : option (gmap string Z)
}.

Record MetricData := {
  MetricTrial : ObjectMeta;
  MetricStartTime : time.Time;
  MetricCompletionTime : time.Time;
  Range : string
}.

(** The data a template is executed on. *)
Inductive data :=
| PatchDataPtr (d : PatchData)
| MetricDataPtr (d : MetricData).

Record PatchTemplate := { Patch : string }.

(** [intstr.IntOrString] and its method [String]. *)
Inductive IntOrString :=
| Int (i : Z)
| Str (s : string).

Definition IntOrString_String (v : IntOrString) : string :=
  match v with
  | Int i => strconv.Itoa i
  | Str s => s
  end.

Record HelmValue := { HelmName : string; HelmValue_ : IntOrString }.

Record Metric := { MetricName : string; Query : string; ErrorQuery : string }.

(** The zero [time.Time], January 1 of the year 1, in Unix seconds. *)
Definition zero_Time : time.Time := (-62135596800)%Z.

(** The engine: [render name text data] is the method [render], the text
    of the buffer or the error of parsing or executing the template;
    [seconds_text completion start] is
    [fmt.Sprintf("%.0fs", math.Max(completion.Sub(start).Seconds(), 0))]. *)
Class Engine := {
  render : string -> string -> data -> result string;
  yaml_ToJSON : string -> result bytes;
  seconds_text : time.Time -> time.Time -> string
}.

(** [m[key] = value] on a map that may be nil. *)
Definition map_store (m : option (gmap string Z)) (key : string) (value : Z)
  : outcome (option (gmap string Z)) :=
  match m with
  | None => Panicked "assignment to entry in nil map"
  | Some m' => Returned (Some (<[key := value]> m'))
  end.

(** The loop of [NewPatchData] over the assignments. *)
Fixpoint store_assignments (m : option (gmap string Z)) (l : list Assignment)
  : outcome (option (gmap string Z)) :=
  match l with
  | [] => Returned m
  | a :: l' =>
      match map_store m (AssignmentName a) (AssignmentValue a) with
      | Returned m' => store_assignments m' l'
      | Panicked msg => Panicked msg
      end
  end.

(** [NewPatchData]: [d := &PatchData{}] leaves the map nil. *)
Definition NewPatchData (t : Trial) : outcome PatchData :=
  let d := {| PatchTrial := Meta t; Values := None |} in
  match store_assignments (Values d) (Assignments (Spec t)) with
  | Returned values => Returned {| PatchTrial := PatchTrial d; Values := values |}
  | Panicked msg => Panicked msg
  end.

Definition with_Namespace (ns : string) (m : ObjectMeta) : ObjectMeta :=
  {| Name := Name m; Namespace := ns; Labels := Labels m; Annotations := Annotations m |}.

Definition NewMetricData `{Engine} (t : Trial) : MetricData :=
  let trial := Meta t in
  let trial :=
    if negb (String.eqb (TargetNamespace (Spec t)) "")
    then with_Namespace (TargetNamespace (Spec t)) trial else trial in
  let startTime :=
    match StartTime (Status t) with Some s => s | None => zero_Time end in
  let completionTime :=
    match CompletionTime (Status t) with Some s => s | None => zero_Time end in
  {| MetricTrial := trial; MetricStartTime := startTime;
     MetricCompletionTime := completionTime;
     Range := seconds_text completionTime startTime |}.

Definition RenderPatch `{Engine} (patch : PatchTemplate) (trial : Trial)
  : outcome (result bytes) :=
  match NewPatchData trial with
  | Panicked msg => Panicked msg
  | Returned d =>
      Returned
        match render "patch" (Patch patch) (PatchDataPtr d) with
        | Err err => Err err
        | Ok b => yaml_ToJSON b
        end
  end.

Definition RenderHelmValue `{Engine} (helmValue : HelmValue) (trial : Trial)
  : outcome (string * option error) :=
  match NewPatchData trial with
  | Panicked msg => Panicked msg
  | Returned d =>
      Returned
        match render (HelmName helmValue) (IntOrString_String (HelmValue_ helmValue))
                     (PatchDataPtr d) with
        | Err err => ("", Some err)
        | Ok b => (HelmName helmValue ++ "=" ++ b, None)
        end
  end.

Definition RenderMetricQueries `{Engine} (metric : Metric) (trial : Trial)
  : string * string * option error :=
  let d := NewMetricData trial in
  match render (MetricName metric) (Query metric) (MetricDataPtr d) with
  | Err _ => ("", "", None)
  | Ok b1 =>
      match render (MetricName metric) (ErrorQuery metric) (MetricDataPtr d) with
      | Err _ => ("", "", None)
      | Ok b2 => (b1, b2, None)
      end
  end.

End template.

(** * The reverse proxy of [redskyctl results]

    The director of the proxy that serves the API under the address of the
    backend. *)

Module results.

(** [url.URL]. *)
Record URL := {
  Scheme : string;
  Opaque : string;
  Host : string;
  Path : string;
  RawPath : string;
  RawQuery : string;
  Fragment : string
}.

(** The request as the director sees it: an incoming [http.Request],
    whose header map the server has made. *)
Record Request := {
  Method : string;
  RequestURL : URL;
  Header : gmap string (list string);
  RequestHost : string;
  Body : bytes
}.

(** The function [direct(address)] returns. *)
Definition direct (address : URL) (request : Request) : Request :=
  let header :=
    http.Set_ (Header request) "Forwarded" ("proto=http;host=" ++ RequestHost request) in
  let header := http.Set_ header "X-Forwarded-Proto" "http" in
  let header := http.Set_ header "X-Forwarded-Host" (RequestHost request) in
  {| Method := Method request;
     RequestURL :=
       {| Scheme := Scheme address;
          Opaque := Opaque (RequestURL request);
          Host := Host address;
          Path := Path address ++ strings.TrimLeft (Path (RequestURL request)) "/";
          RawPath := RawPath (RequestURL request);
          RawQuery := RawQuery (RequestURL request);
          Fragment := Fragment (RequestURL request) |};
     Header := header;
     RequestHost := "";
     Body := Body request |}.

(** A run of slashes. *)
Fixpoint slashes (n : nat) : string :=
  match n with O => "" | S n' => String "/" (slashes n') end.

End results.

(** ** More for the examples *)

Module SampleEngine.

(** The text of the floats the examples use, and the empty string for any
    other: [0], [1] and [0.5]. *)
#[global] Instance floats : get.FloatText := {|
  get.FormatFloat v :=
    if (v =? 0)%Z then "0"
    else if (v =? 4607182418800017408)%Z then "1"
    else if (v =? 4602678819172646912)%Z then "0.5"
    else ""
|}.

(** [strings.Cut]: the text before and after the first [sep]. *)
Fixpoint cut (s sep : string) : option (string * string) :=
  match CutPrefix s sep with
  | Some rest => Some ("", rest)
  | None =>
      match s with
      | EmptyString => None
      | String c s' => option_map (fun p => (String c p.1, p.2)) (cut s' sep)
      end
  end.

(** A template as the examples write it: text, and actions between the
    delimiters. *)
Inductive node :=
| Text (s : string)
| Action (s : string).

(** Parsing: an action that is not closed is an error. *)
Fixpoint parse (fuel : nat) (text : string) : result (list node) :=
  match cut text "{{" with
  | None => Ok [Text text]
  | Some (before, rest) =>
      match fuel, cut rest "}}" with
      | S fuel', Some (inside, after) =>
          match parse fuel' after with
          | Ok nodes => Ok (Text before :: Action (strings.Trim inside " ") :: nodes)
          | Err e => Err e
          end
      | _, _ => Err (LibError "template: unclosed action")
      end
  end.

(** The fields the examples read: the name and the namespace of the trial,
    and the range of a metric. *)
Definition field (action : string) (d : template.data) : option string :=
  match d with
  | template.PatchDataPtr p =>
      if String.eqb action ".Trial.Name" then Some (template.Name (template.PatchTrial p))
      else if String.eqb action ".Trial.Namespace"
      then Some (template.Namespace (template.PatchTrial p))
      else None
  | template.MetricDataPtr m =>
      if String.eqb action ".Trial.Name" then Some (template.Name (template.MetricTrial m))
      else if String.eqb action ".Trial.Namespace"
      then Some (template.Namespace (template.MetricTrial m))
      else if String.eqb action ".Range" then Some (template.Range m)
      else None
  end.

(** Execution: the text as it is and the value of each action, in order. *)
Fixpoint execute (nodes : list node) (d : template.data) : result string :=
  match nodes with
  | [] => Ok ""
  | Text t :: nodes' =>
      match execute nodes' d with
      | Ok r => Ok (t ++ r)
      | Err e => Err e
      end
  | Action a :: nodes' =>
      match field a d with
      | None => Err (LibError "template: can't evaluate field")
      | Some v =>
          match execute nodes' d with
          | Ok r => Ok (v ++ r)
          | Err e => Err e
          end
      end
  end.

(** The seconds between two times to the second, as [NewMetricData]
    writes them: [Time.Sub] stops at the longest duration, whose seconds
    round to 9223372037, and a negative difference counts for zero. *)
Definition seconds_between (completion start : time.Time) : string :=
  let d := (completion - start)%Z in
  if (d <=? 0)%Z then "0s"
  else if (9223372036 <? d)%Z then "9223372037s"
  else strconv.Itoa d ++ "s".

(** The engine of the examples. It is [text/template] on the templates
    the examples use: text without action is rendered as it is, the three
    fields of [field] are rendered by their value, an action that is not
    closed is an error of parsing, and a field that the data does not have
    is an error of execution. It reports every other action as an error
    too; the examples use none. It converts the one YAML document the
    examples use. *)
#[global] Instance engine : template.Engine := {|
  template.render name text d :=
    match parse (String.length text) text with
    | Ok nodes => execute nodes d
    | Err e => Err e
    end;
  template.yaml_ToJSON b :=
    if String.eqb b "{}" then Ok (Sample.text "{}")
    else Err (LibError "yaml: not supported");
  template.seconds_text := seconds_between
|}.

End SampleEngine.

(** * Properties

    ** The library models *)

Example Encode_both :
  ExperimentListQuery_Encode (Some {| Offset := 20; Limit := 10 |}) = "limit=10&offset=20".
Proof. vm_compute. reflexivity. Qed.

Example Encode_nil : ExperimentListQuery_Encode None = "".
Proof. vm_compute. reflexivity. Qed.

Example Atoi_30 : strconv.Atoi "30" = Some 30%Z.
Proof. reflexivity. Qed.

Example Atoi_signed : strconv.Atoi "-7" = Some (-7)%Z /\ strconv.Atoi "+7" = Some 7%Z.
Proof. split; reflexivity. Qed.

Example Atoi_not_a_number :
  strconv.Atoi "" = None /\ strconv.Atoi "soon" = None /\ strconv.Atoi "1.5" = None
  /\ strconv.Atoi " 30" = None /\ strconv.Atoi "9223372036854775808" = None.
Proof. repeat split; reflexivity. Qed.

Example Split_pieces : strings.Split "a,,b" ","%char = ["a"; ""; "b"].
Proof. reflexivity. Qed.

Example Trim_spaces : strings.Trim "  <x>  " " " = "<x>".
Proof. reflexivity. Qed.

Example CanonicalHeaderKey_names :
  map http.CanonicalHeaderKey ["Location"; "Last-Modified"; "Link"; "Retry-After"; "content-type"]
  = ["Location"; "Last-Modified"; "Link"; "Retry-After"; "Content-Type"].
Proof. reflexivity. Qed.



Lemma numeric_string_of_uint d : numeric (NilEmpty.string_of_uint d) = true.
Proof. induction d; simpl; auto. Qed.

Lemma numeric_NilZero d : numeric (NilZero.string_of_uint d) = true.
Proof.
  unfold NilZero.string_of_uint.
  destruct d; first reflexivity; apply numeric_string_of_uint.
Qed.

Lemma numeric_Itoa z : numeric (strconv.Itoa z) = true.
Proof.
  unfold strconv.Itoa, NilZero.string_of_int.
  destruct (Z.to_int z) as [d|d].
  - apply numeric_NilZero.
  - change (true && numeric (NilZero.string_of_uint d) = true).
    rewrite numeric_NilZero. reflexivity.
Qed.

Lemma numeric_cons c s :
  numeric (String c s) = strings.byte_in c "-0123456789" && numeric s.
Proof. reflexivity. Qed.

(** A numeric byte is one of eleven. *)
Lemma numeric_byte_cases (P : ascii -> Prop) :
  (forall c, strings.byte_in c "-0123456789" = true -> P c) <->
  (P "-" /\ P "0" /\ P "1" /\ P "2" /\ P "3" /\ P "4" /\ P "5" /\ P "6" /\ P "7"
   /\ P "8" /\ P "9")%char.
Proof.
  split.
  - intros H. repeat split; apply H; reflexivity.
  - intros H c Hc. unfold strings.byte_in in Hc. simpl in Hc.
    repeat (apply orb_true_iff in Hc as [Hc|Hc];
            [apply Ascii.eqb_eq in Hc; subst c; tauto|]).
    discriminate.
Qed.

Lemma escape_numeric s mode : numeric s = true -> url.escape s mode = s.
Proof.
  induction s as [|c s IH]; first reflexivity.
  rewrite numeric_cons. intros [Hc Hs]%andb_true_iff.
  simpl. rewrite (IH Hs).
  revert c Hc. apply numeric_byte_cases. destruct mode; repeat split; reflexivity.
Qed.

Lemma byte_in_cons c x s :
  strings.byte_in c (String x s) = Ascii.eqb c x || strings.byte_in c s.
Proof. reflexivity. Qed.

Lemma byte_in_app c a b :
  strings.byte_in c (a ++ b) = strings.byte_in c a || strings.byte_in c b.
Proof.
  induction a as [|x a IH]; [reflexivity|].
  change (String x a ++ b) with (String x (a ++ b)).
  rewrite !byte_in_cons, IH. apply orb_assoc.
Qed.

Lemma Split_cons_ne c s sep :
  Ascii.eqb c sep = false ->
  strings.Split (String c s) sep
  = String c (hd "" (strings.Split s sep)) :: tl (strings.Split s sep).
Proof. intros H. simpl. rewrite H. destruct (strings.Split s sep); reflexivity. Qed.

(** A string without the separator is one piece. *)
Lemma Split_free s sep : strings.byte_in sep s = false -> strings.Split s sep = [s].
Proof.
  induction s as [|c s IH]; [reflexivity|].
  rewrite byte_in_cons. intros [Hc Hs]%orb_false_iff.
  rewrite Ascii.eqb_sym in Hc. rewrite Split_cons_ne, (IH Hs) by exact Hc. reflexivity.
Qed.

(** The first piece ends at the first separator. *)
Lemma Split_free_app a r sep :
  strings.byte_in sep a = false ->
  strings.Split (a ++ String sep r) sep = a :: strings.Split r sep.
Proof.
  induction a as [|c a IH].
  - intros _. change ("" ++ String sep r) with (String sep r).
    simpl. rewrite Ascii.eqb_refl. reflexivity.
  - rewrite byte_in_cons. intros [Hc Ha]%orb_false_iff.
    rewrite Ascii.eqb_sym in Hc.
    change (String c a ++ String sep r) with (String c (a ++ String sep r)).
    rewrite Split_cons_ne, (IH Ha) by exact Hc. reflexivity.
Qed.

Lemma numeric_no_amp s : numeric s = true -> strings.byte_in "&" s = false.
Proof.
  induction s as [|c s IH]; [reflexivity|].
  rewrite numeric_cons, (byte_in_cons "&" c s). intros [Hc Hs]%andb_true_iff.
  rewrite (IH Hs), orb_false_r.
  revert c Hc. apply numeric_byte_cases. repeat split; reflexivity.
Qed.

Lemma HasPrefix_app p s : strings.HasPrefix (p ++ s) p = true.
Proof.
  unfold strings.HasPrefix. induction p as [|c p IH].
  - destruct s; reflexivity.
  - change (String c p ++ s) with (String c (p ++ s)). simpl.
    destruct (ascii_dec c c); [exact IH | congruence].
Qed.


Lemma append_assoc (a b c : string) : (a ++ b) ++ c = a ++ (b ++ c).
Proof.
induction a as [|x a IH]; [reflexivity|].
change (String x ((a ++ b) ++ c) = String x (a ++ (b ++ c))). now rewrite IH.
Qed.

Lemma write_pair_first k v : url.write_pair k "" v = k ++ "=" ++ url.QueryEscape v.
Proof. reflexivity. Qed.

Lemma write_pair_next k c buf v :
url.write_pair k (String c buf) v
  = String c buf ++ "&" ++ k ++ "=" ++ url.QueryEscape v.
Proof. unfold url.write_pair. cbn [String.length Nat.ltb Nat.leb]. apply append_assoc. Qed.

Lemma Encode_offset_limit (o l : string) :
url.Encode (url.Set_ (url.Set_ ∅ "offset" o) "limit" l)
  = "limit=" ++ url.QueryEscape l ++ "&offset=" ++ url.QueryEscape o.
Proof.
unfold url.Encode, url.Set_.
replace (url.sorted_keys _) with ["limit"; "offset"] by (vm_compute; reflexivity).
cbn [fold_left].
rewrite lookup_insert_eq.
rewrite lookup_insert_ne by discriminate. rewrite lookup_insert_eq.
unfold default, id. cbn [fold_left].
rewrite write_pair_first.
change (url.QueryEscape "limit" ++ "=" ++ url.QueryEscape l)
  with (String "l" ("imit=" ++ url.QueryEscape l)).
rewrite write_pair_next.
change (String "l" ("imit=" ++ url.QueryEscape l)) with ("limit=" ++ url.QueryEscape l).
rewrite append_assoc. reflexivity.
Qed.

Lemma Encode_offset (o : string) :
url.Encode (url.Set_ ∅ "offset" o) = "offset=" ++ url.QueryEscape o.
Proof.
unfold url.Encode, url.Set_.
replace (url.sorted_keys _) with ["offset"] by (vm_compute; reflexivity).
cbn [fold_left]. rewrite lookup_insert_eq. reflexivity.
Qed.

Lemma Encode_limit (l : string) :
url.Encode (url.Set_ ∅ "limit" l) = "limit=" ++ url.QueryEscape l.
Proof.
unfold url.Encode, url.Set_.
replace (url.sorted_keys _) with ["limit"] by (vm_compute; reflexivity).
cbn [fold_left]. rewrite lookup_insert_eq. reflexivity.
Qed.

(** The four shapes of an encoded list query. *)
Lemma ExperimentListQuery_Encode_shape (p : ExperimentListQuery) :
ExperimentListQuery_Encode (Some p) =
  match (Offset p =? 0)%Z, (Limit p =? 0)%Z with
  | true, true => ""
  | true, false => "limit=" ++ strconv.Itoa (Limit p)
  | false, true => "offset=" ++ strconv.Itoa (Offset p)
  | false, false =>
      "limit=" ++ strconv.Itoa (Limit p) ++ "&offset=" ++ strconv.Itoa (Offset p)
  end.
Proof.
unfold ExperimentListQuery_Encode.
destruct (Offset p =? 0)%Z, (Limit p =? 0)%Z; simpl negb; cbv iota.
- reflexivity.
- rewrite Encode_limit. unfold url.QueryEscape.
  rewrite escape_numeric by apply numeric_Itoa. reflexivity.
- rewrite Encode_offset. unfold url.QueryEscape.
  rewrite escape_numeric by apply numeric_Itoa. reflexivity.
- rewrite Encode_offset_limit. unfold url.QueryEscape.
  rewrite !escape_numeric by apply numeric_Itoa. reflexivity.
Qed.


(** ** The metadata sinks *)

Lemma fold_left_fixed {A B : Type} (f : A -> B -> A) (l : list B) (a : A) :
  (forall a b, f a b = a) -> fold_left f l a = a.
Proof. intros H. induction l as [|b l IH]; simpl; [reflexivity | now rewrite H]. Qed.

(** A sink that ignores the date and the links keeps only the location. *)
Lemma metaUnmarshal_TrialMeta `{E : Env} (header : gmap string (list string)) (m : TrialMeta) :
  metaUnmarshal header m =
    if String.eqb (http.Get header "Location") "" then m
    else {| ReportTrial_ := http.Get header "Location" |}.
Proof.
  unfold metaUnmarshal.
  rewrite fold_left_fixed.
  - destruct (String.eqb (http.Get header "Location") ""); simpl;
      destruct (String.eqb (http.Get header "Last-Modified") ""); simpl;
      try destruct (http_ParseTime _); reflexivity.
  - intros a rh. unfold link_header. apply fold_left_fixed.
    intros a' h. unfold link_entry. destruct (fold_left _ _ _). reflexivity.
Qed.

(** After [metaUnmarshal] the report link of fresh assignments is the
    [Location] header, empty when there is none. *)
Lemma metaUnmarshal_fresh_TrialMeta `{E : Env} (header : gmap string (list string)) :
  metaUnmarshal header (Trial_Meta TrialAssignments_zero)
  = {| ReportTrial_ := http.Get header "Location" |}.
Proof.
  rewrite metaUnmarshal_TrialMeta.
  destruct (String.eqb_spec (http.Get header "Location") "") as [->|]; reflexivity.
Qed.

(** ** The classifier *)

Lemma unexpected_unauthorized resp :
  http.StatusCode resp = http.StatusUnauthorized -> unexpected resp = unauthorized.
Proof. intros H. unfold unexpected. rewrite H. reflexivity. Qed.

Lemma unexpected_other resp :
  http.StatusCode resp <> http.StatusUnauthorized ->
  unexpected resp = unexpected_response (http.StatusCode resp).
Proof.
  intros H. unfold unexpected.
  destruct (Z.eqb_spec (http.StatusCode resp) http.StatusUnauthorized); [contradiction | reflexivity].
Qed.

Lemma unauthorized_not_unexpected_response status :
  unauthorized <> unexpected_response status.
Proof. unfold unauthorized, unexpected_response. intros H. inversion H. Qed.

(** ** Dispensing: [NextTrial] *)

Ltac status_cases :=
  repeat match goal with
  | |- context [(?s =? ?k)%Z] => destruct (Z.eqb_spec s k); try congruence; try lia
  end.

Lemma NextTrial_answered `{E : Env} (c : Client) (u : string) resp body :
  url_Parse u = None ->
  c (plain_request http.MethodPost u) = Ok (resp, body) ->
  run c (NextTrial u) =
    if (http.StatusCode resp =? http.StatusOK)%Z then
      json_Unmarshal_TrialAssignments body
        {| Trial_Meta := {| ReportTrial_ := http.Get (http.Header resp) "Location" |};
           Assignments := [] |}
    else if (http.StatusCode resp =? http.StatusGone)%Z then
      (TrialAssignments_zero, api_error ErrExperimentStopped)
    else if (http.StatusCode resp =? http.StatusServiceUnavailable)%Z then
      (TrialAssignments_zero,
       Some (ApiError
               {| Type_ := ErrTrialUnavailable;
                  RetryAfter :=
                    time.mul
                      (default 5%Z (strconv.Atoi (http.Get (http.Header resp) "Retry-After")))
                      time.Second |}))
    else (TrialAssignments_zero, Some (unexpected resp)).
Proof.
  intros Hu Hc. unfold NextTrial, NewRequest. rewrite Hu.
  cbn [run]. fold (plain_request http.MethodPost u). rewrite Hc.
  destruct (http.StatusCode resp =? http.StatusOK)%Z.
  - rewrite metaUnmarshal_fresh_TrialMeta. unfold with_TrialMeta. cbn [Assignments TrialAssignments_zero].
    destruct (json_Unmarshal_TrialAssignments _ _). reflexivity.
  - destruct (http.StatusCode resp =? http.StatusGone)%Z; [reflexivity|].
    destruct (http.StatusCode resp =? http.StatusServiceUnavailable)%Z; [|reflexivity].
    cbn [run]. destruct (strconv.Atoi _); reflexivity.
Qed.

#[global] Instance Sample_JsonTags : JsonTags Sample.env.
Proof.
  split; intros body x; cbn.
  - unfold Sample.Unmarshal_Experiment.
    repeat destruct (Sample.bytes_eqb _ _); reflexivity.
  - unfold Sample.Unmarshal_ExperimentList.
    destruct (Sample.bytes_eqb _ _); reflexivity.
  - unfold Sample.Unmarshal_TrialAssignments.
    destruct (_ || _); [reflexivity|]. destruct (Sample.bytes_eqb _ _); reflexivity.
Qed.

(** C1, as amended. When the transport answers a dispense request, the
    outcome follows from the status, the headers and the body of the
    response: on 200 the [Location] header becomes the report link, the
    body is decoded into the assignments and the error is the decoder's,
    nil when the body decodes; on 410 the error is experiment-stopped and
    there are no assignments; on 401 the error is the unauthorized one; on
    a status other than 200, 401, 410 and 503 it is the
    unexpected-response error with that status. *)
Theorem NextTrial_outcome `{E : Env} `{!JsonTags E} (c : Client) (u : string) resp body :
  url_Parse u = None ->
  c (plain_request http.MethodPost u) = Ok (resp, body) ->
  (http.StatusCode resp = 200%Z ->
     run c (NextTrial u)
     = json_Unmarshal_TrialAssignments body
         {| Trial_Meta := {| ReportTrial_ := http.Get (http.Header resp) "Location" |};
            Assignments := [] |}
     /\ ReportTrial_ (Trial_Meta (run c (NextTrial u)).1)
        = http.Get (http.Header resp) "Location")
  /\ (http.StatusCode resp = 410%Z ->
        run c (NextTrial u) = (TrialAssignments_zero, api_error ErrExperimentStopped))
  /\ (http.StatusCode resp = 401%Z ->
        run c (NextTrial u) = (TrialAssignments_zero, Some unauthorized))
  /\ (~ In (http.StatusCode resp) [200; 401; 410; 503]%Z ->
        run c (NextTrial u)
        = (TrialAssignments_zero, Some (unexpected_response (http.StatusCode resp)))).
Proof.
  intros Hu Hc. rewrite (NextTrial_answered c u resp body Hu Hc).
  unfold http.StatusOK, http.StatusGone, http.StatusServiceUnavailable.
  split; [intros H; split | split; [intros H | split; intros H]].
  - rewrite H. reflexivity.
  - rewrite H. cbn [Z.eqb Pos.eqb].
    rewrite json_Unmarshal_TrialAssignments_meta. reflexivity.
  - rewrite H. reflexivity.
  - rewrite H. cbn [Z.eqb Pos.eqb]. rewrite unexpected_unauthorized by exact H. reflexivity.
  - cbn [In] in H. status_cases. rewrite unexpected_other; [reflexivity|].
    unfold http.StatusUnauthorized. lia.
Qed.

Lemma NextTrial_outcome_witness :
  url_Parse "http://redsky.test/experiments/e/next" = None
  /\ Sample.always 200 {[ "Location" := ["/trials/1"] ]} Sample.no_assignments
       (plain_request http.MethodPost "http://redsky.test/experiments/e/next")
     = Ok ({| http.StatusCode := 200; http.Header := {[ "Location" := ["/trials/1"] ]} |},
           Sample.no_assignments)
  /\ run (Sample.always 200 {[ "Location" := ["/trials/1"] ]} Sample.no_assignments)
         (NextTrial "http://redsky.test/experiments/e/next")
     = ({| Trial_Meta := {| ReportTrial_ := "/trials/1" |}; Assignments := [] |}, None).
Proof.
  split; [reflexivity|]. split; [reflexivity|].
  pose proof (@NextTrial_outcome Sample.env _
                (Sample.always 200 {[ "Location" := ["/trials/1"] ]} Sample.no_assignments)
                "http://redsky.test/experiments/e/next"
                {| http.StatusCode := 200; http.Header := {[ "Location" := ["/trials/1"] ]} |}
                Sample.no_assignments) as H.
  destruct H as [H _]; [reflexivity | reflexivity |].
  destruct H as [-> _]; [reflexivity|]. vm_compute. reflexivity.
Defined.

(** C1 fails as stated: a 401 answer to a dispense request gives the
    unauthorized error, which is not the unexpected-response error, and a
    200 answer whose body does not decode gives the decoder's error in
    place of success. *)
Lemma NextTrial_outcome_counterexample :
  (run (Sample.always 401 ∅ []) (NextTrial "http://redsky.test/experiments/e/next")).2
  = Some unauthorized
  /\ (run (Sample.always 401 ∅ []) (NextTrial "http://redsky.test/experiments/e/next")).2
     <> Some (unexpected_response 401)
  /\ (run (Sample.always 200 ∅ Sample.not_json)
          (NextTrial "http://redsky.test/experiments/e/next")).2
     = Some Sample.syntax_error.
Proof.
  split; [vm_compute; reflexivity|]. split; [|vm_compute; reflexivity].
  vm_compute. intros H. inversion H.
Qed.

Lemma wrap64_small z :
  (- 2 ^ 63 <= z < 2 ^ 63)%Z -> time.wrap64 z = z.
Proof. intros H. unfold time.wrap64. rewrite Z.mod_small; lia. Qed.

(** Up to [max_seconds] seconds fit a [time.Duration]. *)
Lemma seconds_exact n :
  (- max_seconds <= n <= max_seconds)%Z ->
  time.mul n time.Second = (n * 1000000000)%Z.
Proof.
  intros H. unfold time.mul, time.Second, max_seconds in *.
  apply wrap64_small. lia.
Qed.

Lemma Get_absent (header : gmap string (list string)) key :
  header !! http.CanonicalHeaderKey key = None -> http.Get header key = "".
Proof. intros H. unfold http.Get. rewrite H. reflexivity. Qed.

(** C2, as amended. A dispense request answered with 503 returns an error
    of kind trial-unavailable and no assignments. Its retry-after duration
    is the [Retry-After] header read as a whole number of seconds whenever
    that number is at most [max_seconds] in absolute value, the longest a
    duration holds; it is 5 seconds when the header is absent or does not
    parse as an integer. *)
Theorem NextTrial_unavailable `{E : Env} (c : Client) (u : string) resp body :
  url_Parse u = None ->
  c (plain_request http.MethodPost u) = Ok (resp, body) ->
  http.StatusCode resp = 503%Z ->
  exists d : time.Duration,
    run c (NextTrial u)
    = (TrialAssignments_zero,
       Some (ApiError {| Type_ := ErrTrialUnavailable; RetryAfter := d |}))
    /\ (forall n, strconv.Atoi (http.Get (http.Header resp) "Retry-After") = Some n ->
                  (- max_seconds <= n <= max_seconds)%Z -> d = (n * 1000000000)%Z)
    /\ (strconv.Atoi (http.Get (http.Header resp) "Retry-After") = None ->
        d = (5 * 1000000000)%Z)
    /\ (http.Header resp !! "Retry-After" = None -> d = (5 * 1000000000)%Z).
Proof.
  intros Hu Hc Hs. rewrite (NextTrial_answered c u resp body Hu Hc), Hs.
  cbn [Z.eqb Pos.eqb http.StatusOK http.StatusGone http.StatusServiceUnavailable].
  eexists. split; [reflexivity|]. split; [|split].
  - intros n -> Hn. cbn [default]. apply seconds_exact, Hn.
  - intros ->. reflexivity.
  - intros Habs. rewrite Get_absent by exact Habs. reflexivity.
Qed.

Lemma NextTrial_unavailable_witness :
  url_Parse "http://redsky.test/experiments/e/next" = None
  /\ Sample.always 503 {[ "Retry-After" := ["30"] ]} []
       (plain_request http.MethodPost "http://redsky.test/experiments/e/next")
     = Ok ({| http.StatusCode := 503; http.Header := {[ "Retry-After" := ["30"] ]} |}, [])
  /\ exists d : time.Duration,
       run (Sample.always 503 {[ "Retry-After" := ["30"] ]} [])
           (NextTrial "http://redsky.test/experiments/e/next")
       = (TrialAssignments_zero,
          Some (ApiError {| Type_ := ErrTrialUnavailable; RetryAfter := d |}))
       /\ d = (30 * 1000000000)%Z.
Proof.
  split; [reflexivity|]. split; [reflexivity|].
  destruct (@NextTrial_unavailable Sample.env
              (Sample.always 503 {[ "Retry-After" := ["30"] ]} [])
              "http://redsky.test/experiments/e/next"
              {| http.StatusCode := 503; http.Header := {[ "Retry-After" := ["30"] ]} |}
              []) as (d & Hrun & Hn & _); [reflexivity | reflexivity | reflexivity |].
  exists d. split; [exact Hrun|].
  apply Hn; [reflexivity | unfold max_seconds; lia].
Defined.

Example NextTrial_retry_after_30 :
  run (Sample.always 503 {[ "Retry-After" := ["30"] ]} [])
      (NextTrial "http://redsky.test/experiments/e/next")
  = (TrialAssignments_zero,
     Some (ApiError {| Type_ := ErrTrialUnavailable; RetryAfter := 30000000000%Z |})).
Proof. vm_compute. reflexivity. Qed.

Example NextTrial_retry_after_missing :
  run (Sample.always 503 ∅ []) (NextTrial "http://redsky.test/experiments/e/next")
  = (TrialAssignments_zero,
     Some (ApiError {| Type_ := ErrTrialUnavailable; RetryAfter := 5000000000%Z |})).
Proof. vm_compute. reflexivity. Qed.

Example NextTrial_retry_after_date :
  run (Sample.always 503 {[ "Retry-After" := ["Fri, 31 Dec 1999 23:59:59 GMT"] ]} [])
      (NextTrial "http://redsky.test/experiments/e/next")
  = (TrialAssignments_zero,
     Some (ApiError {| Type_ := ErrTrialUnavailable; RetryAfter := 5000000000%Z |})).
Proof. vm_compute. reflexivity. Qed.

(** C2 fails as stated: [Retry-After: 9223372037] parses as an integer, and
    the duration returned is not that many seconds: the product with
    [time.Second] has wrapped around. *)
Lemma NextTrial_unavailable_counterexample :
  strconv.Atoi "9223372037" = Some 9223372037%Z
  /\ run (Sample.always 503 {[ "Retry-After" := ["9223372037"] ]} [])
         (NextTrial "http://redsky.test/experiments/e/next")
     = (TrialAssignments_zero,
        Some (ApiError {| Type_ := ErrTrialUnavailable;
                          RetryAfter := (-9223372036709551616)%Z |}))
  /\ (-9223372036709551616)%Z <> (9223372037 * 1000000000)%Z.
Proof.
  split; [vm_compute; reflexivity|]. split; [vm_compute; reflexivity|]. discriminate.
Qed.

(** ** Reporting: [ReportTrial] *)

Lemma json_request_built `{E : Env} (method u : string) (body : bytes) :
  Request_Header_Set
    {| http.Method := method; http.URL := u; http.ReqHeader := ∅; http.Body := Some body |}
    "Content-Type" "application/json"
  = json_request method u body.
Proof. reflexivity. Qed.

(** What [report] does once the values marshal and the URL parses. *)
Lemma report_issued `{E : Env} (u : string) (vls : TrialValues) (body : bytes) :
  json_Marshal_TrialValues vls = Ok body ->
  url_Parse u = None ->
  report u vls =
    Do (json_request http.MethodPost u body)
       (fun r =>
          match r with
          | Err err => Ret (Some err)
          | Ok (resp, _) =>
              if (http.StatusCode resp =? http.StatusCreated)%Z then Ret None
              else if (http.StatusCode resp =? http.StatusNotFound)%Z then
                Ret (api_error ErrTrialNotFound)
              else if (http.StatusCode resp =? http.StatusUnprocessableEntity)%Z then
                Ret (api_error ErrTrialInvalid)
              else Ret (Some (unexpected resp))
          end).
Proof.
  intros Hm Hu. unfold report, NewRequest. rewrite Hm, Hu.
  rewrite json_request_built. reflexivity.
Qed.

(** A request of [report] carries the marshalled values. *)
Lemma report_sent `{E : Env} (c : Client) (u : string) (vls : TrialValues) req :
  In req (sent c (report u vls)) ->
  exists body,
    json_Marshal_TrialValues vls = Ok body /\ url_Parse u = None
    /\ req = json_request http.MethodPost u body
    /\ sent c (report u vls) = [req].
Proof.
  destruct (json_Marshal_TrialValues vls) as [body|err] eqn:Hm;
    [|unfold report; rewrite Hm; intros []].
  destruct (url_Parse u) as [err|] eqn:Hu;
    [unfold report, NewRequest; rewrite Hm, Hu; intros []|].
  rewrite (report_issued u vls body Hm Hu). cbn [sent].
  assert (Hk : forall r : result (http.Response * bytes), sent c
            match r with
            | Err err => Ret (Some err)
            | Ok (resp, _) =>
                if (http.StatusCode resp =? http.StatusCreated)%Z then Ret None
                else if (http.StatusCode resp =? http.StatusNotFound)%Z then
                  Ret (api_error ErrTrialNotFound)
                else if (http.StatusCode resp =? http.StatusUnprocessableEntity)%Z then
                  Ret (api_error ErrTrialInvalid)
                else Ret (Some (unexpected resp))
            end = []).
  { intros [[resp ?]|?]; [|reflexivity].
    repeat match goal with |- context [if ?b then _ else _] => destruct b end; reflexivity. }
  rewrite Hk. intros [<-|[]]. exists body. repeat split; reflexivity.
Qed.

(** C3. When [failed] is set, a request of [ReportTrial] carries the
    marshalled form of an empty value list, whatever values the caller
    supplied. *)
Theorem ReportTrial_failed_sends_no_values `{E : Env} (c : Client) (u : string)
    (vls : TrialValues) (req : http.Request) :
  Failed vls = true ->
  In req (sent c (ReportTrial u vls)) ->
  exists body,
    json_Marshal_TrialValues {| Values := []; Failed := true |} = Ok body
    /\ req = json_request http.MethodPost u body
    /\ sent c (ReportTrial u vls) = [req].
Proof.
  intros Hf. unfold ReportTrial. rewrite Hf. intros Hin.
  destruct (report_sent c u _ req Hin) as (body & Hm & _ & Hreq & Hs).
  exists body. auto.
Qed.

Lemma ReportTrial_failed_sends_no_values_witness :
  let vls := {| Values := [ {| MetricName := "latency"; Value_ := 4607182418800017408%Z;
                               Error_ := 0%Z |} ];
                Failed := true |} in
  let req := json_request http.MethodPost "http://redsky.test/trials/1" Sample.failed_body in
  Failed vls = true
  /\ In req (sent (Sample.always 201 ∅ []) (ReportTrial "http://redsky.test/trials/1" vls))
  /\ exists body,
       json_Marshal_TrialValues {| Values := []; Failed := true |} = Ok body
       /\ req = json_request http.MethodPost "http://redsky.test/trials/1" body
       /\ sent (Sample.always 201 ∅ []) (ReportTrial "http://redsky.test/trials/1" vls) = [req].
Proof.
  intros vls req. split; [reflexivity|]. split; [left; reflexivity|].
  apply (@ReportTrial_failed_sends_no_values Sample.env); [reflexivity | left; reflexivity].
Defined.

(** C5, as amended. When the transport answers the request of
    [ReportTrial], 201 gives no error, 404 the trial-not-found error, 422
    the trial-invalid error, 401 the unauthorized error, and any other
    status the unexpected-response error with that status. *)
Theorem ReportTrial_outcome `{E : Env} (c : Client) (u : string) (vls : TrialValues)
    (req : http.Request) resp body :
  In req (sent c (ReportTrial u vls)) ->
  c req = Ok (resp, body) ->
  (http.StatusCode resp = 201%Z -> run c (ReportTrial u vls) = None)
  /\ (http.StatusCode resp = 404%Z -> run c (ReportTrial u vls) = api_error ErrTrialNotFound)
  /\ (http.StatusCode resp = 422%Z -> run c (ReportTrial u vls) = api_error ErrTrialInvalid)
  /\ (http.StatusCode resp = 401%Z -> run c (ReportTrial u vls) = Some unauthorized)
  /\ (~ In (http.StatusCode resp) [201; 401; 404; 422]%Z ->
      run c (ReportTrial u vls) = Some (unexpected_response (http.StatusCode resp))).
Proof.
  unfold ReportTrial. intros Hin Hc.
  destruct (report_sent c u _ req Hin) as (b & Hm & Hu & -> & _).
  rewrite (report_issued u _ b Hm Hu). cbn [run]. rewrite Hc.
  unfold http.StatusCreated, http.StatusNotFound, http.StatusUnprocessableEntity.
  split; [|split; [|split; [|split]]]; intros H.
  - rewrite H. reflexivity.
  - rewrite H. reflexivity.
  - rewrite H. reflexivity.
  - rewrite H. cbn [Z.eqb Pos.eqb run]. rewrite unexpected_unauthorized by exact H. reflexivity.
  - cbn [In] in H. status_cases. cbn [run]. rewrite unexpected_other; [reflexivity|].
    unfold http.StatusUnauthorized. lia.
Qed.

Lemma ReportTrial_outcome_witness :
  let vls := {| Values := []; Failed := false |} in
  let req := json_request http.MethodPost "http://redsky.test/trials/1" Sample.empty_object in
  In req (sent (Sample.always 404 ∅ []) (ReportTrial "http://redsky.test/trials/1" vls))
  /\ Sample.always 404 ∅ [] req = Ok ({| http.StatusCode := 404; http.Header := ∅ |}, [])
  /\ run (Sample.always 404 ∅ []) (ReportTrial "http://redsky.test/trials/1" vls)
     = api_error ErrTrialNotFound.
Proof.
  intros vls req. split; [left; reflexivity|]. split; [reflexivity|].
  apply (@ReportTrial_outcome Sample.env (Sample.always 404 ∅ [])
           "http://redsky.test/trials/1" vls req
           {| http.StatusCode := 404; http.Header := ∅ |} []);
    [left; reflexivity | reflexivity | reflexivity].
Defined.

(** C5 fails as stated: a 401 answer to a report gives the unauthorized
    error, which is not the unexpected-response error. *)
Lemma ReportTrial_outcome_counterexample :
  run (Sample.always 401 ∅ [])
      (ReportTrial "http://redsky.test/trials/1" {| Values := []; Failed := false |})
  = Some unauthorized
  /\ run (Sample.always 401 ∅ [])
         (ReportTrial "http://redsky.test/trials/1" {| Values := []; Failed := false |})
     <> Some (unexpected_response 401).
Proof.
  split; [vm_compute; reflexivity|]. vm_compute. intros H. inversion H.
Qed.

(** ** Listing: [GetAllExperimentsByPage] and [GetAllTrials] *)

(** C9. A 200 answer to [GetAllExperimentsByPage] or to [GetAllTrials]
    gives a nil error whatever the decoder reports: the list is the value
    the decoder left, and its error is dropped. *)
Theorem lists_drop_decode_error `{E : Env} (c : Client) (u : string) resp body :
  url_Parse u = None ->
  c (plain_request http.MethodGet u) = Ok (resp, body) ->
  http.StatusCode resp = 200%Z ->
  run c (GetAllExperimentsByPage u)
  = ((json_Unmarshal_ExperimentList body
        (with_ExperimentListMeta
           (metaUnmarshal (http.Header resp) (ExperimentList_Meta ExperimentList_zero))
           ExperimentList_zero)).1, None)
  /\ run c (GetAllTrials u) = ((json_Unmarshal_TrialList body TrialList_zero).1, None).
Proof.
  intros Hu Hc Hs. unfold GetAllExperimentsByPage, GetAllTrials, NewRequest.
  rewrite Hu. cbn [run]. fold (plain_request http.MethodGet u). rewrite Hc, Hs.
  cbn [Z.eqb Pos.eqb http.StatusOK].
  split.
  - destruct (json_Unmarshal_ExperimentList _ _). reflexivity.
  - destruct (json_Unmarshal_TrialList _ _). reflexivity.
Qed.

Lemma lists_drop_decode_error_witness :
  url_Parse "http://redsky.test/experiments" = None
  /\ Sample.always 200 ∅ Sample.not_json
       (plain_request http.MethodGet "http://redsky.test/experiments")
     = Ok ({| http.StatusCode := 200; http.Header := ∅ |}, Sample.not_json)
  /\ (json_Unmarshal_ExperimentList Sample.not_json ExperimentList_zero).2
     = Some Sample.syntax_error
  /\ (json_Unmarshal_TrialList Sample.not_json TrialList_zero).2
     = Some Sample.syntax_error
  /\ run (Sample.always 200 ∅ Sample.not_json)
         (GetAllExperimentsByPage "http://redsky.test/experiments")
     = (ExperimentList_zero, None)
  /\ run (Sample.always 200 ∅ Sample.not_json)
         (GetAllTrials "http://redsky.test/experiments")
     = (TrialList_zero, None).
Proof.
  split; [reflexivity|]. split; [reflexivity|].
  split; [reflexivity|]. split; [reflexivity|].
  destruct (@lists_drop_decode_error Sample.env (Sample.always 200 ∅ Sample.not_json)
              "http://redsky.test/experiments"
              {| http.StatusCode := 200; http.Header := ∅ |} Sample.not_json)
    as [-> ->]; [reflexivity | reflexivity | reflexivity |].
  split; reflexivity.
Defined.

(** ** Creating an experiment *)

Lemma CreateExperiment_answered `{E : Env} (c : Client) (n : string) (exp : Experiment)
    (sentBody : bytes) resp body :
  json_Marshal_Experiment exp = Ok sentBody ->
  url_Parse (client_URL (endpointExperiment ++ "/" ++ url.PathEscape n)) = None ->
  c (json_request http.MethodPut
       (client_URL (endpointExperiment ++ "/" ++ url.PathEscape n)) sentBody)
  = Ok (resp, body) ->
  run c (CreateExperiment n exp) =
    if ((http.StatusCode resp =? 200) || (http.StatusCode resp =? 201))%Z then
      ((json_Unmarshal_Experiment sentBody
          (with_ExperimentMeta
             (metaUnmarshal (http.Header resp) (Experiment_Meta Experiment_zero))
             Experiment_zero)).1, None)
    else if (http.StatusCode resp =? 400)%Z then
      (Experiment_zero, api_error ErrExperimentNameInvalid)
    else if (http.StatusCode resp =? 409)%Z then
      (Experiment_zero, api_error ErrExperimentNameConflict)
    else if (http.StatusCode resp =? 422)%Z then
      (Experiment_zero, api_error ErrExperimentInvalid)
    else (Experiment_zero, Some (unexpected resp)).
Proof.
  intros Hm Hu Hc. unfold CreateExperiment, NewRequest. rewrite Hm, Hu.
  rewrite json_request_built. cbn [run]. rewrite Hc.
  unfold http.StatusOK, http.StatusCreated, http.StatusBadRequest, http.StatusConflict,
    http.StatusUnprocessableEntity.
  destruct (http.StatusCode resp =? 200)%Z.
  { cbn [orb]. destruct (json_Unmarshal_Experiment _ _). reflexivity. }
  destruct (http.StatusCode resp =? 201)%Z.
  { cbn [orb]. destruct (json_Unmarshal_Experiment _ _). reflexivity. }
  cbn [orb].
  repeat match goal with |- context [if ?b then _ else _] => destruct b end; reflexivity.
Qed.

(** On 200 and on 201 alike the links of the result are those of the
    response headers. *)
Lemma CreateExperiment_metadata `{E : Env} `{!JsonTags E} (c : Client) (n : string)
    (exp : Experiment) (sentBody : bytes) resp body :
  json_Marshal_Experiment exp = Ok sentBody ->
  url_Parse (client_URL (endpointExperiment ++ "/" ++ url.PathEscape n)) = None ->
  c (json_request http.MethodPut
       (client_URL (endpointExperiment ++ "/" ++ url.PathEscape n)) sentBody)
  = Ok (resp, body) ->
  http.StatusCode resp = 200%Z \/ http.StatusCode resp = 201%Z ->
  Experiment_Meta (run c (CreateExperiment n exp)).1
  = metaUnmarshal (http.Header resp) ExperimentMeta_zero
  /\ (run c (CreateExperiment n exp)).2 = None.
Proof.
  intros Hm Hu Hc Hs. rewrite (CreateExperiment_answered c n exp sentBody resp body Hm Hu Hc).
  assert (Hb : ((http.StatusCode resp =? 200) || (http.StatusCode resp =? 201))%Z = true).
  { destruct Hs as [-> | ->]; reflexivity. }
  rewrite Hb. cbn [fst snd]. rewrite json_Unmarshal_Experiment_meta. split; reflexivity.
Qed.

(** The body of the response does not reach the result of
    [CreateExperiment]. *)
Lemma CreateExperiment_response_body_unused `{E : Env} (n : string) (exp : Experiment)
    resp body1 body2 :
  run (fun _ => Ok (resp, body1)) (CreateExperiment n exp)
  = run (fun _ => Ok (resp, body2)) (CreateExperiment n exp).
Proof.
  unfold CreateExperiment, NewRequest.
  destruct (json_Marshal_Experiment exp); [|reflexivity].
  destruct (url_Parse _); [reflexivity|]. cbn [run].
  repeat match goal with |- context [if ?b then _ else _] => destruct b end;
    try destruct (json_Unmarshal_Experiment _ _); reflexivity.
Qed.

(** C4, on the code. The server answers 201 with the experiment named [b];
    [CreateExperiment] returns the entity it decodes from the body it has
    sent, whose name is empty. The statuses 200 and 201 give the same
    result, and 400, 409 and 422 give the three errors of the claim. *)
Theorem CreateExperiment_decodes_request_body :
  DisplayName (json_Unmarshal_Experiment Sample.renamed_experiment Experiment_zero).1 = "b"
  /\ run (Sample.always 201 ∅ Sample.renamed_experiment)
         (CreateExperiment "e" Experiment_zero)
     = (Experiment_zero, None)
  /\ run (Sample.always 200 ∅ Sample.renamed_experiment)
         (CreateExperiment "e" Experiment_zero)
     = (Experiment_zero, None)
  /\ run (Sample.always 400 ∅ []) (CreateExperiment "e" Experiment_zero)
     = (Experiment_zero, api_error ErrExperimentNameInvalid)
  /\ run (Sample.always 409 ∅ []) (CreateExperiment "e" Experiment_zero)
     = (Experiment_zero, api_error ErrExperimentNameConflict)
  /\ run (Sample.always 422 ∅ []) (CreateExperiment "e" Experiment_zero)
     = (Experiment_zero, api_error ErrExperimentInvalid).
Proof. repeat split; vm_compute; reflexivity. Qed.

(** ** The single point of classification *)

Lemma to_int_not_nil z : Z.to_int z <> Decimal.Pos Decimal.Nil /\ Z.to_int z <> Decimal.Neg Decimal.Nil.
Proof.
  destruct z as [|p|p]; cbn [Z.to_int]; split; try discriminate;
    intros H; injection H as H; exact (DecimalPos.Unsigned.to_uint_nonnil p H).
Qed.

(** The message of an unexpected-response error gives the status back. *)
Lemma status_of_unexpected_response status :
  status_of (unexpected_response status) = Some status.
Proof.
  unfold status_of, unexpected_response.
  change (CutPrefix ("unexpected server response: " ++ strconv.Itoa status)
            "unexpected server response: ") with (Some (strconv.Itoa status)).
  unfold strconv.Itoa. destruct (to_int_not_nil status) as [Hp Hn].
  rewrite NilZero.isi by assumption. cbn [option_map].
  rewrite DecimalZ.of_to. reflexivity.
Qed.

Lemma unexpected_response_inj s1 s2 :
  unexpected_response s1 = unexpected_response s2 -> s1 = s2.
Proof.
  intros H. apply (f_equal status_of) in H.
  rewrite !status_of_unexpected_response in H. congruence.
Qed.

Ltac classify :=
  let req := fresh "req" in
  let k := fresh "k" in
  let Hp := fresh "Hp" in
  let Hs := fresh "Hs" in
  intros req k Hp ? ? Hs; cbn [In] in Hs;
  repeat match type of Hp with
    | context [match ?x with _ => _ end] => destruct x; try discriminate Hp
    end;
  injection Hp as _ <-;
  cbv [http.StatusOK http.StatusCreated http.StatusNoContent http.StatusBadRequest
       http.StatusNotFound http.StatusConflict http.StatusGone
       http.StatusUnprocessableEntity http.StatusServiceUnavailable];
  status_cases; eexists; split; reflexivity.

Lemma GetAllExperimentsByPage_classifies `{E : Env} u :
  classifies snd [200]%Z (GetAllExperimentsByPage u).
Proof. unfold GetAllExperimentsByPage, NewRequest. classify. Qed.

Lemma GetExperiment_classifies `{E : Env} u :
  classifies snd [200; 404]%Z (GetExperiment u).
Proof. unfold GetExperiment, NewRequest. classify. Qed.

Lemma CreateExperiment_classifies `{E : Env} n exp :
  classifies snd [200; 201; 400; 409; 422]%Z (CreateExperiment n exp).
Proof. unfold CreateExperiment, NewRequest. classify. Qed.

Lemma DeleteExperiment_classifies `{E : Env} u :
  classifies id [204; 404]%Z (DeleteExperiment u).
Proof. unfold DeleteExperiment, NewRequest. classify. Qed.

Lemma GetAllTrials_classifies `{E : Env} u :
  classifies snd [200]%Z (GetAllTrials u).
Proof. unfold GetAllTrials, NewRequest. classify. Qed.

Lemma CreateTrial_classifies `{E : Env} u asm :
  classifies snd [201; 422]%Z (CreateTrial u asm).
Proof. unfold CreateTrial, NewRequest. classify. Qed.

Lemma NextTrial_classifies `{E : Env} u :
  classifies snd [200; 410; 503]%Z (NextTrial u).
Proof. unfold NextTrial, NewRequest. classify. Qed.

Lemma ReportTrial_classifies `{E : Env} u vls :
  classifies id [201; 404; 422]%Z (ReportTrial u vls).
Proof. unfold ReportTrial, report, NewRequest. classify. Qed.

Lemma classifies_surfaces {A : Type} (err_of : A -> option error) (handled : list Z)
    (p : Prog A) (req : http.Request) :
  classifies err_of handled p -> (exists k, p = Do req k) -> surfaces err_of handled p req.
Proof.
  intros Hc [k Hp] c resp body Hreq Hs.
  destruct (Hc req k Hp resp body Hs) as (a & Hk & He).
  rewrite Hp. cbn [run sent]. rewrite Hreq, Hk. cbn [run sent]. split; [reflexivity | exact He].
Qed.

(** The request of each operation, once the URL parses and the argument
    marshals. *)
Lemma reads_issued `{E : Env} (u : string) :
  url_Parse u = None ->
  (exists k, GetAllExperimentsByPage u = Do (plain_request "GET" u) k)
  /\ (exists k, GetExperiment u = Do (plain_request "GET" u) k)
  /\ (exists k, DeleteExperiment u = Do (plain_request "DELETE" u) k)
  /\ (exists k, GetAllTrials u = Do (plain_request "GET" u) k).
Proof.
  intros Hu.
  unfold GetAllExperimentsByPage, GetExperiment, DeleteExperiment, GetAllTrials, NewRequest.
  rewrite Hu. repeat split; eexists; reflexivity.
Qed.

Lemma CreateExperiment_issued `{E : Env} (n : string) (exp : Experiment) (body : bytes) :
  url_Parse (client_URL ("/experiments/" ++ url.PathEscape n)) = None ->
  json_Marshal_Experiment exp = Ok body ->
  exists k, CreateExperiment n exp
            = Do (json_request "PUT" (client_URL ("/experiments/" ++ url.PathEscape n)) body) k.
Proof.
  intros Hu Hm. unfold CreateExperiment, NewRequest.
  change (endpointExperiment ++ "/" ++ url.PathEscape n)
    with ("/experiments/" ++ url.PathEscape n).
  rewrite Hm, Hu, json_request_built. eexists. reflexivity.
Qed.

Lemma CreateTrial_issued `{E : Env} (u : string) (asm : TrialAssignments) (body : bytes) :
  url_Parse u = None ->
  json_Marshal_TrialAssignments asm = Ok body ->
  exists k, CreateTrial u asm = Do (json_request "POST" u body) k.
Proof.
  intros Hu Hm. unfold CreateTrial, NewRequest.
  rewrite Hm, Hu, json_request_built. eexists. reflexivity.
Qed.

(** C7. Every operation surfaces the statuses outside its own set through
    [unexpected]: once its URL parses and its argument marshals, an answer
    of the transport to its request with such a status makes it return the
    error of [unexpected], after that one request. There a 401 becomes the
    unauthorized error, which differs from every unexpected-response error
    and from every [Error] of the API and is recognised by a decidable
    comparison, also of the messages alone; any other status becomes the
    unexpected-response error, from whose message the status is read
    back. *)
Theorem unexpected_is_the_classifier :
  (forall (E : Env) (u n : string) (exp : Experiment) (asm : TrialAssignments)
          (vls : TrialValues) (sentBody : bytes),
      let named := client_URL ("/experiments/" ++ url.PathEscape n) in
      let reported :=
        if Failed vls then {| Values := []; Failed := Failed vls |} else vls in
      (url_Parse u = None ->
       surfaces snd [200]%Z (GetAllExperimentsByPage u) (plain_request "GET" u)
       /\ surfaces snd [200; 404]%Z (GetExperiment u) (plain_request "GET" u)
       /\ surfaces id [204; 404]%Z (DeleteExperiment u) (plain_request "DELETE" u)
       /\ surfaces snd [200]%Z (GetAllTrials u) (plain_request "GET" u)
       /\ surfaces snd [200; 410; 503]%Z (NextTrial u) (plain_request "POST" u)
       /\ (json_Marshal_TrialAssignments asm = Ok sentBody ->
           surfaces snd [201; 422]%Z (CreateTrial u asm) (json_request "POST" u sentBody))
       /\ (json_Marshal_TrialValues reported = Ok sentBody ->
           surfaces id [201; 404; 422]%Z (ReportTrial u vls)
             (json_request "POST" u sentBody)))
      /\ (url_Parse named = None ->
          surfaces snd [200; 404]%Z (GetExperimentByName n) (plain_request "GET" named)
          /\ (json_Marshal_Experiment exp = Ok sentBody ->
              surfaces snd [200; 201; 400; 409; 422]%Z (CreateExperiment n exp)
                (json_request "PUT" named sentBody))))
  /\ (forall resp, http.StatusCode resp = 401%Z <-> unexpected resp = unauthorized)
  /\ (forall resp, http.StatusCode resp <> 401%Z ->
        unexpected resp = unexpected_response (http.StatusCode resp)
        /\ status_of (unexpected resp) = Some (http.StatusCode resp))
  /\ (forall status, unauthorized <> unexpected_response status)
  /\ (forall e, unauthorized <> ApiError e)
  /\ (forall err : error, bool_decide (err = unauthorized) = true <-> err = unauthorized)
  /\ error_message unauthorized = "unauthorized"
  /\ (forall status, error_message (unexpected_response status) <> "unauthorized")
  /\ (forall e, In (Type_ e) ErrorTypes -> error_message (ApiError e) <> "unauthorized").
Proof.
  split; [|split; [|split; [|split; [|split; [|split; [|split; [|split]]]]]]].
  - intros E u n exp asm vls sentBody named reported. split.
    + intros Hu. destruct (reads_issued u Hu) as (Hp & Hg & Hd & Ht).
      refine (conj _ (conj _ (conj _ (conj _ (conj _ (conj _ _)))))).
      * apply classifies_surfaces; [apply GetAllExperimentsByPage_classifies | exact Hp].
      * apply classifies_surfaces; [apply GetExperiment_classifies | exact Hg].
      * apply classifies_surfaces; [apply DeleteExperiment_classifies | exact Hd].
      * apply classifies_surfaces; [apply GetAllTrials_classifies | exact Ht].
      * apply classifies_surfaces; [apply NextTrial_classifies|].
        unfold NextTrial, NewRequest. rewrite Hu. eexists. reflexivity.
      * intros Hm. apply classifies_surfaces;
          [apply CreateTrial_classifies | apply CreateTrial_issued; assumption].
      * intros Hm. apply classifies_surfaces; [apply ReportTrial_classifies|].
        unfold ReportTrial. fold reported.
        rewrite (report_issued u reported sentBody Hm Hu). eexists. reflexivity.
    + intros Hu. split.
      * apply classifies_surfaces; [apply GetExperiment_classifies|].
        destruct (reads_issued named Hu) as (_ & Hg & _). exact Hg.
      * intros Hm. apply classifies_surfaces;
          [apply CreateExperiment_classifies | apply CreateExperiment_issued; assumption].
  - intros resp. split.
    + apply unexpected_unauthorized.
    + intros H. destruct (Z.eq_dec (http.StatusCode resp) 401%Z) as [|Hne]; [assumption|].
      rewrite (unexpected_other resp Hne) in H.
      symmetry in H. destruct (unauthorized_not_unexpected_response _ H).
  - intros resp Hne. rewrite (unexpected_other resp Hne).
    split; [reflexivity | apply status_of_unexpected_response].
  - apply unauthorized_not_unexpected_response.
  - discriminate.
  - intros err. apply bool_decide_eq_true.
  - reflexivity.
  - intros status. cbn. discriminate.
  - intros e He. cbn [error_message]. unfold Error_Error, ErrorTypes in *.
    cbn [In] in He.
    repeat (destruct He as [He|He]; [rewrite <- He; discriminate|]). destruct He.
Qed.

Lemma unexpected_is_the_classifier_witness :
  let u := "http://redsky.test/experiments/e" in
  let answer (status : Z) := {| http.StatusCode := status; http.Header := ∅ |} in
  url_Parse u = None
  /\ Sample.always 200 ∅ [] (plain_request "DELETE" u) = Ok (answer 200%Z, [])
  /\ ~ In (http.StatusCode (answer 200%Z)) [204; 404]%Z
  /\ sent (Sample.always 200 ∅ []) (DeleteExperiment u) = [plain_request "DELETE" u]
  /\ run (Sample.always 200 ∅ []) (DeleteExperiment u) = Some (unexpected_response 200)
  /\ run (Sample.always 401 ∅ []) (DeleteExperiment u) = Some unauthorized.
Proof.
  intros u answer.
  assert (Hu : url_Parse u = None) by reflexivity.
  assert (H200 : ~ In (http.StatusCode (answer 200%Z)) [204; 404]%Z)
    by (cbn; intros [|[|[]]]; discriminate).
  assert (H401 : ~ In (http.StatusCode (answer 401%Z)) [204; 404]%Z)
    by (cbn; intros [|[|[]]]; discriminate).
  destruct unexpected_is_the_classifier as (Hops & Hun & Hother & _).
  destruct (Hops Sample.env u "e" Experiment_zero TrialAssignments_zero
              {| Values := []; Failed := false |} []) as [Hurl _].
  destruct (Hurl Hu) as (_ & _ & Hdel & _).
  destruct (Hdel (Sample.always 200 ∅ []) (answer 200%Z) [] eq_refl H200) as [Hs Hr].
  destruct (Hdel (Sample.always 401 ∅ []) (answer 401%Z) [] eq_refl H401) as [_ Hr'].
  split; [exact Hu|]. split; [reflexivity|]. split; [exact H200|]. split; [exact Hs|].
  split.
  - cbn [id] in Hr. rewrite Hr.
    destruct (Hother (answer 200%Z)) as [Ho _]; [discriminate|].
    rewrite Ho. reflexivity.
  - cbn [id] in Hr'. rewrite Hr'.
    rewrite (proj1 (Hun (answer 401%Z)) eq_refl). reflexivity.
Defined.

(** The operations do reach the transport: a dispense request whose URL
    parses is issued, and a 500 answer to it is classified. *)
Lemma NextTrial_issued `{E : Env} (u : string) :
  url_Parse u = None -> exists k, NextTrial u = Do (plain_request http.MethodPost u) k.
Proof. intros Hu. unfold NextTrial, NewRequest. rewrite Hu. eexists. reflexivity. Qed.

Example NextTrial_classifies_500 :
  run (Sample.always 500 ∅ []) (NextTrial "http://redsky.test/experiments/e/next")
  = (TrialAssignments_zero, Some (Errorf "unexpected server response: 500")).
Proof. vm_compute. reflexivity. Qed.

(** ** [ReportTrial] and the caller's values *)

Lemma run_Prog_map {A B : Type} (f : A -> B) (c : Client) (p : Prog A) :
  run c (Memory.Prog_map f p) = f (run c p).
Proof. induction p as [a|req k IH]; cbn; [reflexivity | apply IH]. Qed.

Lemma sent_Prog_map {A B : Type} (f : A -> B) (c : Client) (p : Prog A) :
  sent c (Memory.Prog_map f p) = sent c p.
Proof. induction p as [a|req k IH]; cbn; [reflexivity | now rewrite IH]. Qed.

(** Clearing the parameter in the store is clearing the value it denotes. *)
Lemma load_clear_failed h arg :
  Memory.load (Memory.heap (Memory.clear_failed (Memory.enter h arg)))
              (Memory.vls (Memory.clear_failed (Memory.enter h arg)))
  = if Failed (Memory.load h arg)
    then {| Values := []; Failed := Failed (Memory.load h arg) |}
    else Memory.load h arg.
Proof.
  unfold Memory.clear_failed, Memory.enter. cbn.
  destruct (Memory.mFailed arg); reflexivity.
Qed.

Lemma clear_failed_frame h arg :
  Memory.heap (Memory.clear_failed (Memory.enter h arg)) = h
  /\ Memory.caller_vls (Memory.clear_failed (Memory.enter h arg)) = arg.
Proof.
  unfold Memory.clear_failed, Memory.enter. cbn.
  destruct (Memory.mFailed arg); split; reflexivity.
Qed.

(** The operation over the store behaves as [ReportTrial] on the value the
    argument denotes. *)
Lemma Memory_ReportTrial_refines `{E : Env} (c : Client) u h arg :
  (run c (Memory.ReportTrial u h arg)).2 = run c (ReportTrial u (Memory.load h arg))
  /\ sent c (Memory.ReportTrial u h arg) = sent c (ReportTrial u (Memory.load h arg)).
Proof.
  unfold Memory.ReportTrial, ReportTrial.
  rewrite run_Prog_map, sent_Prog_map, load_clear_failed. split; reflexivity.
Qed.

(** C10. A call of [ReportTrial] leaves the caller's [TrialValues] as it
    was: the slice header and the flag of the caller's variable and the
    backing arrays are the same after the call, also when [failed] is set
    and the callee has cleared the value list of its own copy. *)
Theorem ReportTrial_keeps_argument `{E : Env} (c : Client) (u : string)
    (h : gmap positive (list Value)) (arg : Memory.TrialValues_mem) :
  (run c (Memory.ReportTrial u h arg)).1 = (h, arg)
  /\ Memory.load (run c (Memory.ReportTrial u h arg)).1.1
                 (run c (Memory.ReportTrial u h arg)).1.2
     = Memory.load h arg.
Proof.
  assert (H : (run c (Memory.ReportTrial u h arg)).1 = (h, arg)).
  { unfold Memory.ReportTrial. rewrite run_Prog_map. cbn [fst].
    destruct (clear_failed_frame h arg) as [-> ->]. reflexivity. }
  rewrite H. split; reflexivity.
Qed.

(** A failed trial with one value: the request carries no value, and the
    caller still holds the slice of length one and reads its value. *)
Example ReportTrial_failed_keeps_values :
  let v := {| MetricName := "latency"; Value_ := 4607182418800017408%Z; Error_ := 0%Z |} in
  let h : gmap positive (list Value) := {[ 1%positive := [v] ]} in
  let arg := {| Memory.mValues := Memory.mk_slice 1 0 1 1; Memory.mFailed := true |} in
  let p := Memory.ReportTrial "http://redsky.test/trials/1" h arg in
  sent (Sample.always 201 ∅ []) p
  = [json_request http.MethodPost "http://redsky.test/trials/1" Sample.failed_body]
  /\ run (Sample.always 201 ∅ []) p = (h, arg, None)
  /\ Values (Memory.load h arg) = [v].
Proof. repeat split; vm_compute; reflexivity. Qed.

(** ** Link headers *)

(** The header of the specification: both relations with their URIs. *)
Example metaUnmarshal_next_prev :
  let links := "</x>; rel=" ++ Sample.q ++ "next" ++ Sample.q
               ++ ", </y>; rel=" ++ Sample.q ++ "prev" ++ Sample.q in
  metaUnmarshal {[ "Link" := [links] ]} (ExperimentList_Meta ExperimentList_zero)
  = {| Next := "/x"; Prev := "/y" |}
  /\ metaUnmarshal {[ "Link" := [links] ]} ([] : list MetaCall)
     = [CallSetLink "next" "/x"; CallSetLink "prev" "/y"].
Proof. split; vm_compute; reflexivity. Qed.

(** Case of the parameter name, missing quotes and the other spelling of
    the relation. *)
Example metaUnmarshal_spellings :
  metaUnmarshal {[ "Link" := ["</x>;REL=next,  </y> ;  Rel=previous"] ]}
                (ExperimentList_Meta ExperimentList_zero)
  = {| Next := "/x"; Prev := "/y" |}.
Proof. vm_compute. reflexivity. Qed.

Example metaUnmarshal_experiment_links :
  metaUnmarshal
    {[ "Link" := ["</experiments/e>; rel=self";
                  "</experiments/e/trials>; rel=https://carbonrelay.com/rel/trials, </experiments/e/next>; rel=https://carbonrelay.com/rel/nextTrial"] ]}
    (Experiment_Meta Experiment_zero)
  = {| Self := "/experiments/e"; Trials_ := "/experiments/e/trials";
       NextTrial_ := "/experiments/e/next" |}.
Proof. vm_compute. reflexivity. Qed.

(** The three headers, in the order of the calls: the location, the date,
    the links. *)
Example metaUnmarshal_calls :
  metaUnmarshal
    {[ "Link" := ["</e>; rel=self"]; "Last-Modified" := [Sample.epoch];
       "Location" := ["/e"] ]}
    ([] : list MetaCall)
  = [CallSetLocation "/e"; CallSetLastModified 0%Z; CallSetLink "self" "/e"].
Proof. vm_compute. reflexivity. Qed.

(** A date that does not parse is passed over. *)
Example metaUnmarshal_bad_date :
  metaUnmarshal {[ "Last-Modified" := ["yesterday"]; "Location" := ["/e"] ]}
                ([] : list MetaCall)
  = [CallSetLocation "/e"].
Proof. vm_compute. reflexivity. Qed.

(** An entry without [rel] reaches the sink with the empty relation, which
    no sink of the client knows: the other entries are as without it. *)
Example metaUnmarshal_entry_without_rel :
  let links := "</z>; foo=" ++ Sample.q ++ "bar" ++ Sample.q
               ++ ", </x>; rel=" ++ Sample.q ++ "next" ++ Sample.q in
  metaUnmarshal {[ "Link" := [links] ]} (ExperimentList_Meta ExperimentList_zero)
  = {| Next := "/x"; Prev := "" |}
  /\ metaUnmarshal {[ "Link" := [links] ]} ([] : list MetaCall)
     = [CallSetLink "" "/z"; CallSetLink "next" "/x"].
Proof. split; vm_compute; reflexivity. Qed.

Lemma SetLink_without_rel (link : string) :
  (forall m : ExperimentMeta, SetLink "" link m = m)
  /\ (forall m : ExperimentListMeta, SetLink "" link m = m)
  /\ (forall m : TrialMeta, SetLink "" link m = m).
Proof. repeat split. Qed.

(** An entry in which no relation is found leaves the sinks of the client
    as they are. *)
Lemma link_entry_without_rel `{E : Env} (h : string) :
  (fold_left link_segment (strings.Split h ";"%char) ("", "")).2 = "" ->
  (forall m : ExperimentMeta, link_entry m h = m)
  /\ (forall m : ExperimentListMeta, link_entry m h = m)
  /\ (forall m : TrialMeta, link_entry m h = m).
Proof.
  intros H. unfold link_entry.
  destruct (fold_left link_segment _ _) as [link rel]. cbn in H. subst rel.
  apply SetLink_without_rel.
Qed.

(** C6, on the code. An entry with a relation and no URI is not dropped:
    its empty URI is delivered under the relation and replaces the link an
    earlier entry of the same header has set. *)
Theorem metaUnmarshal_entry_without_uri_overwrites :
  let good := "</x>; rel=" ++ Sample.q ++ "next" ++ Sample.q in
  let links := good ++ ", rel=" ++ Sample.q ++ "next" ++ Sample.q in
  metaUnmarshal {[ "Link" := [good] ]} (ExperimentList_Meta ExperimentList_zero)
  = {| Next := "/x"; Prev := "" |}
  /\ metaUnmarshal {[ "Link" := [links] ]} (ExperimentList_Meta ExperimentList_zero)
     = {| Next := ""; Prev := "" |}
  /\ metaUnmarshal {[ "Link" := [links] ]} ([] : list MetaCall)
     = [CallSetLink "next" "/x"; CallSetLink "next" ""].
Proof. repeat split; vm_compute; reflexivity. Qed.

(** ** Well-formed link values are delivered *)

Lemma free_of_cons cutset c s :
  free_of cutset (String c s) = negb (strings.byte_in c cutset) && free_of cutset s.
Proof. reflexivity. Qed.

Lemma free_of_byte cutset s x :
  free_of cutset s = true -> strings.byte_in x cutset = true -> strings.byte_in x s = false.
Proof.
  intros Hs Hx. induction s as [|c s IH]; [reflexivity|].
  rewrite free_of_cons in Hs. apply andb_true_iff in Hs as [Hc Hs].
  rewrite byte_in_cons, (IH Hs), orb_false_r.
  destruct (Ascii.eqb_spec x c) as [->|]; [|reflexivity].
  rewrite Hx in Hc. discriminate.
Qed.

Lemma free_of_weaken cutset cutset' s :
  (forall x, strings.byte_in x cutset' = true -> strings.byte_in x cutset = true) ->
  free_of cutset s = true -> free_of cutset' s = true.
Proof.
  intros Hsub. induction s as [|c s IH]; [reflexivity|].
  rewrite !free_of_cons. intros [Hc Hs]%andb_true_iff.
  rewrite (IH Hs), andb_true_r.
  destruct (strings.byte_in c cutset') eqn:Hc'; [|reflexivity].
  rewrite (Hsub c Hc') in Hc. discriminate.
Qed.

Lemma byte_in_reserved (x : ascii) (cutset : string) :
  In cutset [" "; ";"; ","; "<>"; strings.dquote] ->
  strings.byte_in x cutset = true -> strings.byte_in x reserved = true.
Proof.
  intros Hin Hx.
  assert (Hc : In x (list_ascii_of_string reserved)); [|clear Hx].
  { cbn [In] in Hin.
    repeat match type of Hin with
      | _ \/ _ => destruct Hin as [<-|Hin]
      | False => destruct Hin
      end;
      unfold strings.byte_in in Hx; cbn [list_ascii_of_string existsb strings.dquote] in Hx;
      repeat (apply orb_true_iff in Hx as [Hx|Hx];
              [apply Ascii.eqb_eq in Hx; subst x; vm_compute; auto 10|]);
      discriminate Hx. }
  unfold strings.byte_in. apply existsb_exists. exists x.
  split; [exact Hc | apply Ascii.eqb_refl].
Qed.

Lemma plain_free cutset s :
  In cutset [" "; ";"; ","; "<>"; strings.dquote] ->
  plain s = true -> free_of cutset s = true.
Proof.
  intros Hin. apply free_of_weaken. intros x. apply byte_in_reserved, Hin.
Qed.

(** [TrimRight] keeps a string that ends outside the cutset. *)
Lemma TrimRight_kept s c cutset :
  strings.byte_in c cutset = false ->
  strings.TrimRight (s ++ String c "") cutset = s ++ String c "".
Proof.
  intros Hc. induction s as [|x s IH].
  - change ("" ++ String c "") with (String c ""). cbn. rewrite Hc. reflexivity.
  - change (String x s ++ String c "") with (String x (s ++ String c "")).
    cbn [strings.TrimRight]. rewrite IH. destruct s; reflexivity.
Qed.

(** [TrimRight] takes a closing byte of the cutset off a string that is
    otherwise free of it. *)
Lemma TrimRight_closing s c cutset :
  free_of cutset s = true -> strings.byte_in c cutset = true ->
  strings.TrimRight (s ++ String c "") cutset = s.
Proof.
  intros Hs Hc. induction s as [|x s IH].
  - change ("" ++ String c "") with (String c ""). cbn. rewrite Hc. reflexivity.
  - rewrite free_of_cons in Hs. apply andb_true_iff in Hs as [Hx Hs].
    change (String x s ++ String c "") with (String x (s ++ String c "")).
    cbn [strings.TrimRight]. rewrite (IH Hs).
    destruct s; [|reflexivity].
    destruct (strings.byte_in x cutset); [discriminate | reflexivity].
Qed.

Lemma TrimLeft_kept c s cutset :
  strings.byte_in c cutset = false ->
  strings.TrimLeft (String c s) cutset = String c s.
Proof. intros Hc. cbn. rewrite Hc. reflexivity. Qed.

(** A string free of the cutset, between two bytes of the cutset. *)
Lemma Trim_wrapped s c1 c2 cutset :
  free_of cutset s = true ->
  strings.byte_in c1 cutset = true -> strings.byte_in c2 cutset = true ->
  strings.Trim (String c1 (s ++ String c2 "")) cutset = s.
Proof.
  intros Hs H1 H2. unfold strings.Trim. cbn [strings.TrimLeft]. rewrite H1.
  destruct s as [|x s].
  - change ("" ++ String c2 "") with (String c2 ""). cbn. rewrite H2. reflexivity.
  - pose proof Hs as Hs'. rewrite free_of_cons in Hs'.
    apply andb_true_iff in Hs' as [Hx _]. apply negb_true_iff in Hx.
    change (String x s ++ String c2 "") with (String x (s ++ String c2 "")).
    rewrite TrimLeft_kept by exact Hx.
    change (String x (s ++ String c2 "")) with (String x s ++ String c2 "").
    apply TrimRight_closing; assumption.
Qed.

Lemma TrimLeft_spaces n s :
  strings.TrimLeft (spaces n ++ s) " " = strings.TrimLeft s " ".
Proof. induction n as [|n IH]; [reflexivity | exact IH]. Qed.

Lemma byte_in_spaces n c : Ascii.eqb c " " = false -> strings.byte_in c (spaces n) = false.
Proof.
  intros Hc. induction n as [|n IH]; [reflexivity|].
  cbn [spaces]. rewrite byte_in_cons, Hc, IH. reflexivity.
Qed.

Lemma last_byte_snoc s c : strings.last_byte (s ++ String c "") = Some c.
Proof.
  induction s as [|x s IH]; [reflexivity|].
  change (String x s ++ String c "") with (String x (s ++ String c "")).
  cbn [strings.last_byte]. rewrite IH. destruct s; reflexivity.
Qed.

(** The URI segment of an entry sets the link. *)
Lemma link_segment_uri n uri lr :
  plain uri = true ->
  link_segment lr (spaces n ++ "<" ++ uri ++ ">") = (uri, lr.2).
Proof.
  intros Hu. unfold link_segment.
  assert (Ht : strings.Trim (spaces n ++ "<" ++ uri ++ ">") " " = String "<" (uri ++ ">")).
  { unfold strings.Trim. rewrite TrimLeft_spaces.
    change ("<" ++ uri ++ ">") with (String "<" (uri ++ ">")).
    rewrite TrimLeft_kept by reflexivity.
    change (String "<" (uri ++ ">")) with (String "<" uri ++ ">").
    apply TrimRight_kept. reflexivity. }
  rewrite Ht. cbn [String.eqb strings.first_byte].
  rewrite !bool_decide_eq_true_2
    by first [reflexivity | exact (last_byte_snoc (String "<" uri) ">")].
  cbn [andb].
  rewrite Trim_wrapped; [reflexivity | | reflexivity | reflexivity].
  apply plain_free; [cbn; tauto | exact Hu].
Qed.

(** The [rel] segment of an entry sets the relation. *)
Lemma link_segment_rel rel lr :
  plain rel = true ->
  link_segment lr (" rel=" ++ strings.dquote ++ rel ++ strings.dquote) = (lr.1, rel).
Proof.
  intros Hr. unfold link_segment.
  assert (Ht : strings.Trim (" rel=" ++ strings.dquote ++ rel ++ strings.dquote) " "
               = "rel=" ++ strings.dquote ++ rel ++ strings.dquote).
  { unfold strings.Trim.
    change (strings.TrimLeft (" rel=" ++ strings.dquote ++ rel ++ strings.dquote) " ")
      with ("rel=" ++ strings.dquote ++ rel ++ strings.dquote).
    change ("rel=" ++ strings.dquote ++ rel ++ strings.dquote)
      with (("rel=" ++ strings.dquote) ++ (rel ++ strings.dquote)).
    rewrite <- append_assoc. apply TrimRight_kept. reflexivity. }
  rewrite Ht.
  change ("rel=" ++ strings.dquote ++ rel ++ strings.dquote)
    with (String "r" ("el=" ++ strings.dquote ++ rel ++ strings.dquote)).
  cbn [String.eqb strings.first_byte].
  rewrite (bool_decide_eq_false_2 (Some "r"%char = Some "<"%char)) by discriminate.
  cbn [andb].
  change (strings.SplitN (String "r" ("el=" ++ strings.dquote ++ rel ++ strings.dquote))
            "=" 2)
    with ["rel"; strings.dquote ++ rel ++ strings.dquote].
  change (String.eqb (strings.ToLower "rel") "rel") with true. cbv iota.
  change (strings.dquote ++ rel ++ strings.dquote)
    with (String (ascii_of_N 34) (rel ++ String (ascii_of_N 34) "")).
  rewrite Trim_wrapped; [reflexivity | | reflexivity | reflexivity].
  apply plain_free; [cbn; tauto | exact Hr].
Qed.

Lemma link_value_split n rel uri :
  plain rel = true -> plain uri = true ->
  strings.Split (spaces n ++ link_value rel uri) ";"
  = [spaces n ++ "<" ++ uri ++ ">"; " rel=" ++ strings.dquote ++ rel ++ strings.dquote].
Proof.
  intros Hr Hu.
  assert (Hsemi : forall s, plain s = true -> strings.byte_in ";" s = false).
  { intros s Hs. apply (free_of_byte reserved); [exact Hs | reflexivity]. }
  replace (spaces n ++ link_value rel uri)
    with ((spaces n ++ "<" ++ uri ++ ">")
          ++ String ";" (" rel=" ++ strings.dquote ++ rel ++ strings.dquote)).
  - rewrite Split_free_app.
    + rewrite Split_free; [reflexivity|].
      rewrite !byte_in_app, (Hsemi rel Hr). reflexivity.
    + rewrite !byte_in_app, (Hsemi uri Hu), byte_in_spaces by reflexivity. reflexivity.
  - unfold link_value. rewrite !append_assoc. reflexivity.
Qed.

(** A well-formed entry delivers its relation and its URI. *)
Lemma link_entry_well_formed {M : Type} `{Meta M} (meta : M) n rel uri :
  plain rel = true -> plain uri = true ->
  link_entry meta (spaces n ++ link_value rel uri) = SetLink rel uri meta.
Proof.
  intros Hr Hu. unfold link_entry. rewrite link_value_split by assumption.
  cbn [fold_left]. rewrite link_segment_uri by exact Hu.
  rewrite link_segment_rel by exact Hr. reflexivity.
Qed.

Lemma link_value_no_comma n rel uri :
  plain rel = true -> plain uri = true ->
  strings.byte_in "," (spaces n ++ link_value rel uri) = false.
Proof.
  intros Hr Hu. unfold link_value.
  rewrite !byte_in_app, byte_in_spaces by reflexivity.
  rewrite (free_of_byte reserved rel ","), (free_of_byte reserved uri ",")
    by (assumption || reflexivity).
  reflexivity.
Qed.

Lemma link_values_delivered {M : Type} `{Meta M} (ls : list (string * string)) :
  ls <> [] ->
  Forall (fun p => plain p.1 = true /\ plain p.2 = true) ls ->
  forall n (meta : M),
    fold_left link_entry (strings.Split (spaces n ++ link_values ls) ",") meta
    = fold_left (fun m p => SetLink p.1 p.2 m) ls meta.
Proof.
  induction ls as [|[rel uri] rest IH]; [congruence|].
  intros _ Hall n meta. apply Forall_cons_1 in Hall as [[Hr Hu] Hrest].
  cbn [fst snd] in Hr, Hu.
  destruct rest as [|p rest].
  - cbn [link_values fold_left fst snd].
    rewrite Split_free by (apply link_value_no_comma; assumption).
    cbn [fold_left]. apply link_entry_well_formed; assumption.
  - change (link_values ((rel, uri) :: p :: rest))
      with (link_value rel uri ++ ", " ++ link_values (p :: rest)).
    replace (spaces n ++ link_value rel uri ++ ", " ++ link_values (p :: rest))
      with ((spaces n ++ link_value rel uri)
            ++ String "," (spaces 1 ++ link_values (p :: rest)))
      by (rewrite append_assoc; reflexivity).
    rewrite Split_free_app by (apply link_value_no_comma; assumption).
    cbn [fold_left fst snd].
    rewrite link_entry_well_formed by assumption.
    apply IH; [discriminate | exact Hrest].
Qed.

(** X12. A [Link] header made of well-formed entries delivers to the
    sink, entry by entry and in order, the relation and the URI of each. *)
Theorem link_header_well_formed {M : Type} `{Meta M} (ls : list (string * string))
    (meta : M) :
  ls <> [] ->
  Forall (fun p => plain p.1 = true /\ plain p.2 = true) ls ->
  link_header meta (link_values ls) = fold_left (fun m p => SetLink p.1 p.2 m) ls meta.
Proof.
  intros Hne Hall. unfold link_header.
  exact (link_values_delivered ls Hne Hall 0 meta).
Qed.

Example link_values_of_the_specification :
  link_values [("next", "/x"); ("prev", "/y")]
  = "</x>; rel=" ++ Sample.q ++ "next" ++ Sample.q
    ++ ", </y>; rel=" ++ Sample.q ++ "prev" ++ Sample.q.
Proof. reflexivity. Qed.

(** * More of the client

    ** One request, no retry *)

Ltac crunch :=
  repeat match goal with
    | |- context [match ?x with _ => _ end] => destruct x
    end.

Ltac unfold_ops :=
  unfold GetExperimentByName, GetAllExperimentsByPage, GetExperiment,
    CreateExperiment, DeleteExperiment, GetAllTrials, CreateTrial, NextTrial, ReportTrial,
    report, NewRequest in *.

Lemma operations_send_one_request_helper `{E : Env} (n u : string) (c : Client) :
  length (sent c (GetExperimentByName n)) <= 1 /\ length (sent c (GetAllTrials u)) <= 1.
Proof.
  unfold_ops. split; crunch; cbn [sent length]; crunch; cbn [sent length]; lia.
Qed.

(** X1. No operation retries or follows up: each hands at most one request
    to the transport, whatever the transport answers. *)
Theorem operations_send_one_request `{E : Env} (u n : string) (exp : Experiment)
    (asm : TrialAssignments) (vls : TrialValues) :
  single_request (GetAllExperimentsByPage u)
  /\ single_request (GetExperiment u)
  /\ single_request (GetExperimentByName n)
  /\ single_request (CreateExperiment n exp)
  /\ single_request (DeleteExperiment u)
  /\ single_request (GetAllTrials u)
  /\ single_request (CreateTrial u asm)
  /\ single_request (NextTrial u)
  /\ single_request (ReportTrial u vls).
Proof.
  unfold single_request. unfold_ops.
  repeat split; intros c; crunch; cbn [sent length]; crunch; cbn [sent length]; lia.
Qed.

Ltac transport_error :=
  let c := fresh "c" in
  let req := fresh "req" in
  let e := fresh "e" in
  let Hin := fresh "Hin" in
  let Hc := fresh "Hc" in
  intros c req e Hin Hc;
  repeat (match type of Hin with
          | context [match ?x with _ => _ end] => destruct x
          end; cbn [sent In] in Hin);
  try contradiction;
  (destruct Hin as [<- | Hin]; [cbn [run]; rewrite Hc; reflexivity | contradiction]).

(** X2. An error of the transport comes back as it is, with the zero value
    of the result. *)
Theorem operations_return_transport_error `{E : Env} (u n : string) (exp : Experiment)
    (asm : TrialAssignments) (vls : TrialValues) :
  fails_with (fun e => (ExperimentList_zero, Some e)) (GetAllExperimentsByPage u)
  /\ fails_with (fun e => (Experiment_zero, Some e)) (GetExperiment u)
  /\ fails_with (fun e => (Experiment_zero, Some e)) (GetExperimentByName n)
  /\ fails_with (fun e => (Experiment_zero, Some e)) (CreateExperiment n exp)
  /\ fails_with (fun e => Some e) (DeleteExperiment u)
  /\ fails_with (fun e => (TrialList_zero, Some e)) (GetAllTrials u)
  /\ fails_with (fun e => ("", Some e)) (CreateTrial u asm)
  /\ fails_with (fun e => (TrialAssignments_zero, Some e)) (NextTrial u)
  /\ fails_with (fun e => Some e) (ReportTrial u vls).
Proof.
  unfold fails_with. unfold_ops.
  repeat split; transport_error.
Qed.

(** A transport that refuses every request. *)
Lemma operations_return_transport_error_witness :
  In (plain_request http.MethodPost "http://redsky.test/experiments/e/next")
     (sent (fun _ => Err (LibError "connection refused"))
           (NextTrial "http://redsky.test/experiments/e/next"))
  /\ run (fun _ => Err (LibError "connection refused"))
         (NextTrial "http://redsky.test/experiments/e/next")
     = (TrialAssignments_zero, Some (LibError "connection refused")).
Proof.
  split; [left; reflexivity|].
  destruct (@operations_return_transport_error Sample.env
              "http://redsky.test/experiments/e/next" "e" Experiment_zero
              TrialAssignments_zero {| Values := []; Failed := false |})
    as (_ & _ & _ & _ & _ & _ & _ & H & _).
  apply (H _ (plain_request http.MethodPost "http://redsky.test/experiments/e/next"));
    [left; reflexivity | reflexivity].
Defined.

(** ** Failing before the transport *)

(** X3. With a URL that does not parse, an operation sends nothing and
    returns an error: the error of the parser when the operation has no
    body to marshal first. *)
Theorem unparsable_URL_sends_nothing `{E : Env} (c : Client) (u : string) (e : error)
    (asm : TrialAssignments) (vls : TrialValues) :
  url_Parse u = Some e ->
  (run c (GetAllExperimentsByPage u) = (ExperimentList_zero, Some e)
   /\ sent c (GetAllExperimentsByPage u) = [])
  /\ (run c (GetExperiment u) = (Experiment_zero, Some e) /\ sent c (GetExperiment u) = [])
  /\ (run c (DeleteExperiment u) = Some e /\ sent c (DeleteExperiment u) = [])
  /\ (run c (GetAllTrials u) = (TrialList_zero, Some e) /\ sent c (GetAllTrials u) = [])
  /\ (run c (NextTrial u) = (TrialAssignments_zero, Some e) /\ sent c (NextTrial u) = [])
  /\ ((run c (CreateTrial u asm)).2 <> None /\ sent c (CreateTrial u asm) = [])
  /\ (run c (ReportTrial u vls) <> None /\ sent c (ReportTrial u vls) = []).
Proof.
  intros Hu. unfold_ops. rewrite Hu.
  repeat split; try reflexivity; crunch; cbn; congruence.
Qed.

Lemma unparsable_URL_sends_nothing_witness :
  let u := "http://redsky.test/trials" ++ String (ascii_of_N 10) "" in
  url_Parse u = Some (LibError "net/url: invalid control character in URL")
  /\ run (Sample.always 200 ∅ Sample.no_trials) (GetAllTrials u)
     = (TrialList_zero, Some (LibError "net/url: invalid control character in URL"))
  /\ sent (Sample.always 200 ∅ Sample.no_trials) (GetAllTrials u) = [].
Proof.
  intros u. split; [reflexivity|].
  destruct (@unparsable_URL_sends_nothing Sample.env (Sample.always 200 ∅ Sample.no_trials) u
              (LibError "net/url: invalid control character in URL")
              TrialAssignments_zero {| Values := []; Failed := false |} eq_refl)
    as (_ & _ & _ & H & _).
  exact H.
Defined.

(** X4. A value that does not marshal is not sent: the operation returns
    the error of [json.Marshal] and the transport is not called. *)
Theorem unmarshalable_value_sends_nothing `{E : Env} (c : Client) (u n : string)
    (exp : Experiment) (asm : TrialAssignments) (vls : TrialValues) (e : error) :
  (json_Marshal_Experiment exp = Err e ->
   run c (CreateExperiment n exp) = (Experiment_zero, Some e)
   /\ sent c (CreateExperiment n exp) = [])
  /\ (json_Marshal_TrialAssignments asm = Err e ->
      run c (CreateTrial u asm) = ("", Some e) /\ sent c (CreateTrial u asm) = [])
  /\ (Failed vls = false -> json_Marshal_TrialValues vls = Err e ->
      run c (ReportTrial u vls) = Some e /\ sent c (ReportTrial u vls) = []).
Proof.
  unfold_ops. repeat split.
  - rewrite H. reflexivity.
  - rewrite H. reflexivity.
  - rewrite H. reflexivity.
  - rewrite H. reflexivity.
  - rewrite H, H0. reflexivity.
  - rewrite H, H0. reflexivity.
Qed.

Lemma unmarshalable_value_sends_nothing_witness :
  let vls := {| Values := [ {| MetricName := "latency"; Value_ := 9221120237041090560%Z;
                               Error_ := 0%Z |} ];
                Failed := false |} in
  Failed vls = false
  /\ json_Marshal_TrialValues vls = Err Sample.unsupported
  /\ run (Sample.always 201 ∅ []) (ReportTrial "http://redsky.test/trials/1" vls)
     = Some Sample.unsupported
  /\ sent (Sample.always 201 ∅ []) (ReportTrial "http://redsky.test/trials/1" vls) = [].
Proof.
  intros vls. split; [reflexivity|]. split; [reflexivity|].
  destruct (@unmarshalable_value_sends_nothing Sample.env (Sample.always 201 ∅ [])
              "http://redsky.test/trials/1" "e" Experiment_zero TrialAssignments_zero vls
              Sample.unsupported) as (_ & _ & H).
  apply H; reflexivity.
Defined.

(** ** The requests *)

(** X5. The request of each operation: GET for the reads, DELETE for the
    removal, POST without body for the dispense, and PUT or POST with the
    marshalled argument as body and the JSON content type for the writes;
    the experiment of a name lives at [/experiments/] followed by the
    escaped name. *)
Theorem operations_requests `{E : Env} (u n : string) (exp : Experiment)
    (asm : TrialAssignments) (vls : TrialValues) :
  requests (GetAllExperimentsByPage u) (plain_request "GET" u)
  /\ requests (GetExperiment u) (plain_request "GET" u)
  /\ requests (GetExperimentByName n)
       (plain_request "GET" (client_URL ("/experiments/" ++ url.PathEscape n)))
  /\ requests (DeleteExperiment u) (plain_request "DELETE" u)
  /\ requests (GetAllTrials u) (plain_request "GET" u)
  /\ requests (NextTrial u) (plain_request "POST" u)
  /\ (forall (c : Client) req, In req (sent c (CreateExperiment n exp)) ->
        exists body, json_Marshal_Experiment exp = Ok body
          /\ req = json_request "PUT" (client_URL ("/experiments/" ++ url.PathEscape n)) body)
  /\ (forall (c : Client) req, In req (sent c (CreateTrial u asm)) ->
        exists body, json_Marshal_TrialAssignments asm = Ok body
          /\ req = json_request "POST" u body)
  /\ (forall (c : Client) req, Failed vls = false -> In req (sent c (ReportTrial u vls)) ->
        exists body, json_Marshal_TrialValues vls = Ok body
          /\ req = json_request "POST" u body).
Proof.
  unfold requests.
  repeat match goal with |- _ /\ _ => split end.
  1-6: unfold_ops; intros c req Hin;
    destruct (url_Parse _); cbn [sent In] in Hin; try contradiction;
    repeat (match type of Hin with
            | context [match ?x with _ => _ end] => destruct x
            end; cbn [sent In] in Hin);
    try contradiction; (destruct Hin as [<- | Hin]; [reflexivity | contradiction]).
  - intros c req Hin. unfold CreateExperiment, NewRequest in Hin.
    destruct (json_Marshal_Experiment exp) as [body|]; [|destruct Hin].
    destruct (url_Parse _); [destruct Hin|].
    rewrite json_request_built in Hin. cbn [sent In] in Hin.
    destruct Hin as [<- | Hin]; [exists body; split; reflexivity|].
    repeat (match type of Hin with
            | context [match ?x with _ => _ end] => destruct x
            end; cbn [sent In] in Hin); contradiction.
  - intros c req Hin. unfold CreateTrial, NewRequest in Hin.
    destruct (json_Marshal_TrialAssignments asm) as [body|]; [|destruct Hin].
    destruct (url_Parse _); [destruct Hin|].
    rewrite json_request_built in Hin. cbn [sent In] in Hin.
    destruct Hin as [<- | Hin]; [exists body; split; reflexivity|].
    repeat (match type of Hin with
            | context [match ?x with _ => _ end] => destruct x
            end; cbn [sent In] in Hin); contradiction.
  - intros c req Hf Hin. unfold ReportTrial in Hin. rewrite Hf in Hin.
    destruct (report_sent c u vls req Hin) as (body & Hm & _ & -> & _).
    exists body. split; [exact Hm | reflexivity].
Qed.

Lemma operations_requests_witness :
  In (json_request "PUT" "http://redsky.test/experiments/a%2Fb" Sample.zero_experiment)
     (sent (Sample.always 201 ∅ []) (CreateExperiment "a/b" Experiment_zero))
  /\ exists body, json_Marshal_Experiment Experiment_zero = Ok body
       /\ json_request "PUT" "http://redsky.test/experiments/a%2Fb" Sample.zero_experiment
          = json_request "PUT" (client_URL ("/experiments/" ++ url.PathEscape "a/b")) body.
Proof.
  split; [left; reflexivity|].
  destruct (@operations_requests Sample.env "http://redsky.test/x" "a/b" Experiment_zero
              TrialAssignments_zero {| Values := []; Failed := false |})
    as (_ & _ & _ & _ & _ & _ & H & _).
  apply (H (Sample.always 201 ∅ [])). left. reflexivity.
Defined.

(** ** Reading, deleting, creating a trial *)

Lemma GetExperiment_answered `{E : Env} (c : Client) (u : string) resp body :
  url_Parse u = None ->
  c (plain_request "GET" u) = Ok (resp, body) ->
  run c (GetExperiment u) =
    if (http.StatusCode resp =? 200)%Z then
      json_Unmarshal_Experiment body
        (with_ExperimentMeta (metaUnmarshal (http.Header resp) ExperimentMeta_zero)
           Experiment_zero)
    else if (http.StatusCode resp =? 404)%Z then
      (Experiment_zero, api_error ErrExperimentNotFound)
    else (Experiment_zero, Some (unexpected resp)).
Proof.
  intros Hu Hc. unfold GetExperiment, NewRequest. rewrite Hu. cbn [run].
  fold (plain_request http.MethodGet u). change http.MethodGet with "GET". rewrite Hc.
  unfold http.StatusOK, http.StatusNotFound.
  destruct (http.StatusCode resp =? 200)%Z.
  - destruct (json_Unmarshal_Experiment _ _). reflexivity.
  - destruct (http.StatusCode resp =? 404)%Z; reflexivity.
Qed.

Lemma GetAllExperimentsByPage_answered `{E : Env} (c : Client) (u : string) resp body :
  url_Parse u = None ->
  c (plain_request "GET" u) = Ok (resp, body) ->
  run c (GetAllExperimentsByPage u) =
    if (http.StatusCode resp =? 200)%Z then
      ((json_Unmarshal_ExperimentList body
          (with_ExperimentListMeta
             (metaUnmarshal (http.Header resp) (ExperimentList_Meta ExperimentList_zero))
             ExperimentList_zero)).1, None)
    else (ExperimentList_zero, Some (unexpected resp)).
Proof.
  intros Hu Hc. unfold GetAllExperimentsByPage, NewRequest. rewrite Hu. cbn [run].
  fold (plain_request http.MethodGet u). change http.MethodGet with "GET". rewrite Hc.
  unfold http.StatusOK.
  destruct (http.StatusCode resp =? 200)%Z; [|reflexivity].
  destruct (json_Unmarshal_ExperimentList _ _). reflexivity.
Qed.

(** X6. A read of an experiment that the transport answers: on 200 the
    result is what the decoder makes of the body, its error included; on
    404 the error is experiment-not-found, on 401 the unauthorized error,
    on any other status the unexpected-response error. *)
Theorem GetExperiment_outcome `{E : Env} (c : Client) (u : string) resp body :
  url_Parse u = None ->
  c (plain_request "GET" u) = Ok (resp, body) ->
  (http.StatusCode resp = 200%Z ->
     run c (GetExperiment u)
     = json_Unmarshal_Experiment body
         (with_ExperimentMeta (metaUnmarshal (http.Header resp) ExperimentMeta_zero)
            Experiment_zero))
  /\ (http.StatusCode resp = 404%Z ->
        run c (GetExperiment u) = (Experiment_zero, api_error ErrExperimentNotFound))
  /\ (http.StatusCode resp = 401%Z ->
        run c (GetExperiment u) = (Experiment_zero, Some unauthorized))
  /\ (~ In (http.StatusCode resp) [200; 401; 404]%Z ->
        run c (GetExperiment u)
        = (Experiment_zero, Some (unexpected_response (http.StatusCode resp)))).
Proof.
  intros Hu Hc. rewrite (GetExperiment_answered c u resp body Hu Hc).
  split; [|split; [|split]]; intros H.
  - rewrite H. reflexivity.
  - rewrite H. reflexivity.
  - rewrite H. cbn [Z.eqb Pos.eqb]. rewrite unexpected_unauthorized by exact H. reflexivity.
  - cbn [In] in H. status_cases. rewrite unexpected_other; [reflexivity|].
    unfold http.StatusUnauthorized. lia.
Qed.

Lemma GetExperiment_outcome_witness :
  url_Parse "http://redsky.test/experiments/e" = None
  /\ Sample.always 200 ∅ Sample.not_json (plain_request "GET" "http://redsky.test/experiments/e")
     = Ok ({| http.StatusCode := 200; http.Header := ∅ |}, Sample.not_json)
  /\ run (Sample.always 200 ∅ Sample.not_json) (GetExperiment "http://redsky.test/experiments/e")
     = (Experiment_zero, Some Sample.syntax_error).
Proof.
  split; [reflexivity|]. split; [reflexivity|].
  destruct (@GetExperiment_outcome Sample.env (Sample.always 200 ∅ Sample.not_json)
              "http://redsky.test/experiments/e"
              {| http.StatusCode := 200; http.Header := ∅ |} Sample.not_json)
    as [H _]; [reflexivity | reflexivity |].
  rewrite H by reflexivity. reflexivity.
Defined.

(** X7. A removal that the transport answers succeeds on 204 only: 404 is
    experiment-not-found, 401 the unauthorized error, and every other
    status, 200 among them, the unexpected-response error. *)
Theorem DeleteExperiment_outcome `{E : Env} (c : Client) (u : string) resp body :
  url_Parse u = None ->
  c (plain_request "DELETE" u) = Ok (resp, body) ->
  (run c (DeleteExperiment u) = None <-> http.StatusCode resp = 204%Z)
  /\ (http.StatusCode resp = 404%Z ->
        run c (DeleteExperiment u) = api_error ErrExperimentNotFound)
  /\ (http.StatusCode resp = 401%Z -> run c (DeleteExperiment u) = Some unauthorized)
  /\ (~ In (http.StatusCode resp) [204; 401; 404]%Z ->
        run c (DeleteExperiment u) = Some (unexpected_response (http.StatusCode resp))).
Proof.
  intros Hu Hc. unfold DeleteExperiment, NewRequest. rewrite Hu. cbn [run].
  fold (plain_request http.MethodDelete u). change http.MethodDelete with "DELETE".
  rewrite Hc. unfold http.StatusNoContent, http.StatusNotFound.
  split; [|split; [|split]].
  - destruct (Z.eqb_spec (http.StatusCode resp) 204) as [|Hne]; [tauto|].
    split; [|contradiction]. destruct (http.StatusCode resp =? 404)%Z; discriminate.
  - intros H. rewrite H. reflexivity.
  - intros H. rewrite H. cbn [Z.eqb Pos.eqb run].
    rewrite unexpected_unauthorized by exact H. reflexivity.
  - intros H. cbn [In] in H. status_cases. cbn [run]. rewrite unexpected_other; [reflexivity|].
    unfold http.StatusUnauthorized. lia.
Qed.

Lemma DeleteExperiment_outcome_witness :
  url_Parse "http://redsky.test/experiments/e" = None
  /\ Sample.always 200 ∅ [] (plain_request "DELETE" "http://redsky.test/experiments/e")
     = Ok ({| http.StatusCode := 200; http.Header := ∅ |}, [])
  /\ run (Sample.always 200 ∅ []) (DeleteExperiment "http://redsky.test/experiments/e")
     = Some (unexpected_response 200).
Proof.
  split; [reflexivity|]. split; [reflexivity|].
  destruct (@DeleteExperiment_outcome Sample.env (Sample.always 200 ∅ [])
              "http://redsky.test/experiments/e"
              {| http.StatusCode := 200; http.Header := ∅ |} [])
    as (_ & _ & _ & H); [reflexivity | reflexivity |].
  apply H. cbn. intros [|[|[|[]]]]; discriminate.
Defined.

(** X8. A trial creation that the transport answers: on 201 the result is
    the [Location] header, empty when the response has none, and no error;
    on 422 the error is trial-invalid, on 401 the unauthorized error, on
    any other status the unexpected-response error, each with an empty
    link. *)
Theorem CreateTrial_outcome `{E : Env} (c : Client) (u : string) (asm : TrialAssignments)
    (sentBody : bytes) resp body :
  json_Marshal_TrialAssignments asm = Ok sentBody ->
  url_Parse u = None ->
  c (json_request "POST" u sentBody) = Ok (resp, body) ->
  (http.StatusCode resp = 201%Z ->
     run c (CreateTrial u asm) = (http.Get (http.Header resp) "Location", None))
  /\ (http.StatusCode resp = 422%Z ->
        run c (CreateTrial u asm) = ("", api_error ErrTrialInvalid))
  /\ (http.StatusCode resp = 401%Z -> run c (CreateTrial u asm) = ("", Some unauthorized))
  /\ (~ In (http.StatusCode resp) [201; 401; 422]%Z ->
        run c (CreateTrial u asm)
        = ("", Some (unexpected_response (http.StatusCode resp)))).
Proof.
  intros Hm Hu Hc. unfold CreateTrial, NewRequest. rewrite Hm, Hu.
  rewrite json_request_built. cbn [run]. change http.MethodPost with "POST". rewrite Hc.
  unfold http.StatusCreated, http.StatusUnprocessableEntity.
  split; [|split; [|split]]; intros H.
  - rewrite H. reflexivity.
  - rewrite H. reflexivity.
  - rewrite H. cbn [Z.eqb Pos.eqb run]. rewrite unexpected_unauthorized by exact H. reflexivity.
  - cbn [In] in H. status_cases. cbn [run]. rewrite unexpected_other; [reflexivity|].
    unfold http.StatusUnauthorized. lia.
Qed.

Lemma CreateTrial_outcome_witness :
  json_Marshal_TrialAssignments TrialAssignments_zero = Ok Sample.null_assignments
  /\ url_Parse "http://redsky.test/experiments/e/trials" = None
  /\ Sample.always 201 ∅ []
       (json_request "POST" "http://redsky.test/experiments/e/trials" Sample.null_assignments)
     = Ok ({| http.StatusCode := 201; http.Header := ∅ |}, [])
  /\ run (Sample.always 201 ∅ [])
         (CreateTrial "http://redsky.test/experiments/e/trials" TrialAssignments_zero)
     = ("", None).
Proof.
  split; [reflexivity|]. split; [reflexivity|]. split; [reflexivity|].
  destruct (@CreateTrial_outcome Sample.env (Sample.always 201 ∅ [])
              "http://redsky.test/experiments/e/trials" TrialAssignments_zero
              Sample.null_assignments {| http.StatusCode := 201; http.Header := ∅ |} [])
    as [H _]; [reflexivity | reflexivity | reflexivity |].
  rewrite H by reflexivity. reflexivity.
Defined.

(** X9. The links of a fetched experiment and of a fetched page come from
    the headers of the response alone: the body, decoded after the headers
    are read, does not change them. *)
Theorem links_come_from_the_headers `{E : Env} `{!JsonTags E} (c : Client) (u : string)
    resp body :
  url_Parse u = None ->
  c (plain_request "GET" u) = Ok (resp, body) ->
  http.StatusCode resp = 200%Z ->
  Experiment_Meta (run c (GetExperiment u)).1
  = metaUnmarshal (http.Header resp) ExperimentMeta_zero
  /\ ExperimentList_Meta (run c (GetAllExperimentsByPage u)).1
     = metaUnmarshal (http.Header resp) (ExperimentList_Meta ExperimentList_zero).
Proof.
  intros Hu Hc Hs.
  rewrite (GetExperiment_answered c u resp body Hu Hc).
  rewrite (GetAllExperimentsByPage_answered c u resp body Hu Hc). rewrite Hs.
  cbn [Z.eqb Pos.eqb fst].
  rewrite json_Unmarshal_Experiment_meta, json_Unmarshal_ExperimentList_meta.
  split; reflexivity.
Qed.

Lemma links_come_from_the_headers_witness :
  let header : gmap string (list string) :=
    {[ "Link" := ["</experiments/e>; rel=self, </experiments?offset=10>; rel=next"] ]} in
  url_Parse "http://redsky.test/experiments/e" = None
  /\ Sample.always 200 header Sample.empty_object
       (plain_request "GET" "http://redsky.test/experiments/e")
     = Ok ({| http.StatusCode := 200; http.Header := header |}, Sample.empty_object)
  /\ Self (Experiment_Meta (run (Sample.always 200 header Sample.empty_object)
                                (GetExperiment "http://redsky.test/experiments/e")).1)
     = "/experiments/e"
  /\ Next (ExperimentList_Meta
             (run (Sample.always 200 header Sample.empty_object)
                  (GetAllExperimentsByPage "http://redsky.test/experiments/e")).1)
     = "/experiments?offset=10".
Proof.
  intros header. split; [reflexivity|]. split; [reflexivity|].
  destruct (@links_come_from_the_headers Sample.env _
              (Sample.always 200 header Sample.empty_object)
              "http://redsky.test/experiments/e"
              {| http.StatusCode := 200; http.Header := header |} Sample.empty_object)
    as [-> ->]; [reflexivity | reflexivity | reflexivity |].
  split; vm_compute; reflexivity.
Defined.

(** ** The calls of [metaUnmarshal] *)

Lemma link_entry_replay {M : Type} `{Meta M} (m : M) (h : string) :
  link_entry m h = replay_call m (entry_call h).
Proof.
  unfold link_entry, entry_call. destruct (fold_left link_segment _ _). reflexivity.
Qed.

Lemma fold_left_map {A B C : Type} (f : A -> C -> A) (g : B -> C) (l : list B) (a : A) :
  fold_left (fun a b => f a (g b)) l a = fold_left f (map g l) a.
Proof. revert a. induction l as [|b l IH]; intros a; cbn; [reflexivity | apply IH]. Qed.

Lemma fold_left_ext {A B : Type} (f g : A -> B -> A) (l : list B) (a : A) :
  (forall a b, f a b = g a b) -> fold_left f l a = fold_left g l a.
Proof.
  intros Hfg. revert a. induction l as [|b l IH]; intros a; cbn; [reflexivity|].
  rewrite Hfg. apply IH.
Qed.

Lemma link_header_replay {M : Type} `{Meta M} (m : M) (rh : string) :
  link_header m rh = replay (map entry_call (strings.Split rh ","%char)) m.
Proof.
  unfold link_header, replay. rewrite <- fold_left_map.
  apply fold_left_ext. intros. apply link_entry_replay.
Qed.

Lemma link_headers_replay {M : Type} `{Meta M} (l : list string) (m : M) :
  fold_left link_header l m
  = replay (flat_map (fun rh => map entry_call (strings.Split rh ","%char)) l) m.
Proof.
  revert m. induction l as [|rh l IH]; intros m; [reflexivity|].
  cbn [fold_left flat_map]. unfold replay. rewrite fold_left_app.
  rewrite IH, link_header_replay. reflexivity.
Qed.

Lemma metaUnmarshal_replay `{E : Env} {M : Type} `{Meta M}
    (header : gmap string (list string)) (m : M) :
  metaUnmarshal header m = replay (header_calls header) m.
Proof.
  unfold metaUnmarshal, header_calls, replay.
  rewrite !fold_left_app. rewrite link_headers_replay.
  change (http.CanonicalHeaderKey "Link") with "Link". unfold replay. f_equal.
  destruct (String.eqb (http.Get header "Location") "");
    destruct (String.eqb (http.Get header "Last-Modified") ""); cbn;
    try destruct (http_ParseTime _); reflexivity.
Qed.

(** X10. [metaUnmarshal] acts on a sink through calls alone, and makes
    them in a fixed order: the location when the header is not empty, the
    date when the header parses, then one [SetLink] for each entry between
    commas of each [Link] line, complete or not. A response without the
    three headers leaves the sink as it is. *)
Theorem metaUnmarshal_call_order `{E : Env} (header : gmap string (list string)) :
  metaUnmarshal header ([] : list MetaCall) = header_calls header
  /\ (forall (M : Type) (S : Meta M) (m : M),
        metaUnmarshal header m = replay (metaUnmarshal header ([] : list MetaCall)) m)
  /\ (header !! "Location" = None -> header !! "Last-Modified" = None ->
      header !! "Link" = None ->
      forall (M : Type) (S : Meta M) (m : M), metaUnmarshal header m = m).
Proof.
  assert (Hrec : metaUnmarshal header ([] : list MetaCall) = header_calls header).
  { rewrite metaUnmarshal_replay. unfold replay.
    generalize (header_calls header). intros l.
    assert (G : forall acc : list MetaCall, fold_left replay_call l acc = (acc ++ l)%list).
    { induction l as [|x l IH]; intros acc; cbn [fold_left].
      - rewrite app_nil_r. reflexivity.
      - rewrite IH. destruct x; cbn; rewrite <- app_assoc; reflexivity. }
    apply G. }
  split; [exact Hrec|]. split.
  - intros M S m. rewrite Hrec. apply metaUnmarshal_replay.
  - intros Hl Hd Hk M S m. rewrite metaUnmarshal_replay.
    unfold header_calls, http.Get, http.values.
    change (http.CanonicalHeaderKey "Location") with "Location".
    change (http.CanonicalHeaderKey "Last-Modified") with "Last-Modified".
    rewrite Hl, Hd, Hk. reflexivity.
Qed.

Lemma metaUnmarshal_call_order_witness :
  (∅ : gmap string (list string)) !! "Location" = None
  /\ (∅ : gmap string (list string)) !! "Last-Modified" = None
  /\ (∅ : gmap string (list string)) !! "Link" = None
  /\ metaUnmarshal ∅ {| Next := "/n"; Prev := "/p" |} = {| Next := "/n"; Prev := "/p" |}.
Proof.
  split; [reflexivity|]. split; [reflexivity|]. split; [reflexivity|].
  destruct (@metaUnmarshal_call_order Sample.env ∅) as (_ & _ & H).
  apply H; reflexivity.
Defined.

(** An empty [Link] line still makes one call, with nothing in it. *)
Example metaUnmarshal_empty_link :
  metaUnmarshal {[ "Link" := [""; "</x>; rel=next,"] ]} ([] : list MetaCall)
  = [CallSetLink "" ""; CallSetLink "next" "/x"; CallSetLink "" ""].
Proof. vm_compute. reflexivity. Qed.

(** X11. Each sink reads its own headers: the links of an experiment and
    of a page depend on the [Link] lines alone, the report link of a trial
    on the [Location] header alone. *)
Theorem sinks_read_their_own_headers `{E : Env} (header header' : gmap string (list string)) :
  (http.values header "Link" = http.values header' "Link" ->
   (forall m : ExperimentMeta, metaUnmarshal header m = metaUnmarshal header' m)
   /\ (forall m : ExperimentListMeta, metaUnmarshal header m = metaUnmarshal header' m))
  /\ (http.Get header "Location" = http.Get header' "Location" ->
      forall m : TrialMeta, metaUnmarshal header m = metaUnmarshal header' m).
Proof.
  split.
  - intros Hl.
    assert (G : forall (M : Type) (S : Meta M),
               (forall l (m : M), SetLocation l m = m) ->
               (forall t (m : M), SetLastModified t m = m) ->
               forall m : M, metaUnmarshal header m = metaUnmarshal header' m).
    { intros M S Hloc Hdate m. unfold metaUnmarshal.
      change (http.CanonicalHeaderKey "Link") with "Link". rewrite Hl. f_equal.
      repeat match goal with
        | |- context [if ?b then _ else _] => destruct b
        | |- context [match http_ParseTime ?x with _ => _ end] => destruct (http_ParseTime x)
        end; rewrite ?Hloc, ?Hdate; reflexivity. }
    split; apply G; reflexivity.
  - intros Hl m. rewrite !metaUnmarshal_TrialMeta, Hl. reflexivity.
Qed.

Lemma sinks_read_their_own_headers_witness :
  let header : gmap string (list string) :=
    {[ "Link" := ["</x>; rel=next"]; "Location" := ["/a"] ]} in
  let header' : gmap string (list string) :=
    {[ "Link" := ["</x>; rel=next"]; "Last-Modified" := [Sample.epoch] ]} in
  http.values header "Link" = http.values header' "Link"
  /\ metaUnmarshal header (ExperimentList_Meta ExperimentList_zero)
     = metaUnmarshal header' (ExperimentList_Meta ExperimentList_zero).
Proof.
  intros header header'. split; [reflexivity|].
  destruct (@sinks_read_their_own_headers Sample.env header header') as [H _].
  destruct H as [_ H]; [reflexivity|]. apply H.
Defined.

(** ** Well-formed links: the last one wins *)

Lemma link_header_well_formed_witness :
  [("next", "/x"); ("prev", "/y")] <> []
  /\ Forall (fun p => plain p.1 = true /\ plain p.2 = true) [("next", "/x"); ("prev", "/y")]
  /\ link_header ([] : list MetaCall) (link_values [("next", "/x"); ("prev", "/y")])
     = [CallSetLink "next" "/x"; CallSetLink "prev" "/y"].
Proof.
  assert (Hall : Forall (fun p : string * string => plain p.1 = true /\ plain p.2 = true)
                        [("next", "/x"); ("prev", "/y")]).
  { repeat constructor. }
  split; [discriminate|]. split; [exact Hall|].
  rewrite (link_header_well_formed [("next", "/x"); ("prev", "/y")] ([] : list MetaCall))
    by first [discriminate | exact Hall].
  reflexivity.
Defined.

Lemma last_link_cons rels rel uri ls old :
  last_link rels ((rel, uri) :: ls) old
  = last_link rels ls (if existsb (String.eqb rel) rels then uri else old).
Proof. reflexivity. Qed.

Lemma ExperimentListMeta_links ls (m : ExperimentListMeta) :
  fold_left (fun m p => SetLink p.1 p.2 m) ls m
  = {| Next := last_link [relationNext] ls (Next m);
       Prev := last_link [relationPrev; relationPrevious] ls (Prev m) |}.
Proof.
  revert m. induction ls as [|[rel uri] ls IH]; intros m; [destruct m; reflexivity|].
  cbn [fold_left fst snd]. rewrite IH, !last_link_cons. cbn [existsb SetLink ExperimentListMeta_Meta].
  unfold ExperimentListMeta_SetLink.
  destruct (String.eqb_spec rel relationNext) as [->|]; [reflexivity|].
  destruct (String.eqb rel relationPrev || String.eqb rel relationPrevious) eqn:Hp;
    cbn [Next Prev orb]; rewrite ?orb_false_r; rewrite ?Hp; reflexivity.
Qed.

Lemma ExperimentMeta_links ls (m : ExperimentMeta) :
  fold_left (fun m p => SetLink p.1 p.2 m) ls m
  = {| Self := last_link [relationSelf] ls (Self m);
       Trials_ := last_link [relationTrials] ls (Trials_ m);
       NextTrial_ := last_link [relationNextTrial] ls (NextTrial_ m) |}.
Proof.
  revert m. induction ls as [|[rel uri] ls IH]; intros m; [destruct m; reflexivity|].
  cbn [fold_left fst snd]. rewrite IH, !last_link_cons. cbn [existsb SetLink ExperimentMeta_Meta].
  unfold ExperimentMeta_SetLink.
  destruct (String.eqb_spec rel relationSelf) as [->|]; [reflexivity|].
  destruct (String.eqb_spec rel relationTrials) as [->|]; [reflexivity|].
  destruct (String.eqb_spec rel relationNextTrial) as [->|]; reflexivity.
Qed.

(** X13. In a [Link] header of well-formed entries, the last entry of a
    relation gives the link: [next] for the next page, [prev] or [previous]
    for the previous one, and the three relations of an experiment for its
    links; a link without entry keeps its value, and entries of other
    relations change nothing. *)
Theorem well_formed_links_last_wins (ls : list (string * string)) :
  ls <> [] ->
  Forall (fun p => plain p.1 = true /\ plain p.2 = true) ls ->
  (forall m : ExperimentListMeta,
      link_header m (link_values ls)
      = {| Next := last_link ["next"] ls (Next m);
           Prev := last_link ["prev"; "previous"] ls (Prev m) |})
  /\ (forall m : ExperimentMeta,
        link_header m (link_values ls)
        = {| Self := last_link ["self"] ls (Self m);
             Trials_ := last_link ["https://carbonrelay.com/rel/trials"] ls (Trials_ m);
             NextTrial_ :=
               last_link ["https://carbonrelay.com/rel/nextTrial"] ls (NextTrial_ m) |}).
Proof.
  intros Hne Hall. split; intros m; unfold link_header.
  - rewrite (link_values_delivered ls Hne Hall 0 m). apply ExperimentListMeta_links.
  - rewrite (link_values_delivered ls Hne Hall 0 m). apply ExperimentMeta_links.
Qed.

Lemma well_formed_links_last_wins_witness :
  let ls := [("next", "/a"); ("previous", "/b"); ("up", "/c"); ("next", "/d"); ("prev", "/e")] in
  ls <> []
  /\ Forall (fun p => plain p.1 = true /\ plain p.2 = true) ls
  /\ link_header {| Next := ""; Prev := "" |} (link_values ls) = {| Next := "/d"; Prev := "/e" |}.
Proof.
  intros ls.
  assert (Hall : Forall (fun p : string * string => plain p.1 = true /\ plain p.2 = true) ls).
  { repeat constructor. }
  split; [discriminate|]. split; [exact Hall|].
  destruct (well_formed_links_last_wins ls) as [H _]; [discriminate | exact Hall |].
  rewrite H. reflexivity.
Defined.

(** ** The list query read back *)

Lemma parse_digits_cons c s acc k :
  strconv.digit_of c = Some k ->
  strconv.parse_digits (String c s) acc = strconv.parse_digits s (acc * 10 + k)%Z.
Proof. intros H. cbn [strconv.parse_digits]. rewrite H. reflexivity. Qed.

Lemma parse_digits_acc d acc :
  strconv.parse_digits (NilEmpty.string_of_uint d) (Z.pos acc)
  = Some (Z.pos (Pos.of_uint_acc d acc)).
Proof.
  revert acc. induction d; intros acc; cbn [NilEmpty.string_of_uint Pos.of_uint_acc];
    [reflexivity|..];
    (erewrite parse_digits_cons by (vm_compute; reflexivity));
    match goal with
    | |- strconv.parse_digits _ ?z = Some (Z.pos (Pos.of_uint_acc _ ?p)) =>
        replace z with (Z.pos p) by lia
    end; apply IHd.
Qed.

Lemma parse_digits_uint d :
  strconv.parse_digits (NilEmpty.string_of_uint d) 0 = Some (Z.of_N (Pos.of_uint d)).
Proof.
  induction d; cbn [NilEmpty.string_of_uint Pos.of_uint]; [reflexivity|..];
    (erewrite parse_digits_cons by (vm_compute; reflexivity)); cbn [Z.mul Z.add Z.of_N];
    first [exact IHd | apply parse_digits_acc].
Qed.

Lemma Atoi_unsigned d :
  d <> Decimal.Nil ->
  strconv.Atoi (NilEmpty.string_of_uint d)
  = match strconv.parse_digits (NilEmpty.string_of_uint d) 0 with
    | Some n => if strconv.in_int n then Some n else None
    | None => None
    end.
Proof. destruct d; [congruence|..]; intros _; reflexivity. Qed.

Lemma Atoi_negative d :
  d <> Decimal.Nil ->
  strconv.Atoi (String "-" (NilEmpty.string_of_uint d))
  = match strconv.parse_digits (NilEmpty.string_of_uint d) 0 with
    | Some n => if strconv.in_int (- n) then Some (- n)%Z else None
    | None => None
    end.
Proof. destruct d; [congruence|..]; intros _; reflexivity. Qed.

Lemma NilZero_string_of_uint d :
  d <> Decimal.Nil -> NilZero.string_of_uint d = NilEmpty.string_of_uint d.
Proof. destruct d; [congruence|..]; reflexivity. Qed.

(** [Atoi] reads back what [Itoa] writes. *)
Lemma Atoi_Itoa z : strconv.in_int z = true -> strconv.Atoi (strconv.Itoa z) = Some z.
Proof.
  intros Hz. unfold strconv.Itoa. destruct z as [|p|p]; [reflexivity|..];
    cbn [Z.to_int NilZero.string_of_int];
    rewrite NilZero_string_of_uint by apply DecimalPos.Unsigned.to_uint_nonnil.
  - rewrite Atoi_unsigned by apply DecimalPos.Unsigned.to_uint_nonnil.
    rewrite parse_digits_uint, DecimalPos.Unsigned.of_to. cbn [Z.of_N].
    rewrite Hz. reflexivity.
  - rewrite Atoi_negative by apply DecimalPos.Unsigned.to_uint_nonnil.
    rewrite parse_digits_uint, DecimalPos.Unsigned.of_to.
    change (Z.of_N (N.pos p)) with (Z.pos p). cbv beta iota.
    change (- Z.pos p)%Z with (Z.neg p). rewrite Hz. reflexivity.
Qed.

Lemma CutPrefix_app p s : CutPrefix (p ++ s) p = Some s.
Proof.
  induction p as [|c p IH]; [destruct s; reflexivity|].
  change (String c p ++ s) with (String c (p ++ s)). cbn [CutPrefix].
  rewrite Ascii.eqb_refl. exact IH.
Qed.

(** X14. The encoded list query reads back: the integer under [offset] and
    under [limit] is the field of the query, and the key is absent exactly
    when the field is zero. *)
Theorem ExperimentListQuery_Encode_read_back (p : ExperimentListQuery) :
  strconv.in_int (Offset p) = true ->
  strconv.in_int (Limit p) = true ->
  query_int "offset" (ExperimentListQuery_Encode (Some p))
  = (if (Offset p =? 0)%Z then None else Some (Offset p))
  /\ query_int "limit" (ExperimentListQuery_Encode (Some p))
     = (if (Limit p =? 0)%Z then None else Some (Limit p)).
Proof.
  intros Ho Hl. rewrite ExperimentListQuery_Encode_shape.
  pose proof (numeric_no_amp _ (numeric_Itoa (Offset p))) as Ao.
  pose proof (numeric_no_amp _ (numeric_Itoa (Limit p))) as Al.
  assert (Hlim : forall x, strings.HasPrefix ("limit=" ++ x) "offset=" = false)
    by reflexivity.
  assert (Hoff : forall x, strings.HasPrefix ("offset=" ++ x) "limit=" = false)
    by reflexivity.
  unfold query_int, query_value.
  change ("offset" ++ "=") with "offset=". change ("limit" ++ "=") with "limit=".
  destruct (Offset p =? 0)%Z, (Limit p =? 0)%Z.
  - split; reflexivity.
  - rewrite Split_free by (rewrite byte_in_app, Al; reflexivity).
    cbn [List.filter]. rewrite Hlim, HasPrefix_app, CutPrefix_app, Atoi_Itoa by exact Hl.
    split; reflexivity.
  - rewrite Split_free by (rewrite byte_in_app, Ao; reflexivity).
    cbn [List.filter]. rewrite Hoff, HasPrefix_app, CutPrefix_app, Atoi_Itoa by exact Ho.
    split; reflexivity.
  - rewrite <- append_assoc.
    change ("&offset=" ++ strconv.Itoa (Offset p))
      with (String "&" ("offset=" ++ strconv.Itoa (Offset p))).
    rewrite Split_free_app by (rewrite byte_in_app, Al; reflexivity).
    rewrite Split_free by (rewrite byte_in_app, Ao; reflexivity).
    cbn [List.filter]. rewrite Hlim, Hoff, !HasPrefix_app. cbn [List.filter].
    rewrite !CutPrefix_app, !Atoi_Itoa by assumption.
    split; reflexivity.
Qed.

Lemma ExperimentListQuery_Encode_read_back_witness :
  strconv.in_int (-3) = true /\ strconv.in_int 250 = true
  /\ query_int "offset" (ExperimentListQuery_Encode (Some {| Offset := -3; Limit := 250 |}))
     = Some (-3)%Z
  /\ query_int "limit" (ExperimentListQuery_Encode (Some {| Offset := -3; Limit := 250 |}))
     = Some 250%Z.
Proof.
  split; [reflexivity|]. split; [reflexivity|].
  apply (ExperimentListQuery_Encode_read_back {| Offset := -3; Limit := 250 |});
    reflexivity.
Defined.

(** ** The name of an experiment in a path *)

Lemma escape_cons c s mode :
  url.escape (String c s) mode = url.escape (String c "") mode ++ url.escape s mode.
Proof.
  cbn [url.escape].
  destruct (url.shouldEscape c mode); [|reflexivity].
  destruct (Ascii.eqb c " " && url.is_query mode); reflexivity.
Qed.

Lemma PathEscape_byte (c : ascii) :
  forallb (fun x => negb (strings.byte_in x "/?#; ,"))
          (list_ascii_of_string (url.PathEscape (String c ""))) = true.
Proof. destruct c as [[] [] [] [] [] [] [] []]; vm_compute; reflexivity. Qed.

(** X15. An escaped experiment name has no slash, question mark, number
    sign, semicolon, comma or space, whatever the name; the one URL that
    [GetExperimentByName] and [CreateExperiment] ask for is
    [/experiments/] followed by it, so the name adds no path separator, no
    query and no fragment to the URL. *)
Theorem experiment_name_is_one_segment `{E : Env} (n : string) (exp : Experiment) :
  free_of "/?#; ," (url.PathEscape n) = true
  /\ requests (GetExperimentByName n)
       (plain_request "GET" (client_URL ("/experiments/" ++ url.PathEscape n)))
  /\ (forall (c : Client) req, In req (sent c (CreateExperiment n exp)) ->
        http.URL req = client_URL ("/experiments/" ++ url.PathEscape n)).
Proof.
  split; [|split].
  - unfold url.PathEscape. induction n as [|c n IH]; [reflexivity|].
    rewrite escape_cons. unfold free_of in *.
    assert (Happ : forall a b, list_ascii_of_string (a ++ b)
                               = (list_ascii_of_string a ++ list_ascii_of_string b)%list).
    { induction a as [|x a IHa]; intros b; [reflexivity|].
      change (String x a ++ b) with (String x (a ++ b)). cbn. now rewrite IHa. }
    rewrite Happ, forallb_app, IH, andb_true_r. apply PathEscape_byte.
  - unfold requests, GetExperimentByName, GetExperiment, NewRequest. intros c req Hin.
    destruct (url_Parse _); cbn [sent In] in Hin; [contradiction|].
    destruct Hin as [<- | Hin]; [reflexivity|].
    repeat (match type of Hin with
            | context [match ?x with _ => _ end] => destruct x
            end; cbn [sent In] in Hin); contradiction.
  - intros c req Hin. unfold CreateExperiment, NewRequest in Hin.
    destruct (json_Marshal_Experiment exp) as [body|]; [|destruct Hin].
    destruct (url_Parse _); [destruct Hin|].
    rewrite json_request_built in Hin. cbn [sent In] in Hin.
    destruct Hin as [<- | Hin]; [reflexivity|].
    repeat (match type of Hin with
            | context [match ?x with _ => _ end] => destruct x
            end; cbn [sent In] in Hin); contradiction.
Qed.

Example PathEscape_names :
  map url.PathEscape ["cpu-mem"; "a/b"; "../admin"; "x y?z"]
  = ["cpu-mem"; "a%2Fb"; "..%2Fadmin"; "x%20y%3Fz"].
Proof. vm_compute. reflexivity. Qed.

(** * The trial table

    ** Cells *)

Lemma TrimPrefix_app p s : TrimPrefix (p ++ s) p = s.
Proof. unfold TrimPrefix. rewrite CutPrefix_app. reflexivity. Qed.

Lemma assignment_of_find column l :
  get.assignment_of column l
  = option_map AssignmentValue (List.find (fun a => String.eqb (ParameterName a) column) l).
Proof.
  induction l as [|a l IH]; [reflexivity|]. cbn.
  destruct (String.eqb (ParameterName a) column); [reflexivity | exact IH].
Qed.

Lemma value_of_find `{get.FloatText} column l :
  get.value_of column l
  = option_map (fun v => get.FormatFloat (Value_ v))
      (List.find (fun v => String.eqb (MetricName v) column) l).
Proof.
  induction l as [|v l IH]; [reflexivity|]. cbn.
  destruct (String.eqb (MetricName v) column); [reflexivity | exact IH].
Qed.

(** X16. Every column of the CSV table is served: a column of the table
    metadata is [parameter_] or [metric_] followed by a name, and the cell
    of a trial under it is the value of the first assignment, or the text
    of the first observed value, of that name, and empty when the trial has
    none. *)
Theorem csv_cells `{get.FloatText} (t : get.trialTableMeta) (outputFormat : string)
    (o : TrialItem) (column : string) :
  strings.ToLower outputFormat = "csv" ->
  In column (get.Columns t outputFormat) ->
  (exists p, In p (get.parameters t) /\ column = "parameter_" ++ p
     /\ get.ExtractValue (get.TrialItemPtr o) column
        = (match List.find (fun a => String.eqb (ParameterName a) p)
                           (Assignments (Item_Assignments o)) with
           | Some a => AssignmentValue a
           | None => ""
           end, None))
  \/ (exists m, In m (get.metrics t) /\ column = "metric_" ++ m
        /\ get.ExtractValue (get.TrialItemPtr o) column
           = (match List.find (fun v => String.eqb (MetricName v) m)
                              (Values (Item_Values o)) with
              | Some v => get.FormatFloat (Value_ v)
              | None => ""
              end, None)).
Proof.
  intros Hf Hin. unfold get.Columns in Hin. rewrite Hf in Hin. cbn [String.eqb] in Hin.
  change (String.eqb "csv" "csv") with true in Hin. cbv iota in Hin.
  apply in_app_or in Hin as [Hin|Hin]; apply in_map_iff in Hin as (x & <- & Hx).
  - left. exists x. split; [exact Hx|]. split; [reflexivity|].
    unfold get.ExtractValue.
    rewrite (HasPrefix_app "parameter_" x), TrimPrefix_app, assignment_of_find.
    destruct (List.find _ _); reflexivity.
  - right. exists x. split; [exact Hx|]. split; [reflexivity|].
    unfold get.ExtractValue.
    change (strings.HasPrefix ("metric_" ++ x) "parameter_") with false. cbv iota.
    rewrite (HasPrefix_app "metric_" x), TrimPrefix_app, value_of_find.
    destruct (List.find _ _); reflexivity.
Qed.

(** ** The name of a trial *)

Lemma TrimRight_free s cutset : free_of cutset s = true -> strings.TrimRight s cutset = s.
Proof.
  induction s as [|c s IH]; [reflexivity|].
  rewrite free_of_cons. intros [Hc Hs]%andb_true_iff. apply negb_true_iff in Hc.
  cbn [strings.TrimRight]. rewrite (IH Hs), Hc. destruct s; reflexivity.
Qed.

Lemma TrimRight_app_kept a b cutset :
  b <> "" -> strings.TrimRight b cutset = b -> strings.TrimRight (a ++ b) cutset = a ++ b.
Proof.
  intros Hb Ht. induction a as [|x a IH]; [exact Ht|].
  change (String x a ++ b) with (String x (a ++ b)).
  cbn [strings.TrimRight]. rewrite IH.
  destruct a; [|reflexivity]. change ("" ++ b) with b. destruct b; [congruence | reflexivity].
Qed.

Lemma after_last_slash_free s : strings.byte_in "/" (path.after_last_slash s) = false.
Proof.
  induction s as [|c s IH]; [reflexivity|]. cbn [path.after_last_slash].
  destruct (strings.byte_in "/" s) eqn:Hs; [exact IH|].
  destruct (Ascii.eqb_spec c "/") as [->|Hc]; [exact Hs|].
  rewrite byte_in_cons, Hs, orb_false_r. apply Ascii.eqb_neq. congruence.
Qed.

Lemma after_last_slash_app dir id :
  strings.byte_in "/" id = false -> path.after_last_slash (dir ++ String "/" id) = id.
Proof.
  intros Hid. induction dir as [|x dir IH].
  - change ("" ++ String "/" id) with (String "/" id). cbn [path.after_last_slash].
    rewrite Hid. reflexivity.
  - change (String x dir ++ String "/" id) with (String x (dir ++ String "/" id)).
    cbn [path.after_last_slash].
    rewrite byte_in_app, (byte_in_cons "/" "/" id), Ascii.eqb_refl, orb_true_r. exact IH.
Qed.

Lemma free_of_slash id : strings.byte_in "/" id = false -> free_of "/" id = true.
Proof.
  induction id as [|c id IH]; [reflexivity|].
  rewrite byte_in_cons, free_of_cons. intros [Hc Hs]%orb_false_iff.
  rewrite (IH Hs), andb_true_r. unfold strings.byte_in. cbn.
  rewrite Ascii.eqb_sym, Hc. reflexivity.
Qed.

(** The last element of a path that ends with a name. *)
Lemma Base_last dir id :
  id <> "" -> strings.byte_in "/" id = false -> path.Base (dir ++ String "/" id) = id.
Proof.
  intros Hne Hid. unfold path.Base.
  assert (Hp : String.eqb (dir ++ String "/" id) "" = false) by (destruct dir; reflexivity).
  rewrite Hp.
  replace (strings.TrimRight (dir ++ String "/" id) "/") with (dir ++ String "/" id).
  - rewrite after_last_slash_app by exact Hid. destruct id; [congruence | reflexivity].
  - symmetry. change (String "/" id) with ("/" ++ id). rewrite <- append_assoc.
    apply TrimRight_app_kept; [exact Hne | apply TrimRight_free, free_of_slash, Hid].
Qed.

Lemma Base_shape p :
  path.Base p <> "" /\ (path.Base p = "/" \/ strings.byte_in "/" (path.Base p) = false).
Proof.
  unfold path.Base. destruct (String.eqb p ""); [split; [discriminate | right; reflexivity]|].
  destruct (String.eqb_spec (path.after_last_slash (strings.TrimRight p "/")) "") as [|Hne].
  - split; [discriminate | left; reflexivity].
  - split; [exact Hne | right; apply after_last_slash_free].
Qed.

(** X17. The [name] cell of a trial is the last element of its report
    link: the text after the last slash of a link that ends with a name, a
    dot for a trial without link. It is never empty, and has a slash only
    when it is one slash. *)
Theorem trial_name_cell `{get.FloatText} (o : TrialItem) :
  let link := ReportTrial_ (Trial_Meta (Item_Assignments o)) in
  let cell := (get.ExtractValue (get.TrialItemPtr o) "name").1 in
  get.ExtractValue (get.TrialItemPtr o) "name" = (path.Base link, None)
  /\ (link = "" -> cell = ".")
  /\ (forall dir id, link = dir ++ String "/" id -> id <> "" ->
        strings.byte_in "/" id = false -> cell = id)
  /\ cell <> ""
  /\ (cell = "/" \/ strings.byte_in "/" cell = false).
Proof.
  intros link cell.
  assert (Hc : get.ExtractValue (get.TrialItemPtr o) "name" = (path.Base link, None))
    by reflexivity.
  subst cell. rewrite Hc. cbn [fst].
  split; [reflexivity|]. split; [intros ->; reflexivity|]. split.
  - intros dir id -> Hne Hid. apply Base_last; assumption.
  - apply Base_shape.
Qed.

Example Base_paths :
  map path.Base ["/experiments/e/trials/7"; "/trials/7/"; "7"; ""; "///"; "http://h"]
  = ["7"; "7"; "7"; "."; "/"; "h"].
Proof. vm_compute. reflexivity. Qed.

(** ** Fetching the trials of an experiment *)

Lemma run_Prog_bind {A B : Type} (c : Client) (p : Prog A) (f : A -> Prog B) :
  run c (get.Prog_bind p f) = run c (f (run c p)).
Proof. induction p as [a|req k IH]; cbn; [reflexivity | apply IH]. Qed.

Lemma sent_Prog_bind {A B : Type} (c : Client) (p : Prog A) (f : A -> Prog B) :
  sent c (get.Prog_bind p f) = (sent c p ++ sent c (f (run c p)))%list.
Proof. induction p as [a|req k IH]; cbn; [reflexivity | now rewrite IH]. Qed.

(** X18. When the experiment is not fetched, or is fetched without a
    trials link, the trials are not asked for: the one request is that of
    the experiment. In the first case the error comes back with a nil list
    and the table metadata is untouched; in the second the list is empty
    and the names of the parameters and of the metrics are appended to the
    metadata. *)
Theorem getRedSkyAPITrialList_without_trials `{E : Env} (c : Client)
    (experimentName : string) (meta : get.trialTableMeta) (exp : Experiment) :
  (forall e, run c (GetExperimentByName experimentName) = (exp, Some e) ->
     run c (get.getRedSkyAPITrialList experimentName meta) = (meta, None, Some e)
     /\ sent c (get.getRedSkyAPITrialList experimentName meta)
        = sent c (GetExperimentByName experimentName))
  /\ (run c (GetExperimentByName experimentName) = (exp, None) ->
      Trials_ (Experiment_Meta exp) = "" ->
      run c (get.getRedSkyAPITrialList experimentName meta)
      = ({| get.parameters :=
              (get.parameters meta ++ map ParameterName_ (Parameters_ exp))%list;
            get.metrics := (get.metrics meta ++ map MetricName_ (Metrics exp))%list |},
         Some TrialList_zero, None)
      /\ sent c (get.getRedSkyAPITrialList experimentName meta)
         = sent c (GetExperimentByName experimentName)).
Proof.
  unfold get.getRedSkyAPITrialList. split.
  - intros e Hr. rewrite run_Prog_bind, sent_Prog_bind, Hr. cbn.
    rewrite app_nil_r. split; reflexivity.
  - intros Hr Ht. rewrite run_Prog_bind, sent_Prog_bind, Hr. cbn [get.parameters get.metrics].
    rewrite Ht. cbn. rewrite app_nil_r. split; reflexivity.
Qed.

(** X19. When the experiment has a trials link, the second request is the
    read of that link, and the result is that of [GetAllTrials]: its list
    on success, a nil list with its error otherwise. The names are
    appended to the table metadata in both cases. *)
Theorem getRedSkyAPITrialList_with_trials `{E : Env} (c : Client)
    (experimentName : string) (meta : get.trialTableMeta) (exp : Experiment) :
  run c (GetExperimentByName experimentName) = (exp, None) ->
  Trials_ (Experiment_Meta exp) <> "" ->
  let meta' :=
    {| get.parameters := (get.parameters meta ++ map ParameterName_ (Parameters_ exp))%list;
       get.metrics := (get.metrics meta ++ map MetricName_ (Metrics exp))%list |} in
  run c (get.getRedSkyAPITrialList experimentName meta)
  = match run c (GetAllTrials (Trials_ (Experiment_Meta exp))) with
    | (tl, None) => (meta', Some tl, None)
    | (_, Some e) => (meta', None, Some e)
    end
  /\ sent c (get.getRedSkyAPITrialList experimentName meta)
     = (sent c (GetExperimentByName experimentName)
        ++ sent c (GetAllTrials (Trials_ (Experiment_Meta exp))))%list
  /\ length (sent c (get.getRedSkyAPITrialList experimentName meta)) <= 2.
Proof.
  intros Hr Ht meta'. unfold get.getRedSkyAPITrialList.
  assert (Hne : String.eqb (Trials_ (Experiment_Meta exp)) "" = false)
    by (apply String.eqb_neq, Ht).
  rewrite run_Prog_bind, sent_Prog_bind, Hr. cbn [get.parameters get.metrics].
  rewrite Hne, run_Prog_bind, sent_Prog_bind.
  destruct (run c (GetAllTrials (Trials_ (Experiment_Meta exp)))) as [tl [e|]] eqn:Hg;
    cbn [run sent]; rewrite app_nil_r; (split; [reflexivity|]); (split; [reflexivity|]).
  all: rewrite length_app.
  all: destruct (operations_send_one_request_helper experimentName
                   (Trials_ (Experiment_Meta exp)) c) as [H1 H2]; lia.
Qed.

(** * The template data *)

Lemma store_assignments_nil_map l :
  l <> [] -> template.store_assignments None l = template.Panicked "assignment to entry in nil map".
Proof. destruct l; [congruence | reflexivity]. Qed.

(** X20. [NewPatchData] writes the assignments of the trial into a map it
    has not made: it panics on a trial with an assignment, and with it
    [RenderPatch] and [RenderHelmValue], before any template is looked at.
    On a trial without assignment it returns the metadata of the trial and
    a nil map. *)
Theorem NewPatchData_nil_map (t : template.Trial) :
  (template.Assignments (template.Spec t) = [] ->
   template.NewPatchData t
   = template.Returned {| template.PatchTrial := template.Meta t;
                          template.Values := None |})
  /\ (template.Assignments (template.Spec t) <> [] ->
      template.NewPatchData t = template.Panicked "assignment to entry in nil map"
      /\ forall (E : template.Engine) (patch : template.PatchTemplate) (hv : template.HelmValue),
           template.RenderPatch patch t
           = template.Panicked "assignment to entry in nil map"
           /\ template.RenderHelmValue hv t
              = template.Panicked "assignment to entry in nil map").
Proof.
  split.
  - intros Hl. unfold template.NewPatchData. rewrite Hl. reflexivity.
  - intros Hl.
    assert (Hp : template.NewPatchData t
                 = template.Panicked "assignment to entry in nil map").
    { unfold template.NewPatchData. cbn [template.Values].
      rewrite store_assignments_nil_map by exact Hl. reflexivity. }
    split; [exact Hp|]. intros E patch hv.
    unfold template.RenderPatch, template.RenderHelmValue. rewrite Hp. split; reflexivity.
Qed.

Lemma NewPatchData_nil_map_witness :
  let t := {| template.Meta := {| template.Name := "trial-1"; template.Namespace := "default";
                                  template.Labels := ∅; template.Annotations := ∅ |};
              template.Spec := {| template.Assignments :=
                                    [ {| template.AssignmentName := "cpu";
                                         template.AssignmentValue := 500 |} ];
                                  template.TargetNamespace := "" |};
              template.Status := {| template.StartTime := None;
                                    template.CompletionTime := None |} |} in
  template.Assignments (template.Spec t) <> []
  /\ template.RenderPatch {| template.Patch := "{}" |} t
     = template.Panicked "assignment to entry in nil map".
Proof.
  intros t. split; [discriminate|].
  destruct (NewPatchData_nil_map t) as [_ H].
  destruct H as [_ H]; [discriminate|].
  apply (H SampleEngine.engine {| template.Patch := "{}" |}
           {| template.HelmName := "x"; template.HelmValue_ := template.Int 1 |}).
Defined.

(** X21. [RenderMetricQueries] never reports an error: when either query
    fails to render, both results are empty and the error is nil; when both
    render, the results are the two texts. *)
Theorem RenderMetricQueries_drops_errors `{E : template.Engine} (metric : template.Metric)
    (trial : template.Trial) :
  let d := template.MetricDataPtr (template.NewMetricData trial) in
  let q := template.render (template.MetricName metric) (template.Query metric) d in
  let eq := template.render (template.MetricName metric) (template.ErrorQuery metric) d in
  (template.RenderMetricQueries metric trial).2 = None
  /\ ((exists err, q = Err err) \/ (exists err, eq = Err err) ->
      template.RenderMetricQueries metric trial = ("", "", None))
  /\ (forall b1 b2, q = Ok b1 -> eq = Ok b2 ->
        template.RenderMetricQueries metric trial = (b1, b2, None)).
Proof.
  intros d q eq. unfold template.RenderMetricQueries. fold d. fold q. fold eq.
  destruct q as [b1|e1], eq as [b2|e2]; cbn; repeat split; try reflexivity.
  all: try (intros [[err Hx]|[err Hx]]; congruence).
  all: try (intros x y Hx Hy; congruence).
Qed.

Lemma RenderMetricQueries_drops_errors_witness :
  let metric := {| template.MetricName := "latency";
                   template.Query := "scalar(latency{job={{ .Trial.Name }}})";
                   template.ErrorQuery := "scalar(errors{job={{ .Trial.Nme }}})" |} in
  let trial := {| template.Meta := {| template.Name := "trial-1";
                                      template.Namespace := "default";
                                      template.Labels := ∅; template.Annotations := ∅ |};
                  template.Spec := {| template.Assignments := [];
                                      template.TargetNamespace := "" |};
                  template.Status := {| template.StartTime := None;
                                        template.CompletionTime := None |} |} in
  template.render (template.MetricName metric) (template.Query metric)
    (template.MetricDataPtr (template.NewMetricData trial))
  = Ok "scalar(latency{job=trial-1})"
  /\ (exists err, template.render (template.MetricName metric) (template.ErrorQuery metric)
                    (template.MetricDataPtr (template.NewMetricData trial)) = Err err)
  /\ template.RenderMetricQueries metric trial = ("", "", None).
Proof.
  intros metric trial.
  assert (H : exists err, template.render (template.MetricName metric)
                            (template.ErrorQuery metric)
                            (template.MetricDataPtr (template.NewMetricData trial)) = Err err).
  { eexists. vm_compute. reflexivity. }
  split; [vm_compute; reflexivity|]. split; [exact H|].
  destruct (@RenderMetricQueries_drops_errors SampleEngine.engine metric trial)
    as (_ & Hd & _).
  apply Hd. right. exact H.
Defined.

Example RenderMetricQueries_rendered :
  let trial := {| template.Meta := {| template.Name := "trial-1";
                                      template.Namespace := "default";
                                      template.Labels := ∅; template.Annotations := ∅ |};
                  template.Spec := {| template.Assignments := [];
                                      template.TargetNamespace := "staging" |};
                  template.Status := {| template.StartTime := Some 1572480000%Z;
                                        template.CompletionTime := Some 1572480090%Z |} |} in
  template.RenderMetricQueries
    {| template.MetricName := "latency";
       template.Query := "scalar(latency{job={{ .Trial.Name }}})";
       template.ErrorQuery := "" |} trial
  = ("scalar(latency{job=trial-1})", "", None)
  /\ template.RenderMetricQueries
       {| template.MetricName := "cpu";
          template.Query := "rate(cpu{ns={{.Trial.Namespace}}}[{{ .Range }}])";
          template.ErrorQuery := "rate(cpu[{{ .Range" |} trial
     = ("", "", None)
  /\ template.Range (template.NewMetricData trial) = "90s".
Proof. vm_compute. auto. Qed.

(** * The director of the proxy *)

Lemma TrimLeft_slashes s :
  exists n, s = results.slashes n ++ strings.TrimLeft s "/"
            /\ strings.first_byte (strings.TrimLeft s "/") <> Some "/"%char.
Proof.
  induction s as [|c s (n & Hs & Hf)].
  - exists 0. split; [reflexivity | discriminate].
  - destruct (Ascii.eqb_spec c "/") as [->|Hc].
    + exists (S n). split; [|exact Hf].
      cbn [strings.TrimLeft results.slashes].
      change (strings.byte_in "/" "/") with true. cbv iota.
      change (String "/" (results.slashes n) ++ strings.TrimLeft s "/")
        with (String "/" (results.slashes n ++ strings.TrimLeft s "/")).
      rewrite <- Hs. reflexivity.
    + assert (Hb : strings.byte_in c "/" = false).
      { unfold strings.byte_in. cbn. rewrite orb_false_r. apply Ascii.eqb_neq, Hc. }
      exists 0. cbn [strings.TrimLeft]. rewrite Hb. split; [reflexivity|].
      cbn. congruence.
Qed.

(** X22. The director sends a request to the backend under the path of
    the backend address followed by the path of the request without its
    leading slashes, however many; the rest of the path, a trailing slash
    included, the query and the method are as they came. The scheme and the
    host are those of the address. *)
Theorem direct_path (address : results.URL) (request : results.Request) :
  let out := results.direct address request in
  (exists n rest,
      results.Path (results.RequestURL request) = results.slashes n ++ rest
      /\ strings.first_byte rest <> Some "/"%char
      /\ results.Path (results.RequestURL out) = results.Path address ++ rest)
  /\ results.Scheme (results.RequestURL out) = results.Scheme address
  /\ results.Host (results.RequestURL out) = results.Host address
  /\ results.RawQuery (results.RequestURL out) = results.RawQuery (results.RequestURL request)
  /\ results.Method out = results.Method request
  /\ results.Body out = results.Body request.
Proof.
  intros out. split; [|repeat split].
  destruct (TrimLeft_slashes (results.Path (results.RequestURL request))) as (n & Hs & Hf).
  exists n, (strings.TrimLeft (results.Path (results.RequestURL request)) "/").
  split; [exact Hs|]. split; [exact Hf | reflexivity].
Qed.

Example direct_paths :
  map (fun p =>
         results.Path (results.RequestURL
           (results.direct
              {| results.Scheme := "https"; results.Opaque := ""; results.Host := "api.test";
                 results.Path := "/v1/"; results.RawPath := ""; results.RawQuery := "";
                 results.Fragment := "" |}
              {| results.Method := "GET";
                 results.RequestURL :=
                   {| results.Scheme := ""; results.Opaque := ""; results.Host := "";
                      results.Path := p; results.RawPath := ""; results.RawQuery := "";
                      results.Fragment := "" |};
                 results.Header := ∅; results.RequestHost := "localhost:8080";
                 results.Body := [] |})))
      ["/experiments/"; "//experiments/e"; ""; "/"]
  = ["/v1/experiments/"; "/v1/experiments/e"; "/v1/"; "/v1/"].
Proof. vm_compute. reflexivity. Qed.

(** X23. The director replaces the forwarding headers: after it each of
    [Forwarded], [X-Forwarded-Proto] and [X-Forwarded-Host] has one value,
    made from the host the request came for, whatever the client had put
    under these names; every other header is kept, and the host of the
    request is cleared. *)
Theorem direct_headers (address : results.URL) (request : results.Request) :
  let out := results.direct address request in
  results.Header out !! "Forwarded"
  = Some ["proto=http;host=" ++ results.RequestHost request]
  /\ results.Header out !! "X-Forwarded-Proto" = Some ["http"]
  /\ results.Header out !! "X-Forwarded-Host" = Some [results.RequestHost request]
  /\ (forall key, ~ In key ["Forwarded"; "X-Forwarded-Proto"; "X-Forwarded-Host"] ->
        results.Header out !! key = results.Header request !! key)
  /\ results.RequestHost out = "".
Proof.
  intros out. subst out. unfold results.direct, http.Set_. cbn [results.Header results.RequestHost].
  change (http.CanonicalHeaderKey "Forwarded") with "Forwarded".
  change (http.CanonicalHeaderKey "X-Forwarded-Proto") with "X-Forwarded-Proto".
  change (http.CanonicalHeaderKey "X-Forwarded-Host") with "X-Forwarded-Host".
  repeat split.
  - rewrite !lookup_insert_ne by discriminate. apply lookup_insert_eq.
  - rewrite lookup_insert_ne by discriminate. apply lookup_insert_eq.
  - apply lookup_insert_eq.
  - intros key Hk. cbn [In] in Hk.
    rewrite !lookup_insert_ne by (intros Heq; apply Hk; subst key; auto 10). reflexivity.
Qed.

Lemma direct_headers_witness :
  let request :=
    {| results.Method := "GET";
       results.RequestURL :=
         {| results.Scheme := ""; results.Opaque := ""; results.Host := "";
            results.Path := "/api/experiments/"; results.RawPath := "";
            results.RawQuery := "limit=10"; results.Fragment := "" |};
       results.Header := {[ "X-Forwarded-Host" := ["evil.test"; "other.test"];
                            "Accept" := ["application/json"] ]};
       results.RequestHost := "localhost:8080"; results.Body := [] |} in
  let address :=
    {| results.Scheme := "https"; results.Opaque := ""; results.Host := "api.test";
       results.Path := "/v1/"; results.RawPath := ""; results.RawQuery := "";
       results.Fragment := "" |} in
  ~ In "Accept" ["Forwarded"; "X-Forwarded-Proto"; "X-Forwarded-Host"]
  /\ results.Header (results.direct address request) !! "Accept" = Some ["application/json"]
  /\ results.Header (results.direct address request) !! "X-Forwarded-Host"
     = Some ["localhost:8080"].
Proof.
  intros request address.
  assert (Hk : ~ In "Accept" ["Forwarded"; "X-Forwarded-Proto"; "X-Forwarded-Host"]).
  { cbn. intros [|[|[|[]]]]; discriminate. }
  split; [exact Hk|].
  destruct (direct_headers address request) as (_ & _ & Hh & Ho & _).
  split; [rewrite (Ho "Accept" Hk); reflexivity | exact Hh].
Defined.

Lemma csv_cells_witness :
  let t := {| get.parameters := ["cpu"]; get.metrics := ["latency"] |} in
  let o := {| Item_Assignments :=
                {| Trial_Meta := {| ReportTrial_ := "/experiments/e/trials/7" |};
                   Assignments := [ {| ParameterName := "cpu"; AssignmentValue := "500" |} ] |};
              Item_Values :=
                {| Values := [ {| MetricName := "latency"; Value_ := 4602678819172646912%Z;
                                  Error_ := 0%Z |} ];
                   Failed := false |};
              Status := TrialCompleted; Labels := ∅ |} in
  strings.ToLower "CSV" = "csv"
  /\ In "metric_latency" (get.Columns t "CSV")
  /\ get.ExtractValue (get.TrialItemPtr o) "metric_latency" = ("0.5", None).
Proof.
  intros t o.
  assert (H1 : strings.ToLower "CSV" = "csv") by reflexivity.
  assert (H2 : In "metric_latency" (get.Columns t "CSV")) by (vm_compute; auto).
  split; [exact H1|]. split; [exact H2|].
  destruct (@csv_cells SampleEngine.floats t "CSV" o "metric_latency" H1 H2)
    as [(p & _ & Hp & _) | (m & _ & Hm & Hv)].
  - vm_compute in Hp. discriminate Hp.
  - rewrite Hv. vm_compute in Hm. injection Hm as <-. reflexivity.
Defined.

Lemma trial_name_cell_witness :
  let o := {| Item_Assignments :=
                {| Trial_Meta := {| ReportTrial_ := "/experiments/e/trials/7" |};
                   Assignments := [] |};
              Item_Values := {| Values := []; Failed := false |};
              Status := TrialActive; Labels := ∅ |} in
  "7" <> "" /\ strings.byte_in "/" "7" = false
  /\ (get.ExtractValue (get.TrialItemPtr o) "name").1 = "7".
Proof.
  intros o.
  assert (H1 : "7" <> "") by discriminate.
  assert (H2 : strings.byte_in "/" "7" = false) by reflexivity.
  split; [exact H1|]. split; [exact H2|].
  destruct (@trial_name_cell SampleEngine.floats o) as (_ & _ & H & _).
  exact (H "/experiments/e/trials" "7" eq_refl H1 H2).
Defined.

Lemma getRedSkyAPITrialList_without_trials_witness :
  let c := Sample.always 200 ∅ Sample.empty_object in
  let meta := {| get.parameters := ["cpu"]; get.metrics := [] |} in
  run c (GetExperimentByName "e") = (Experiment_zero, None)
  /\ Trials_ (Experiment_Meta Experiment_zero) = ""
  /\ run c (get.getRedSkyAPITrialList "e" meta) = (meta, Some TrialList_zero, None)
  /\ length (sent c (get.getRedSkyAPITrialList "e" meta)) = 1.
Proof.
  intros c meta.
  assert (H1 : run c (GetExperimentByName "e") = (Experiment_zero, None))
    by (vm_compute; reflexivity).
  split; [exact H1|]. split; [reflexivity|].
  destruct (@getRedSkyAPITrialList_without_trials Sample.env c "e" meta Experiment_zero)
    as [_ H].
  destruct (H H1 eq_refl) as [Hr Hs]. split.
  - rewrite Hr. reflexivity.
  - rewrite Hs. vm_compute. reflexivity.
Defined.

Lemma getRedSkyAPITrialList_with_trials_witness :
  let c := Sample.always 200
             {[ "Link" := ["</experiments/e/trials>; rel=https://carbonrelay.com/rel/trials"] ]}
             Sample.empty_object in
  let exp := {| Experiment_Meta := {| Self := ""; Trials_ := "/experiments/e/trials";
                                      NextTrial_ := "" |};
                DisplayName := "";
                Optimization_ := {| ExperimentBudget := 0; ParallelTrials := 0; BurnIn := 0 |};
                Metrics := []; Parameters_ := [] |} in
  let meta := {| get.parameters := []; get.metrics := [] |} in
  run c (GetExperimentByName "e") = (exp, None)
  /\ Trials_ (Experiment_Meta exp) <> ""
  /\ run c (get.getRedSkyAPITrialList "e" meta) = (meta, Some TrialList_zero, None)
  /\ length (sent c (get.getRedSkyAPITrialList "e" meta)) = 2.
Proof.
  intros c exp meta.
  assert (H1 : run c (GetExperimentByName "e") = (exp, None)) by (vm_compute; reflexivity).
  assert (H2 : Trials_ (Experiment_Meta exp) <> "") by discriminate.
  split; [exact H1|]. split; [exact H2|].
  destruct (@getRedSkyAPITrialList_with_trials Sample.env c "e" meta exp H1 H2)
    as (Hr & Hs & _).
  split.
  - rewrite Hr. vm_compute. reflexivity.
  - rewrite Hs. vm_compute. reflexivity.
Defined.

Lemma experiment_name_is_one_segment_witness :
  In (json_request "PUT" "http://redsky.test/experiments/..%2Fadmin" Sample.zero_experiment)
     (sent (Sample.always 201 ∅ []) (CreateExperiment "../admin" Experiment_zero))
  /\ http.URL (json_request "PUT" "http://redsky.test/experiments/..%2Fadmin"
                 Sample.zero_experiment)
     = client_URL ("/experiments/" ++ url.PathEscape "../admin")
  /\ free_of "/?#; ," (url.PathEscape "../admin") = true.
Proof.
  assert (Hin : In (json_request "PUT" "http://redsky.test/experiments/..%2Fadmin"
                      Sample.zero_experiment)
                   (sent (Sample.always 201 ∅ [])
                      (CreateExperiment "../admin" Experiment_zero)))
    by (left; reflexivity).
  split; [exact Hin|].
  destruct (@experiment_name_is_one_segment Sample.env "../admin" Experiment_zero)
    as (Hf & _ & H).
  split; [exact (H (Sample.always 201 ∅ []) _ Hin) | exact Hf].
Defined.

(** ** The lists *)

Lemma GetAllTrials_answered `{E : Env} (c : Client) (u : string) resp body :
  url_Parse u = None ->
  c (plain_request "GET" u) = Ok (resp, body) ->
  run c (GetAllTrials u) =
    if (http.StatusCode resp =? 200)%Z then
      ((json_Unmarshal_TrialList body TrialList_zero).1, None)
    else (TrialList_zero, Some (unexpected resp)).
Proof.
  intros Hu Hc. unfold GetAllTrials, NewRequest. rewrite Hu. cbn [run].
  fold (plain_request http.MethodGet u). change http.MethodGet with "GET". rewrite Hc.
  unfold http.StatusOK.
  destruct (http.StatusCode resp =? 200)%Z; [|reflexivity].
  destruct (json_Unmarshal_TrialList _ _). reflexivity.
Qed.

(** X24. A list that the transport answers is returned without error on
    status 200 and on no other: the body does not matter to the error. A
    missing experiment or page, 404, is no error of the API but the
    unexpected-response error, and comes with the empty list. *)
Theorem lists_succeed_on_200_only `{E : Env} (c : Client) (u : string) resp body :
  url_Parse u = None ->
  c (plain_request "GET" u) = Ok (resp, body) ->
  ((run c (GetAllTrials u)).2 = None <-> http.StatusCode resp = 200%Z)
  /\ ((run c (GetAllExperimentsByPage u)).2 = None <-> http.StatusCode resp = 200%Z)
  /\ (http.StatusCode resp <> 200%Z -> http.StatusCode resp <> 401%Z ->
      run c (GetAllTrials u)
      = (TrialList_zero, Some (unexpected_response (http.StatusCode resp)))
      /\ run c (GetAllExperimentsByPage u)
         = (ExperimentList_zero, Some (unexpected_response (http.StatusCode resp)))).
Proof.
  intros Hu Hc.
  rewrite (GetAllTrials_answered c u resp body Hu Hc),
          (GetAllExperimentsByPage_answered c u resp body Hu Hc).
  destruct (Z.eqb_spec (http.StatusCode resp) 200) as [H200|H200].
  - repeat split; auto; intros; contradiction.
  - repeat split; try (cbn; intros; first [discriminate | contradiction]).
    all: rewrite unexpected_other by (unfold http.StatusUnauthorized; assumption);
      reflexivity.
Qed.

Lemma lists_succeed_on_200_only_witness :
  let c := Sample.always 404 ∅ Sample.no_trials in
  url_Parse "http://redsky.test/experiments/e/trials" = None
  /\ c (plain_request "GET" "http://redsky.test/experiments/e/trials")
     = Ok ({| http.StatusCode := 404; http.Header := ∅ |}, Sample.no_trials)
  /\ run c (GetAllTrials "http://redsky.test/experiments/e/trials")
     = (TrialList_zero, Some (unexpected_response 404)).
Proof.
  intros c. split; [reflexivity|]. split; [reflexivity|].
  destruct (@lists_succeed_on_200_only Sample.env c "http://redsky.test/experiments/e/trials"
              {| http.StatusCode := 404; http.Header := ∅ |} Sample.no_trials)
    as (_ & _ & H); [reflexivity | reflexivity |].
  destruct H as [H _]; [discriminate | discriminate | exact H].
Defined.
